(** * RomComma data storage: folds, normalization and rotation

    A shallow embedding of [rc/data/models.py] (classes [Repository],
    [Fold], [Normalization]) and of its earlier revision
    [romcomma/data.py] (classes [Store], [Fold], [Normalization]).

    Conventions.
    - Python [int] arguments that may be negative are [Z]; sizes, row
      positions and fold numbers are [nat].
    - Floating point numbers are idealised as the real numbers [R].
    - [random.shuffle] is an operation of a random source whose only
      contract is that the shuffled list is a permutation of its input.
    - The file system is a finite tree seen as a function from paths to
      nodes; Python exceptions are values of type [exn]. *)

From Stdlib Require Import String.
From Stdlib Require Import List Arith PeanoNat ZArith Lia Bool Permutation.
From Stdlib Require Import Reals Lra Psatz.
Import ListNotations.

Set Implicit Arguments.

(** ** The process-wide random source *)

(** [random.shuffle(l)] shuffles [l] in place and advances the state of the
    generator. *)
Class RandomSource (G : Type) := {
  shuffle : list nat -> G -> list nat * G;
  shuffle_perm : forall l g, Permutation l (fst (shuffle l g))
}.

(** ** The partition of row positions into folds

    Lines 160-170 of [Repository.into_K_folds] ([models.py]) and lines
    180-190 of [Store.into_K_folds] ([data.py]). *)

Section Partition.
Context {G : Type} `{RandomSource G}.

(** [index = list(range(N)); if shuffle_before_folding: random.shuffle(index)] *)
Definition shuffled_index (N : nat) (shuffle_before_folding : bool) (g : G)
  : list nat * G :=
  if shuffle_before_folding then shuffle (seq 0 N) g else (seq 0 N, g).

(** [K_blocks = [list(range(K)) for dummy in range(int(N / K))]]
    [K_blocks.append(list(range(N % K)))] *)
Definition K_blocks (N K : nat) : list (list nat) :=
  repeat (seq 0 K) (N / K) ++ [seq 0 (N mod K)].

(** [for K_range in K_blocks: random.shuffle(K_range)] *)
Fixpoint shuffle_each (blocks : list (list nat)) (g : G)
  : list (list nat) * G :=
  match blocks with
  | [] => ([], g)
  | K_range :: rest =>
      let (K_range', g1) := shuffle K_range g in
      let (rest', g2) := shuffle_each rest g1 in
      (K_range' :: rest', g2)
  end.

(** [indicator]: the blocks chained by [itertools.chain] into one list. *)
Definition make_indicator (N K : nat) (g : G) : list nat * G :=
  let (blocks, g') := shuffle_each (K_blocks N K) g in (concat blocks, g').

(** [[index for index, indicator in indicated if k != indicator]] *)
Definition data_index (k : nat) (indicated : list (nat * nat)) : list nat :=
  map fst (filter (fun p => negb (k =? snd p)) indicated).

(** [[index for index, indicator in indicated if k == indicator]] *)
Definition test_index (k : nat) (indicated : list (nat * nat)) : list nat :=
  map fst (filter (fun p => k =? snd p) indicated).

(** [models.py]: [data_index = test_index if data_index == [] else data_index] *)
Definition swap_if_empty (data test : list nat) : list nat :=
  match data with [] => test | _ :: _ => data end.

(** Whether the training := test swap is taken for fold [k]. *)
Definition swapped (k : nat) (indicated : list (nat * nat)) : bool :=
  match data_index k indicated with [] => true | _ :: _ => false end.

(** The (training, test) row positions handed to [Fold.from_dfs] for
    proper fold [k]: the body of [for k in range(K)]. *)
Definition proper_fold (k : nat) (index indicator : list nat)
  : list nat * list nat :=
  let indicated := combine index indicator in
  (swap_if_empty (data_index k indicated) (test_index k indicated),
   test_index k indicated).

(** The same loop body in [data.py], which has no swap. *)
Definition proper_fold_store (k : nat) (index indicator : list nat)
  : list nat * list nat :=
  let indicated := combine index indicator in
  (data_index k indicated, test_index k indicated).

(** The row positions of all proper folds of one call, with the random
    source used in program order: first [index], then the blocks. *)
Definition folding (N K : nat) (shuffle_before_folding : bool) (g : G)
  : list nat * list nat * G :=
  let (index, g1) := shuffled_index N shuffle_before_folding g in
  let (indicator, g2) := make_indicator N K g1 in
  (index, indicator, g2).

Definition fold_rows (N K : nat) (sbf : bool) (g : G) (k : nat)
  : list nat * list nat :=
  let '(index, indicator, _) := folding N K sbf g in
  proper_fold k index indicator.

Definition fold_rows_store (N K : nat) (sbf : bool) (g : G) (k : nat)
  : list nat * list nat :=
  let '(index, indicator, _) := folding N K sbf g in
  proper_fold_store k index indicator.

Definition fold_swapped (N K : nat) (sbf : bool) (g : G) (k : nat) : bool :=
  let '(index, indicator, _) := folding N K sbf g in
  swapped k (combine index indicator).

End Partition.

(** ** Exceptions, paths and files *)

Inductive exn :=
| IndexError | KeyError | AssertionError
| FileExistsError | FileNotFoundError | OtherError.

Inductive result (A : Type) : Type :=
| Ok (a : A)
| Raise (e : exn).
Arguments Raise {A} e.

(** A path is its list of components; [f'fold.{k:d}'] is the component
    [fold_ k] (the format is injective in [k]). *)
Inductive component :=
| Named (s : String.string)
| fold_ (k : nat).

Definition path := list component.

Definition component_eqb (a b : component) : bool :=
  match a, b with
  | Named s, Named t => String.eqb s t
  | fold_ i, fold_ j => i =? j
  | _, _ => false
  end.

Fixpoint path_eqb (p q : path) : bool :=
  match p, q with
  | [], [] => true
  | a :: p', b :: q' => component_eqb a b && path_eqb p' q'
  | _, _ => false
  end.

(** [is_under folder p]: [p] is [folder] or lies below it. *)
Fixpoint is_under (folder p : path) : bool :=
  match folder, p with
  | [], _ => true
  | a :: folder', b :: p' => component_eqb a b && is_under folder' p'
  | _ :: _, [] => false
  end.

(** Column headers (first level) and row labels of a table. *)
Inductive heading := Category | Input | Output | Column (j : nat).

Definition heading_eqb (a b : heading) : bool :=
  match a, b with
  | Category, Category | Input, Input | Output, Output => true
  | Column i, Column j => i =? j
  | _, _ => false
  end.

Inductive label := Row (i : nat) | Stat (s : String.string).

Definition label_eqb (a b : label) : bool :=
  match a, b with
  | Row i, Row j => i =? j
  | Stat s, Stat t => String.eqb s t
  | _, _ => false
  end.

(** A [pd.DataFrame]: row labels, column headers, and the rows of values. *)
Record DataFrame := {
  index : list label;
  columns : list heading;
  values : list (list R)
}.

(** The metadata dictionary [_meta], with the entries of [meta['data']]
    flattened. *)
Record Meta := {
  meta_K : nat;
  meta_has_improper_fold : bool;
  meta_shuffle_before_folding : bool;
  meta_N : nat;
  meta_M : nat;
  meta_L : nat;
  meta_k : option nat
}.

Inductive content :=
| Csv (df : DataFrame)
| Json (meta : Meta).

Inductive node :=
| Dir
| File (c : content).

Definition filesystem := path -> option node.

(** ** Tables of reals *)

Definition Rsum (l : list R) : R := fold_right Rplus 0%R l.

Definition map2 {A B C : Type} (f : A -> B -> C) (l : list A) (l' : list B)
  : list C :=
  map (fun p => f (fst p) (snd p)) (combine l l').


Definition column (j : nat) (rows : list (list R)) : list R :=
  map (fun r => nth j r 0%R) rows.





(** [df.empty]: one of the two axes has length 0. *)
Definition empty (d : DataFrame) : bool :=
  (length (index d) =? 0) || (length (columns d) =? 0).

(** [pd.DataFrame()] *)
Definition no_frame : DataFrame := {| index := []; columns := []; values := [] |}.


(** [df.shape[0]] *)
Definition n_rows (d : DataFrame) : nat := length (index d).

(** [df.iloc[positions]]: rows by position; a position outside the frame
    raises [IndexError]. *)
Definition iloc (d : DataFrame) (positions : list nat) : result DataFrame :=
  if forallb (fun i => i <? n_rows d) positions then
    Ok {| index := map (fun i => nth i (index d) (Row 0)) positions;
          columns := columns d;
          values := map (fun i => nth i (values d) []) positions |}
  else Raise IndexError.

(** [df.index.get_loc(name)]: the position of a row label, [KeyError] when
    it is absent. *)
Fixpoint get_loc (name : label) (labels : list label) : result nat :=
  match labels with
  | [] => Raise KeyError
  | l :: rest =>
      if label_eqb name l then Ok 0
      else match get_loc name rest with
           | Ok i => Ok (S i)
           | Raise e => Raise e
           end
  end.

(** *** Column statistics of pandas

    [df.mean()] is the arithmetic mean of each column and [df.std()] its
    standard deviation with the pandas default [ddof=1], that is with
    divisor [n - 1]. *)
Definition mean_of (c : list R) : R := (Rsum c / INR (length c))%R.

Definition std_of (c : list R) : R :=
  sqrt (Rsum (map (fun x => Rsqr (x - mean_of c)) c) / (INR (length c) - 1))%R.

(** The population standard deviation (divisor [n]), for comparison. *)
Definition population_std_of (c : list R) : R :=
  sqrt (Rsum (map (fun x => Rsqr (x - mean_of c)) c) / INR (length c))%R.

Definition per_column (f : list R -> R) (d : DataFrame) : list R :=
  map (fun j => f (column j (values d))) (seq 0 (length (columns d))).

(** ** The standard normal distribution of scipy

    [scipy.stats.norm.cdf] and [scipy.stats.norm.ppf] enter through the one
    property the transforms rely on: on the open unit interval the
    distribution function undoes the quantile function. *)
Class NormalDistribution := {
  norm_cdf : R -> R;
  norm_ppf : R -> R;
  norm_cdf_ppf : forall u : R, (0 < u < 1)%R -> norm_cdf (norm_ppf u) = u
}.

(** ** The world: file system and random source, with exceptions *)

Section World.
Context {G : Type} `{RandomSource G} `{NormalDistribution}.

Record world := { fs : filesystem; rng : G }.

Definition M (A : Type) : Type := world -> result A * world.

Definition ret {A : Type} (a : A) : M A := fun w => (Ok a, w).

Definition raise {A : Type} (e : exn) : M A := fun w => (Raise e, w).

Definition bind {A B : Type} (c : M A) (f : A -> M B) : M B :=
  fun w =>
    match c w with
    | (Ok a, w') => f a w'
    | (Raise e, w') => (Raise e, w')
    end.

Notation "x <- c1 ;; c2" := (bind c1 (fun x => c2))
  (at level 61, c1 at next level, right associativity).
Notation "c1 ;; c2" := (bind c1 (fun _ => c2))
  (at level 61, right associativity).

Definition lift {A : Type} (r : result A) : M A := fun w => (r, w).

(** Run a consumer of the random source. *)
Definition with_rng {A : Type} (f : G -> A * G) : M A :=
  fun w => let (a, g) := f (rng w) in (Ok a, {| fs := fs w; rng := g |}).

(** [for a in l: body(a)] *)
Fixpoint for_each {A : Type} (l : list A) (body : A -> M unit) : M unit :=
  match l with
  | [] => ret tt
  | a :: l' => body a ;; for_each l' body
  end.

(** [path.exists()] *)
Definition exists_ (p : path) : M bool :=
  fun w => (Ok (match fs w p with Some _ => true | None => false end), w).

(** [shutil.rmtree(folder, ignore_errors)]: a directory goes with all
    below it; anything else is an error, raised unless ignored. *)
Definition rmtree (folder : path) (ignore_errors : bool) : M unit :=
  fun w =>
    match fs w folder with
    | Some Dir =>
        (Ok tt, {| fs := fun p => if is_under folder p then None else fs w p;
                   rng := rng w |})
    | Some (File _) => if ignore_errors then (Ok tt, w) else (Raise OtherError, w)
    | None => if ignore_errors then (Ok tt, w) else (Raise FileNotFoundError, w)
    end.

(** [folder.mkdir(mode=0o777, parents=True, exist_ok)] *)
Definition mkdir (folder : path) (exist_ok : bool) : M unit :=
  fun w =>
    match fs w folder with
    | Some Dir => if exist_ok then (Ok tt, w) else (Raise FileExistsError, w)
    | Some (File _) => (Raise FileExistsError, w)
    | None =>
        (Ok tt, {| fs := fun p => if is_under p folder
                                  then match fs w p with
                                       | None => Some Dir
                                       | Some n => Some n
                                       end
                                  else fs w p;
                   rng := rng w |})
    end.

Definition write_file (p : path) (c : content) : M unit :=
  fun w => (Ok tt, {| fs := fun q => if path_eqb q p then Some (File c) else fs w q;
                      rng := rng w |}).

(** [pd.read_csv(p, ...)] *)
Definition read_csv (p : path) : M DataFrame :=
  fun w =>
    match fs w p with
    | Some (File (Csv d)) => (Ok d, w)
    | Some _ => (Raise OtherError, w)
    | None => (Raise FileNotFoundError, w)
    end.

(** [json.load] of a metadata file *)
Definition read_json (p : path) : M Meta :=
  fun w =>
    match fs w p with
    | Some (File (Json m)) => (Ok m, w)
    | Some _ => (Raise OtherError, w)
    | None => (Raise FileNotFoundError, w)
    end.

(** [shutil.copy(src, dst)] *)
Definition copy (src dst : path) : M unit :=
  fun w =>
    match fs w src with
    | Some (File c) => write_file dst c w
    | Some Dir => (Raise OtherError, w)
    | None => (Raise FileNotFoundError, w)
    end.

(** *** [DataTable] (the class quoted at the head of [models.py], which
    is [Frame] of [data.py]) *)

Record DataTable := { _csv : path; df : DataFrame }.

(** [is_empty]: the path has no parts. *)
Definition is_empty (t : DataTable) : bool :=
  match _csv t with [] => true | _ :: _ => false end.

Definition DataTable_write (t : DataTable) : M unit :=
  if is_empty t then raise AssertionError
  else write_file (_csv t) (Csv (df t)).

(** [DataTable(csv, df)]; [DataTable(csv)] is [DataTable_init csv no_frame]. *)
Definition DataTable_init (csv : path) (d : DataFrame) : M DataTable :=
  let self := {| _csv := csv; df := d |} in
  if is_empty self then
    if empty d then ret self else raise AssertionError
  else if empty d then
    d' <- read_csv csv ;; ret {| _csv := csv; df := d' |}
  else
    DataTable_write self ;; ret self.

(** *** [Normalization] *)

(** [UNIFORM_MARGIN = 1.0E-12] *)
Definition UNIFORM_MARGIN : R := (/ 10 ^ 12)%R.

(** [_fold] stands for the folder of the owning fold (or repository);
    [self._fold.M] is handed to the methods that read it. *)
Record Normalization := {
  _fold : path;
  _is_applicable : bool;
  _frame : option DataTable
}.

Definition Normalization_csv (self : Normalization) : path :=
  _fold self ++ [Named "normalization.csv"%string].

(** The table written by [Normalization.__init__]: the transpose of
    [pd.concat((mean, std, 2 * semi_range, m_min, m_max), axis=1)]; the
    series [2 * semi_range] keeps the name ['rng']. *)
Definition statistics (data : DataFrame) : DataFrame :=
  let mean := per_column mean_of data in
  let std := per_column std_of data in
  let semi_range := map (fun s => s * sqrt 3)%R std in
  let m_min := map2 Rminus mean semi_range in
  let m_max := map2 Rplus mean semi_range in
  {| index := [Stat "mean"; Stat "std"; Stat "rng"; Stat "min"; Stat "max"];
     columns := columns data;
     values := [mean; std; map (fun s => 2 * s)%R semi_range; m_min; m_max] |}.

(** [Normalization(fold, data, is_applicable)] *)
Definition Normalization_init (fold : path) (data : option DataFrame)
    (is_applicable : bool) : M Normalization :=
  let self := {| _fold := fold; _is_applicable := is_applicable;
                 _frame := None |} in
  e <- exists_ (Normalization_csv self) ;;
  if e then
    t <- DataTable_init (Normalization_csv self) no_frame ;;
    ret {| _fold := fold; _is_applicable := is_applicable; _frame := Some t |}
  else
    match data with
    | None => ret self
    | Some data =>
        t <- DataTable_init (Normalization_csv self) (statistics data) ;;
        ret {| _fold := fold; _is_applicable := is_applicable;
               _frame := Some t |}
    end.

(** The property [DataTable]: the frame is read from the file the first
    time it is asked for while [_frame] is [None], and kept. *)
Definition Normalization_DataTable (self : Normalization)
  : M (DataTable * Normalization) :=
  match _frame self with
  | Some t => ret (t, self)
  | None =>
      t <- DataTable_init (Normalization_csv self) no_frame ;;
      ret (t, {| _fold := _fold self; _is_applicable := _is_applicable self;
                 _frame := Some t |})
  end.

(** One row of the statistics table, by name. *)
Definition stat_row (name : String.string) (t : DataTable) : M (list R) :=
  i <- lift (get_loc (Stat name) (index (df t))) ;;
  ret (nth i (values (df t)) []).

Record relevant := { X_min : list R; X_rng : list R;
                     Y_mean : list R; Y_std : list R }.

(** [_relevant_stats], with [fold_M] for [self._fold.M] *)
Definition _relevant_stats (self : Normalization) (fold_M : nat)
  : M (relevant * Normalization) :=
  p <- Normalization_DataTable self ;;
  let (t, self') := p in
  r_min <- stat_row "min"%string t ;;
  r_rng <- stat_row "rng"%string t ;;
  r_mean <- stat_row "mean"%string t ;;
  r_std <- stat_row "std"%string t ;;
  ret ({| X_min := firstn fold_M r_min; X_rng := firstn fold_M r_rng;
          Y_mean := skipn fold_M r_mean; Y_std := skipn fold_M r_std |},
       self').

(** [.clip(lower, upper)] *)
Definition clip (lower upper x : R) : R := Rmin (Rmax x lower) upper.

(** The row transform of [apply_to]. The statistics carry the column
    labels of the frame they were computed from, so that the label
    alignment of [sub] and [div] pairs the columns by position. *)
Definition apply_row (s : relevant) (fold_M : nat) (row : list R) : list R :=
  let X := firstn fold_M row in
  let Y := skipn fold_M row in
  let X := map (clip UNIFORM_MARGIN (1 - UNIFORM_MARGIN))
               (map2 Rdiv (map2 Rminus X (X_min s)) (X_rng s)) in
  let X := map norm_ppf X in
  let Y := map2 Rdiv (map2 Rminus Y (Y_mean s)) (Y_std s) in
  X ++ Y.

(** The row transform of [undo_from]. *)
Definition undo_row (s : relevant) (fold_M : nat) (row : list R) : list R :=
  let X := firstn fold_M row in
  let Y := skipn fold_M row in
  let X := map norm_cdf X in
  let X := map2 Rplus (map2 Rmult X (X_rng s)) (X_min s) in
  let Y := map2 Rplus (map2 Rmult Y (Y_std s)) (Y_mean s) in
  X ++ Y.

Definition with_values (d : DataFrame) (v : list (list R)) : DataFrame :=
  {| index := index d; columns := columns d; values := v |}.

(** [Normalization.apply_to(df)] *)
Definition apply_to (self : Normalization) (fold_M : nat) (d : DataFrame)
  : M (DataFrame * Normalization) :=
  if _is_applicable self then
    p <- _relevant_stats self fold_M ;;
    let (s, self') := p in
    ret (with_values d (map (apply_row s fold_M) (values d)), self')
  else ret (d, self).

(** [Normalization.undo_from(df)] *)
Definition undo_from (self : Normalization) (fold_M : nat) (d : DataFrame)
  : M (DataFrame * Normalization) :=
  if _is_applicable self then
    p <- _relevant_stats self fold_M ;;
    let (s, self') := p in
    ret (with_values d (map (undo_row s fold_M) (values d)), self')
  else ret (d, self).


(** *** [Repository] ([models.py]) *)

Record Repository := {
  _folder : path;
  _meta : Meta;
  _data : DataTable
}.

(** The file names of a repository, as given in the docstring of
    [Fold]: [data.csv], [meta.json], [test.csv]. *)
Definition Repository_csv (folder : path) : path :=
  folder ++ [Named "data.csv"%string].

Definition meta_json (folder : path) : path :=
  folder ++ [Named "meta.json"%string].

(** [fold_folder(k)] *)
Definition fold_folder (folder : path) (k : nat) : path :=
  folder ++ [fold_ k].

(** [cls.META]: the default metadata, [defaultMetaData] of the class. *)
Definition META : Meta :=
  {| meta_K := 0; meta_has_improper_fold := true;
     meta_shuffle_before_folding := false;
     meta_N := 0; meta_M := 0; meta_L := 0; meta_k := None |}.

(** Modelled from the spec: [write_meta] belongs to [rc.base.models],
    which is not among the sources; the metadata document of the folder is
    rewritten from [_meta], as [Store._write_meta_json] does. *)
Definition write_meta (folder : path) (meta : Meta) : M unit :=
  write_file (meta_json folder) (Json meta).

(** Modelled from the spec: [read_meta] belongs to [rc.base.models]; it
    loads the metadata document, as [Store._read_meta_json] does. *)
Definition read_meta (folder : path) : M Meta := read_json (meta_json folder).

(** The number of columns under the header of the first column
    ([X_heading]) and under that of the last column ([Y_heading]). *)
Definition count_heading (h : heading) (d : DataFrame) : nat :=
  length (filter (heading_eqb h) (columns d)).

Definition X_width (d : DataFrame) : nat :=
  match columns d with [] => 0 | h :: _ => count_heading h d end.

Definition Y_width (d : DataFrame) : nat :=
  match rev (columns d) with [] => 0 | h :: _ => count_heading h d end.

(** Modelled from the spec: [_update_meta] belongs to [rc.base.models];
    it records the shape N, M, L of the data in the metadata and persists
    it, as [Store.meta_update] does. *)
Definition _update_meta (self : Repository) : M Repository :=
  let d := df (_data self) in
  let meta := {| meta_K := meta_K (_meta self);
                 meta_has_improper_fold := meta_has_improper_fold (_meta self);
                 meta_shuffle_before_folding :=
                   meta_shuffle_before_folding (_meta self);
                 meta_N := n_rows d; meta_M := X_width d; meta_L := Y_width d;
                 meta_k := meta_k (_meta self) |} in
  write_meta (_folder self) meta ;;
  ret {| _folder := _folder self; _meta := meta; _data := _data self |}.

(** [Repository.__init__(folder, init_mode=CREATE)]: the [else] branch. *)
Definition Repository_create (folder : path) : M unit :=
  rmtree folder true ;;
  mkdir folder false.

(** [Repository.__init__(folder)] in the default mode [READ]. *)
Definition Repository_read (folder : path) : M Repository :=
  meta <- read_meta folder ;;
  data <- DataTable_init (Repository_csv folder) no_frame ;;
  ret {| _folder := folder; _meta := meta; _data := data |}.


(** The property [folds] of a repository that is not itself a fold. *)
Definition folds (self : Repository) : list nat :=
  if meta_K (_meta self) <? 1 then []
  else seq 0 (meta_K (_meta self)
              + (if meta_has_improper_fold (_meta self) then 1 else 0)).

(** *** [Fold] ([models.py]) *)

Record Fold := {
  repository :> Repository;
  _test_data : DataTable;
  _normalization : Normalization
}.


Definition _test_csv (folder : path) : path :=
  folder ++ [Named "test.csv"%string].


Definition with_k (meta : Meta) (k : nat) : Meta :=
  {| meta_K := meta_K meta;
     meta_has_improper_fold := meta_has_improper_fold meta;
     meta_shuffle_before_folding := meta_shuffle_before_folding meta;
     meta_N := meta_N meta; meta_M := meta_M meta; meta_L := meta_L meta;
     meta_k := Some k |}.

(** [Fold.from_dfs(parent, k, data, test_data, normalization,
    is_normalization_applicable)] *)
Definition from_dfs (parent : Repository) (k : nat)
    (data test_data : DataFrame) (normalization : option path)
    (is_normalization_applicable : bool) : M Fold :=
  let folder := fold_folder (_folder parent) k in
  Repository_create folder ;;
  let meta := with_k (_meta parent) k in
  n <- Normalization_init folder (Some data) is_normalization_applicable ;;
  match normalization with
  | Some p => copy p (Normalization_csv n)
  | None => ret tt
  end ;;
  p <- apply_to n (meta_M meta) data ;;
  let (d, n) := p in
  _data' <- DataTable_init (Repository_csv folder) d ;;
  p <- apply_to n (meta_M meta) test_data ;;
  let (t, n) := p in
  _test_data' <- DataTable_init (_test_csv folder) t ;;
  r <- _update_meta {| _folder := folder; _meta := meta; _data := _data' |} ;;
  ret {| repository := r; _test_data := _test_data'; _normalization := n |}.





(** *** [Repository.into_K_folds] ([models.py]) *)

Definition update_folding (meta : Meta) (K : nat) (improper sbf : bool) : Meta :=
  {| meta_K := K; meta_has_improper_fold := improper;
     meta_shuffle_before_folding := sbf;
     meta_N := meta_N meta; meta_M := meta_M meta; meta_L := meta_L meta;
     meta_k := meta_k meta |}.

Definition into_K_folds (self : Repository) (K : Z)
    (shuffle_before_folding : bool) (normalization : option path)
    (is_normalization_applicable : bool) : M Repository :=
  let data := df (_data self) in
  let N := n_rows data in
  if negb ((1 <=? Z.abs K)%Z && (Z.abs K <=? Z.of_nat N)%Z) then
    raise IndexError
  else
    for_each (seq 0 (Nat.max (Z.abs_nat K) (meta_K (_meta self)) + 1))
             (fun k => rmtree (fold_folder (_folder self) k) true) ;;
    index <- with_rng (shuffled_index N shuffle_before_folding) ;;
    let self := {| _folder := _folder self;
                   _meta := update_folding (_meta self) (Z.abs_nat K)
                              (0 <? K)%Z shuffle_before_folding;
                   _data := _data self |} in
    write_meta (_folder self) (_meta self) ;;
    normalization <-
      match normalization with
      | None =>
          n <- Normalization_init (_folder self) (Some data) true ;;
          ret (Normalization_csv n)
      | Some p => ret p
      end ;;
    (if (0 <? K)%Z then
       all <- lift (iloc data index) ;;
       from_dfs self (Z.abs_nat K) all all (Some normalization)
                is_normalization_applicable ;;
       ret tt
     else ret tt) ;;
    let K := Z.abs_nat K in
    indicator <- with_rng (make_indicator N K) ;;
    for_each (seq 0 K)
      (fun k =>
         let (data_index, test_index) := proper_fold k index indicator in
         train <- lift (iloc data data_index) ;;
         test <- lift (iloc data test_index) ;;
         from_dfs self k train test (Some normalization)
                  is_normalization_applicable ;;
         ret tt) ;;
    ret self.

(** *** The earlier revision: [Store] and its [Fold] ([data.py]) *)


Definition Store_meta_json (folder : path) : path :=
  folder ++ [Named "__meta__.json"%string].







(** [Store.into_K_folds(K, shuffle_before_folding, normalization)].
    [Fold.from_dfs] of [data.py] is a parameter: its [apply_to] is left
    with an unresolved merge in the source. *)
Definition Store_into_K_folds
    (Fold_from_dfs : Repository -> nat -> DataFrame -> DataFrame ->
                     option path -> M unit)
    (self : Repository) (K : Z) (shuffle_before_folding : bool)
    (normalization : option path) : M Z :=
  let data := df (_data self) in
  let N := n_rows data in
  if negb ((1 <=? K)%Z && (K <=? Z.of_nat N)%Z) then
    raise IndexError
  else
    let K' := Z.to_nat K in
    for_each (seq (K' + 1) (meta_K (_meta self) - K'))
             (fun k => rmtree (fold_folder (_folder self) k) false) ;;
    let self := {| _folder := _folder self;
                   _meta := update_folding (_meta self) K'
                              (meta_has_improper_fold (_meta self))
                              shuffle_before_folding;
                   _data := _data self |} in
    write_file (Store_meta_json (_folder self)) (Json (_meta self)) ;;
    index <- with_rng (shuffled_index N shuffle_before_folding) ;;
    (if (1 <? K)%Z then
       indicator <- with_rng (make_indicator N K') ;;
       for_each (seq 0 K')
         (fun k =>
            let (data_index, test_index) :=
              proper_fold_store k index indicator in
            train <- lift (iloc data data_index) ;;
            test <- lift (iloc data test_index) ;;
            Fold_from_dfs self k train test normalization)
     else ret tt) ;;
    all <- lift (iloc data index) ;;
    Fold_from_dfs self K' all all normalization ;;
    ret K.

End World.

(** * Properties *)

(** ** Random sources and distributions to run the model with *)

(** A generator that never moves anything: one possible run of
    [random.shuffle]. *)
#[export] Instance still : RandomSource unit := {|
  shuffle := fun l g => (l, g);
  shuffle_perm := fun l _ => Permutation_refl l
|}.

(** A generator whose state is a counter: the list is rotated left by the
    counter, which is then incremented. *)
Definition rotate_left (n : nat) (l : list nat) : list nat :=
  skipn (n mod (length l)) l ++ firstn (n mod (length l)) l.

Lemma rotate_left_perm n l : Permutation l (rotate_left n l).
Proof.
  unfold rotate_left.
  rewrite <- (firstn_skipn (n mod length l) l) at 1.
  apply Permutation_app_comm.
Qed.

#[export] Instance turning : RandomSource nat := {|
  shuffle := fun l g => (rotate_left g l, S g);
  shuffle_perm := fun l g => rotate_left_perm g l
|}.

Example fold_rows_10_5 :
  map (fold_rows (G:=nat) 10 5 false 0) (seq 0 5)
  = [ ([1;2;3;4;5;6;7;8], [0;9]); ([0;2;3;4;6;7;8;9], [1;5]);
      ([0;1;3;4;5;7;8;9], [2;6]); ([0;1;2;4;5;6;8;9], [3;7]);
      ([0;1;2;3;5;6;7;9], [4;8]) ].
Proof. reflexivity. Qed.

Example fold_rows_3_1 : fold_rows (G:=unit) 3 1 false tt 0 = ([0;1;2], [0;1;2]).
Proof. reflexivity. Qed.

(** ** The fold indicator *)

Section IndicatorFacts.
Context {G : Type} `{RandomSource G}.

Lemma shuffle_each_perm blocks g :
  Forall2 (@Permutation nat) blocks (fst (shuffle_each blocks g)).
Proof.
  revert g; induction blocks as [|b bs IH]; intro g; simpl.
  - constructor.
  - pose proof (shuffle_perm b g) as P.
    destruct (shuffle b g) as [b' g1].
    specialize (IH g1).
    destruct (shuffle_each bs g1) as [bs' g2].
    simpl in *. now constructor.
Qed.

Lemma concat_perm (bs bs' : list (list nat)) :
  Forall2 (@Permutation nat) bs bs' -> Permutation (concat bs) (concat bs').
Proof.
  induction 1; simpl; [constructor | now apply Permutation_app].
Qed.

(** The indicator is a rearrangement of the unshuffled chain of blocks. *)
Lemma indicator_perm N K g :
  Permutation (concat (K_blocks N K)) (fst (make_indicator N K g)).
Proof.
  unfold make_indicator.
  pose proof (shuffle_each_perm (K_blocks N K) g) as P.
  destruct (shuffle_each (K_blocks N K) g) as [bs g'].
  simpl in *. now apply concat_perm.
Qed.

Lemma length_concat_repeat (l : list nat) q :
  length (concat (repeat l q)) = q * length l.
Proof.
  induction q; simpl; [reflexivity|].
  rewrite length_app, IHq. reflexivity.
Qed.

Lemma count_concat_repeat (l : list nat) q k :
  count_occ Nat.eq_dec (concat (repeat l q)) k = q * count_occ Nat.eq_dec l k.
Proof.
  induction q; simpl; [reflexivity|].
  rewrite count_occ_app, IHq. reflexivity.
Qed.

Lemma count_seq n k :
  count_occ Nat.eq_dec (seq 0 n) k = if k <? n then 1 else 0.
Proof.
  induction n.
  - reflexivity.
  - rewrite seq_S, count_occ_app, IHn. simpl.
    destruct (Nat.eq_dec n k); destruct (Nat.ltb_spec k n);
      destruct (Nat.ltb_spec k (S n)); lia.
Qed.

Lemma length_blocks N K : 0 < K -> length (concat (K_blocks N K)) = N.
Proof.
  intro HK. unfold K_blocks.
  rewrite concat_app, length_app, length_concat_repeat. simpl.
  rewrite app_nil_r, !length_seq.
  pose proof (Nat.div_mod_eq N K). lia.
Qed.

Lemma count_blocks N K k :
  count_occ Nat.eq_dec (concat (K_blocks N K)) k
  = (if k <? K then N / K else 0) + (if k <? N mod K then 1 else 0).
Proof.
  unfold K_blocks.
  rewrite concat_app, count_occ_app, count_concat_repeat. simpl.
  rewrite app_nil_r, !count_seq.
  destruct (k <? K); lia.
Qed.

Lemma length_indicator N K g :
  0 < K -> length (fst (make_indicator N K g)) = N.
Proof.
  intro HK.
  rewrite <- (Permutation_length (indicator_perm N K g)).
  now apply length_blocks.
Qed.

Lemma count_indicator N K g k :
  count_occ Nat.eq_dec (fst (make_indicator N K g)) k
  = (if k <? K then N / K else 0) + (if k <? N mod K then 1 else 0).
Proof.
  rewrite <- count_blocks.
  symmetry. apply Permutation_count_occ. apply indicator_perm.
Qed.

(** Every indicator names a proper fold. *)
Lemma indicator_bound N K g j :
  0 < K -> In j (fst (make_indicator N K g)) -> j < K.
Proof.
  intros HK Hj.
  apply (count_occ_In Nat.eq_dec) in Hj.
  rewrite count_indicator in Hj.
  destruct (Nat.ltb_spec j K) as [|Hge]; [assumption|].
  destruct (Nat.ltb_spec j (N mod K)) as [Hlt|]; [|lia].
  pose proof (Nat.mod_upper_bound N K). lia.
Qed.

Lemma shuffled_index_perm N sbf g :
  Permutation (seq 0 N) (fst (shuffled_index N sbf g)).
Proof.
  unfold shuffled_index. destruct sbf; simpl.
  - apply shuffle_perm.
  - apply Permutation_refl.
Qed.

End IndicatorFacts.

(** ** Selecting rows by indicator *)

Section SelectionFacts.

Lemma in_test_index k i indicated :
  In i (test_index k indicated) <-> In (i, k) indicated.
Proof.
  unfold test_index. rewrite in_map_iff. split.
  - intros [[a b] [E Hin]]. apply filter_In in Hin. destruct Hin as [Hin Hk].
    simpl in *. apply Nat.eqb_eq in Hk. now subst.
  - intro Hin. exists (i, k). split; [reflexivity|].
    apply filter_In. split; [assumption|]. simpl. apply Nat.eqb_refl.
Qed.

Lemma in_data_index k i indicated :
  In i (data_index k indicated) <-> exists j, j <> k /\ In (i, j) indicated.
Proof.
  unfold data_index. rewrite in_map_iff. split.
  - intros [[a b] [E Hin]]. apply filter_In in Hin. destruct Hin as [Hin Hk].
    simpl in *. apply negb_true_iff, Nat.eqb_neq in Hk. subst.
    exists b. split; [congruence | assumption].
  - intros [j [Hj Hin]]. exists (i, j). split; [reflexivity|].
    apply filter_In. split; [assumption|]. simpl.
    apply negb_true_iff, Nat.eqb_neq. congruence.
Qed.

Lemma length_test_index k (index indicator : list nat) :
  length index = length indicator ->
  length (test_index k (combine index indicator))
  = count_occ Nat.eq_dec indicator k.
Proof.
  unfold test_index. rewrite length_map.
  revert indicator; induction index as [|i index IH];
    intros [|j indicator] Hlen; simpl in *; try discriminate; try reflexivity.
  injection Hlen as Hlen. specialize (IH indicator Hlen).
  destruct (Nat.eq_dec j k) as [->|Hne].
  - rewrite Nat.eqb_refl. simpl. now rewrite IH.
  - destruct (Nat.eqb_spec k j); [congruence | assumption].
Qed.

Lemma in_combine_ex (l l' : list nat) a :
  length l = length l' -> In a l -> exists b, In (a, b) (combine l l').
Proof.
  revert l'; induction l as [|x l IH]; intros [|y l'] Hlen Hin;
    simpl in *; try discriminate; try contradiction.
  injection Hlen as Hlen. destruct Hin as [->|Hin].
  - exists y. now left.
  - destruct (IH l' Hlen Hin) as [b Hb]. exists b. now right.
Qed.

Lemma in_combine_ex_r (l l' : list nat) b :
  length l = length l' -> In b l' -> exists a, In (a, b) (combine l l').
Proof.
  revert l'; induction l as [|x l IH]; intros [|y l'] Hlen Hin;
    simpl in *; try discriminate; try contradiction.
  injection Hlen as Hlen. destruct Hin as [->|Hin].
  - exists x. now left.
  - destruct (IH l' Hlen Hin) as [a Ha]. exists a. now right.
Qed.

Lemma NoDup_fst_functional (indicated : list (nat * nat)) i j j' :
  NoDup (map fst indicated) ->
  In (i, j) indicated -> In (i, j') indicated -> j = j'.
Proof.
  induction indicated as [|[a b] l IH]; simpl; intros ND H1 H2; [contradiction|].
  inversion ND as [|? ? Hnotin ND']; subst.
  destruct H1 as [E1|H1], H2 as [E2|H2].
  - congruence.
  - injection E1 as -> ->. exfalso. apply Hnotin.
    now apply (in_map fst) in H2.
  - injection E2 as -> ->. exfalso. apply Hnotin.
    now apply (in_map fst) in H1.
  - now apply IH.
Qed.

Lemma map_fst_combine (l l' : list nat) :
  length l = length l' -> map fst (combine l l') = l.
Proof.
  revert l'; induction l as [|x l IH]; intros [|y l'] Hlen;
    simpl in *; try discriminate; try reflexivity.
  injection Hlen as Hlen. now rewrite IH.
Qed.

Lemma NoDup_map_fst_filter (f : nat * nat -> bool) (l : list (nat * nat)) :
  NoDup (map fst l) -> NoDup (map fst (filter f l)).
Proof.
  induction l as [|p l IH]; simpl; intro ND; [constructor|].
  inversion ND as [|? ? Hnotin ND']; subst.
  destruct (f p); simpl; [constructor|]; auto.
  intro Hin. apply Hnotin.
  apply in_map_iff in Hin. destruct Hin as [q [E Hq]].
  apply filter_In in Hq. apply in_map_iff. exists q. tauto.
Qed.

End SelectionFacts.

(** ** The partition into proper folds *)

Section PartitionFacts.
Context {G : Type} `{RandomSource G}.

(** What one call knows about its [index] and [indicator]. *)
Record well_indicated (N K : nat) (index indicator : list nat) : Prop := {
  wi_index : Permutation (seq 0 N) index;
  wi_length : length indicator = N;
  wi_bound : forall j, In j indicator -> j < K;
  wi_count : forall k, count_occ Nat.eq_dec indicator k
               = (if k <? K then N / K else 0) + (if k <? N mod K then 1 else 0)
}.

Lemma folding_well_indicated N K sbf g :
  0 < K ->
  well_indicated N K (fst (fst (folding N K sbf g))) (snd (fst (folding N K sbf g))).
Proof.
  intro HK. unfold folding.
  pose proof (shuffled_index_perm N sbf g) as Pi.
  destruct (shuffled_index N sbf g) as [index g1].
  pose proof (length_indicator N g1 HK) as Li.
  pose proof (fun j => @indicator_bound _ _ N K g1 j HK) as Bi.
  pose proof (count_indicator N K g1) as Ci.
  destruct (make_indicator N K g1) as [indicator g2].
  simpl in *. now constructor.
Qed.

Section OneCall.
Variables (N K : nat) (index indicator : list nat).
Hypothesis W : well_indicated N K index indicator.

Let indicated := combine index indicator.

Lemma wi_lengths : length index = length indicator.
Proof.
  rewrite (wi_length W), <- (Permutation_length (wi_index W)).
  apply length_seq.
Qed.

Lemma wi_in_index i : In i index <-> i < N.
Proof.
  split; intro Hi.
  - apply (Permutation_in _ (Permutation_sym (wi_index W))) in Hi.
    apply in_seq in Hi. lia.
  - apply (Permutation_in _ (wi_index W)). apply in_seq. lia.
Qed.

Lemma wi_nodup : NoDup (map fst indicated).
Proof.
  unfold indicated. rewrite (map_fst_combine _ _ wi_lengths).
  apply (Permutation_NoDup (wi_index W)), seq_NoDup.
Qed.

Lemma test_covers i : i < N -> exists k, k < K /\ In i (test_index k indicated).
Proof.
  intro Hi. apply wi_in_index in Hi.
  destruct (in_combine_ex _ _ _ wi_lengths Hi) as [j Hj].
  exists j. split.
  - apply (wi_bound W). eapply in_combine_r, Hj.
  - now apply in_test_index.
Qed.

Lemma test_disjoint k k' i :
  In i (test_index k indicated) -> In i (test_index k' indicated) -> k = k'.
Proof.
  rewrite !in_test_index. apply NoDup_fst_functional, wi_nodup.
Qed.

Lemma test_within k i : In i (test_index k indicated) -> i < N /\ k < K.
Proof.
  rewrite in_test_index. intro Hin. split.
  - apply wi_in_index. eapply in_combine_l, Hin.
  - apply (wi_bound W). eapply in_combine_r, Hin.
Qed.

Lemma test_nodup k : NoDup (test_index k indicated).
Proof. apply NoDup_map_fst_filter, wi_nodup. Qed.

Lemma data_nodup k : NoDup (data_index k indicated).
Proof. apply NoDup_map_fst_filter, wi_nodup. Qed.

Lemma data_complement k i :
  In i (data_index k indicated) <-> i < N /\ ~ In i (test_index k indicated).
Proof.
  rewrite in_data_index, in_test_index. split.
  - intros [j [Hne Hin]]. split.
    + apply wi_in_index. eapply in_combine_l, Hin.
    + intro Hk. apply Hne. eapply NoDup_fst_functional; eauto using wi_nodup.
  - intros [Hi Hnot]. apply wi_in_index in Hi.
    destruct (in_combine_ex _ _ _ wi_lengths Hi) as [j Hj].
    exists j. split; [|assumption]. intros ->. now apply Hnot.
Qed.

Lemma test_size k :
  length (test_index k indicated)
  = (if k <? K then N / K else 0) + (if k <? N mod K then 1 else 0).
Proof.
  unfold indicated. rewrite (length_test_index _ _ _ wi_lengths).
  apply (wi_count W).
Qed.

(** With two folds or more, some row is left for training. *)
Lemma data_nonempty k : 2 <= K <= N -> data_index k indicated <> [].
Proof.
  intros [HK HN].
  set (k' := if k =? 0 then 1 else 0).
  assert (Hk' : k' < K /\ k' <> k)
    by (unfold k'; destruct (Nat.eqb_spec k 0); lia).
  assert (Hc : 0 < count_occ Nat.eq_dec indicator k').
  { rewrite (wi_count W).
    destruct (Nat.ltb_spec k' K); [|lia].
    assert (0 < N / K) by (apply Nat.div_str_pos; lia). lia. }
  apply count_occ_In in Hc.
  destruct (in_combine_ex_r _ _ _ wi_lengths Hc) as [a Ha].
  assert (Hin : In a (data_index k indicated))
    by (apply in_data_index; exists k'; tauto).
  intro E. rewrite E in Hin. contradiction.
Qed.

(** With a single fold, every row has indicator 0 and none is left. *)
Lemma data_empty_single k : K = 1 -> k < K -> data_index k indicated = [].
Proof.
  intros -> Hk.
  destruct (data_index k indicated) as [|a l] eqn:E; [reflexivity|].
  assert (Hin : In a (data_index k indicated)) by (rewrite E; now left).
  apply in_data_index in Hin. destruct Hin as [j [Hne Hin]].
  apply in_combine_r, (wi_bound W) in Hin. lia.
Qed.

End OneCall.

End PartitionFacts.

(** C1. For 1 < K <= N the test rows of the K proper folds are pairwise
    disjoint, lie in 0..N-1 and cover it, so that every row is a test row of
    exactly one proper fold, and the training rows of each proper fold are
    exactly the rows that are not among its test rows. This holds for every
    random source, with and without [shuffle_before_folding], in
    [Repository.into_K_folds] ([fold_rows]) and in [Store.into_K_folds]
    ([fold_rows_store]). *)
Theorem proper_folds_partition :
  forall (G : Type) (RS : RandomSource G) (N K : nat) (sbf : bool) (g : G),
    1 < K <= N ->
    let test := fun k => snd (fold_rows N K sbf g k) in
    let train := fun k => fst (fold_rows N K sbf g k) in
    (forall i, i < N -> exists k, k < K /\ In i (test k)) /\
    (forall k k' i, In i (test k) -> In i (test k') -> k = k') /\
    (forall k i, In i (test k) -> i < N /\ k < K) /\
    (forall k, NoDup (test k) /\ NoDup (train k)) /\
    (forall k i, k < K -> (In i (train k) <-> i < N /\ ~ In i (test k))) /\
    (forall k, fold_rows_store N K sbf g k = fold_rows N K sbf g k).
Proof.
  intros G RS N K sbf g HK test train.
  assert (W := folding_well_indicated N sbf g (K:=K) ltac:(lia)).
  unfold test, train, fold_rows, fold_rows_store, proper_fold, proper_fold_store.
  destruct (folding N K sbf g) as [[index indicator] g']. simpl in *.
  assert (NE : forall k, swap_if_empty (data_index k (combine index indicator))
                           (test_index k (combine index indicator))
                         = data_index k (combine index indicator)).
  { intro k. pose proof (data_nonempty W k ltac:(lia)) as Hne.
    destruct (data_index k (combine index indicator)); [congruence | reflexivity]. }
  repeat split.
  - now apply (test_covers W).
  - intros k k' i. apply (test_disjoint W).
  - now apply (test_within W) in H.
  - now apply (test_within W) in H.
  - apply (test_nodup W).
  - rewrite NE. apply (data_nodup W).
  - rewrite NE in H0. now apply (data_complement W) in H0.
  - rewrite NE in H0. now apply (data_complement W) in H0.
  - intros [Hi Hnot]. rewrite NE. now apply (data_complement W).
  - intro k. now rewrite NE.
Qed.

Lemma proper_folds_partition_witness :
  let test := fun k => snd (fold_rows (G:=nat) 7 3 true 5 k) in
  let train := fun k => fst (fold_rows (G:=nat) 7 3 true 5 k) in
  (forall i, i < 7 -> exists k, k < 3 /\ In i (test k)) /\
  (forall k k' i, In i (test k) -> In i (test k') -> k = k') /\
  (forall k i, In i (test k) -> i < 7 /\ k < 3) /\
  (forall k, NoDup (test k) /\ NoDup (train k)) /\
  (forall k i, k < 3 -> (In i (train k) <-> i < 7 /\ ~ In i (test k))) /\
  (forall k, fold_rows_store (G:=nat) 7 3 true 5 k = fold_rows (G:=nat) 7 3 true 5 k).
Proof.
  apply (@proper_folds_partition nat turning 7 3 true 5). lia.
Defined.

(** C10. For 2 <= K <= N the test set of proper fold k has N/K + 1 rows
    when k < N mod K and N/K rows otherwise, whatever the random source
    does and whether or not the rows are shuffled first: the shuffled
    blocks are N/K rearrangements of 0..K-1 followed by a rearrangement of
    0..(N mod K)-1, and so two test sets differ in size by at most one. *)
Theorem proper_fold_test_sizes :
  forall (G : Type) (RS : RandomSource G) (N K : nat) (sbf : bool) (g : G) (k : nat),
    2 <= K <= N -> k < K ->
    length (snd (fold_rows N K sbf g k))
      = N / K + (if k <? N mod K then 1 else 0) /\
    length (snd (fold_rows_store N K sbf g k))
      = N / K + (if k <? N mod K then 1 else 0) /\
    (forall k', k' < K ->
       length (snd (fold_rows N K sbf g k))
       <= length (snd (fold_rows N K sbf g k')) + 1) /\
    (exists full last,
       fst (shuffle_each (K_blocks N K) g) = full ++ [last] /\
       length full = N / K /\
       Forall (Permutation (seq 0 K)) full /\
       Permutation (seq 0 (N mod K)) last).
Proof.
  intros G RS N K sbf g k HK Hk.
  assert (W := folding_well_indicated N sbf g (K:=K) ltac:(lia)).
  unfold fold_rows, fold_rows_store, proper_fold, proper_fold_store.
  destruct (folding N K sbf g) as [[index indicator] g']. simpl in *.
  assert (S : forall j, j < K ->
            length (test_index j (combine index indicator))
            = N / K + (if j <? N mod K then 1 else 0)).
  { intros j Hj. rewrite (test_size W).
    destruct (Nat.ltb_spec j K); [reflexivity | lia]. }
  split; [now apply S|]. split; [now apply S|]. split.
  - intros k' Hk'. rewrite (S k Hk), (S k' Hk').
    destruct (k <? N mod K), (k' <? N mod K); lia.
  - pose proof (shuffle_each_perm (K_blocks N K) g) as P.
    unfold K_blocks in *.
    apply Forall2_app_inv_l in P.
    destruct P as [full [rest [Pf [Pl E]]]].
    inversion Pl as [|? last ? rest' Plast Pnil]; subst.
    inversion Pnil; subst.
    exists full, last. split; [assumption|]. split.
    + rewrite <- (Forall2_length Pf). apply repeat_length.
    + split; [|assumption].
      clear - Pf. remember (repeat (seq 0 K) (N / K)) as bs eqn:Ebs.
      assert (Hall : Forall (eq (seq 0 K)) bs)
        by (subst; apply Forall_forall; intros x Hx; now apply repeat_spec in Hx).
      clear Ebs. induction Pf; constructor.
      * inversion Hall; subst. assumption.
      * apply IHPf. now inversion Hall.
Qed.

Lemma proper_fold_test_sizes_witness :
  length (snd (fold_rows (G:=nat) 7 3 true 5 0)) = 7 / 3 + (if 0 <? 7 mod 3 then 1 else 0) /\
  length (snd (fold_rows_store (G:=nat) 7 3 true 5 0)) = 7 / 3 + (if 0 <? 7 mod 3 then 1 else 0) /\
  (forall k', k' < 3 ->
     length (snd (fold_rows (G:=nat) 7 3 true 5 0))
     <= length (snd (fold_rows (G:=nat) 7 3 true 5 k')) + 1) /\
  (exists full last,
     fst (shuffle_each (K_blocks 7 3) 5) = full ++ [last] /\
     length full = 7 / 3 /\
     Forall (Permutation (seq 0 3)) full /\
     Permutation (seq 0 (7 mod 3)) last).
Proof.
  apply (@proper_fold_test_sizes nat turning 7 3 true 5 0); lia.
Defined.

(** C7, as the code has it. For 1 <= |K| <= N the training := test swap is
    taken for a proper fold exactly when |K| = 1, however large N is; with
    two folds or more the training rows are the non-empty complement of the
    test rows and no swap takes place. *)
Theorem swap_iff_single_fold :
  forall (G : Type) (RS : RandomSource G) (N : nat) (K : Z) (sbf : bool) (g : G)
         (k : nat),
    (1 <= Z.abs K <= Z.of_nat N)%Z -> k < Z.abs_nat K ->
    (fold_swapped N (Z.abs_nat K) sbf g k = true <-> Z.abs K = 1%Z) /\
    ((2 <= Z.abs K)%Z ->
       fold_swapped N (Z.abs_nat K) sbf g k = false /\
       fst (fold_rows N (Z.abs_nat K) sbf g k) <> [] /\
       forall i, In i (fst (fold_rows N (Z.abs_nat K) sbf g k))
                 <-> i < N /\ ~ In i (snd (fold_rows N (Z.abs_nat K) sbf g k))).
Proof.
  intros G RS N K sbf g k HK Hk.
  assert (W := folding_well_indicated N sbf g (K:=Z.abs_nat K) ltac:(lia)).
  unfold fold_swapped, fold_rows, proper_fold, swapped.
  destruct (folding N (Z.abs_nat K) sbf g) as [[index indicator] g']. simpl in *.
  destruct (Z.eq_dec (Z.abs K) 1) as [E1|NE1].
  - pose proof (data_empty_single W (k:=k) ltac:(lia) Hk) as E.
    rewrite E. split; [tauto | lia].
  - pose proof (data_nonempty W k ltac:(lia)) as Hne.
    pose proof (data_complement W k) as Hc.
    destruct (data_index k (combine index indicator)) as [|a l] eqn:E;
      [congruence|].
    simpl. split; [split; [discriminate | tauto]|].
    intros _. split; [reflexivity|]. split; [discriminate | exact Hc].
Qed.

Lemma swap_iff_single_fold_witness :
  (fold_swapped (G:=nat) 7 (Z.abs_nat (-3)) true 5 1 = true <-> Z.abs (-3) = 1%Z) /\
  ((2 <= Z.abs (-3))%Z ->
     fold_swapped (G:=nat) 7 (Z.abs_nat (-3)) true 5 1 = false /\
     fst (fold_rows (G:=nat) 7 (Z.abs_nat (-3)) true 5 1) <> [] /\
     forall i, In i (fst (fold_rows (G:=nat) 7 (Z.abs_nat (-3)) true 5 1))
               <-> i < 7 /\ ~ In i (snd (fold_rows (G:=nat) 7 (Z.abs_nat (-3)) true 5 1))).
Proof.
  apply (@swap_iff_single_fold nat turning 7 (-3)%Z true 5 1).
  - simpl. lia.
  - simpl. lia.
Defined.

(** C7, as stated, fails: with K = 1 and N = 2 rows, |K| < N and yet the
    only proper fold is swapped, its training rows being its test rows. *)
Lemma swap_below_N :
  (Z.abs 1 < Z.of_nat 2)%Z /\
  fold_swapped (G:=unit) 2 (Z.abs_nat 1) false tt 0 = true /\
  fold_rows (G:=unit) 2 (Z.abs_nat 1) false tt 0 = ([0; 1], [0; 1]).
Proof. repeat split. Qed.

(** ** Lists of reals *)

Section ListFacts.

Lemma length_map2 {A B C : Type} (f : A -> B -> C) l l' :
  length (map2 f l l') = Nat.min (length l) (length l').
Proof. unfold map2. now rewrite length_map, length_combine. Qed.

Lemma nth_map2 (f : R -> R -> R) l l' j :
  j < length l -> j < length l' ->
  nth j (map2 f l l') 0%R = f (nth j l 0%R) (nth j l' 0%R).
Proof.
  unfold map2. revert l' j; induction l as [|x l IH]; intros [|y l'] [|j] Hl Hl';
    simpl in *; try lia; try reflexivity.
  apply IH; lia.
Qed.

Lemma nth_map_seq {A : Type} (f : nat -> A) n j d :
  j < n -> nth j (map f (seq 0 n)) d = f j.
Proof.
  intro Hj.
  rewrite (nth_indep _ d (f 0)) by now rewrite length_map, length_seq.
  rewrite map_nth, seq_nth by assumption. reflexivity.
Qed.

Lemma nth_map_R (f : R -> R) l j :
  j < length l -> nth j (map f l) 0%R = f (nth j l 0%R).
Proof.
  revert j; induction l as [|x l IH]; intros [|j] Hj; simpl in *;
    try lia; try reflexivity.
  apply IH; lia.
Qed.

Lemma length_per_column f d : length (per_column f d) = length (columns d).
Proof. unfold per_column. now rewrite length_map, length_seq. Qed.

Lemma nth_per_column f d j :
  j < length (columns d) ->
  nth j (per_column f d) 0%R = f (column j (values d)).
Proof. intro Hj. unfold per_column. now rewrite nth_map_seq. Qed.

End ListFacts.

(** ** The statistics of a normalization *)

(** The entries of the table of [Normalization.__init__], row by row. *)
Lemma statistics_entries (data : DataFrame) (j : nat) :
  j < length (columns data) ->
  let c := column j (values data) in
  let row i := nth j (nth i (values (statistics data)) []) 0%R in
  row 0 = mean_of c /\
  row 1 = std_of c /\
  row 2 = (2 * (std_of c * sqrt 3))%R /\
  row 3 = (mean_of c - std_of c * sqrt 3)%R /\
  row 4 = (mean_of c + std_of c * sqrt 3)%R.
Proof.
  intros Hj c row. unfold row, statistics. cbn [values nth].
  assert (Hs : nth j (map (fun s => s * sqrt 3)%R (per_column std_of data)) 0%R
               = (std_of c * sqrt 3)%R).
  { rewrite nth_map_R by now rewrite length_per_column.
    now rewrite nth_per_column. }
  rewrite !nth_per_column by assumption. fold c.
  split; [reflexivity|]. split; [reflexivity|]. split.
  { rewrite nth_map_R by now rewrite length_map, length_per_column.
    now rewrite Hs. }
  rewrite !nth_map2, Hs, !nth_per_column;
    rewrite ?length_map, ?length_per_column; try assumption.
  fold c. split; reflexivity.
Qed.

(** C8, as the code has it. The table computed by [Normalization.__init__]
    holds, for every column on its own: the mean; the standard deviation
    that [DataFrame.std] returns, which is the sample deviation with divisor
    n - 1; rng = 2 * semi_range with semi_range = std * sqrt 3;
    min = mean - semi_range; max = mean + semi_range. *)
Theorem normalization_statistics :
  forall (data : DataFrame) (j : nat),
    j < length (columns data) ->
    let c := column j (values data) in
    exists mean std rng mn mx,
      index (statistics data)
        = [Stat "mean"%string; Stat "std"%string; Stat "rng"%string;
           Stat "min"%string; Stat "max"%string] /\
      values (statistics data) = [mean; std; rng; mn; mx] /\
      nth j mean 0%R = mean_of c /\
      nth j std 0%R = std_of c /\
      (let semi_range := (nth j std 0 * sqrt 3)%R in
       nth j rng 0%R = (2 * semi_range)%R /\
       nth j rng 0%R = (nth j std 0 * sqrt 3 * 2)%R /\
       nth j mn 0%R = (nth j mean 0 - semi_range)%R /\
       nth j mx 0%R = (nth j mean 0 + semi_range)%R).
Proof.
  intros data j Hj c. unfold statistics.
  do 5 eexists. split; [reflexivity|]. split; [reflexivity|].
  assert (Hs : nth j (map (fun s => s * sqrt 3)%R (per_column std_of data)) 0%R
               = (std_of c * sqrt 3)%R).
  { rewrite nth_map_R by now rewrite length_per_column.
    now rewrite nth_per_column. }
  rewrite !nth_per_column by assumption. fold c.
  split; [reflexivity|]. split; [reflexivity|]. simpl.
  assert (Hr : nth j (map (fun s => 2 * s)%R
                        (map (fun s => s * sqrt 3)%R (per_column std_of data))) 0%R
               = (2 * (std_of c * sqrt 3))%R).
  { rewrite nth_map_R by now rewrite length_map, length_per_column.
    now rewrite Hs. }
  rewrite Hr.
  rewrite !nth_map2, Hs, !nth_per_column;
    rewrite ?length_map, ?length_per_column; try assumption.
  fold c. repeat split; ring.
Qed.

Lemma normalization_statistics_witness :
  let data := {| index := [Row 0; Row 1]; columns := [Input; Output];
                 values := [[0; 1]; [2; 5]]%R |} in
  let c := column 1 (values data) in
  exists mean std rng mn mx,
    index (statistics data)
      = [Stat "mean"%string; Stat "std"%string; Stat "rng"%string;
         Stat "min"%string; Stat "max"%string] /\
    values (statistics data) = [mean; std; rng; mn; mx] /\
    nth 1 mean 0%R = mean_of c /\
    nth 1 std 0%R = std_of c /\
    (let semi_range := (nth 1 std 0 * sqrt 3)%R in
     nth 1 rng 0%R = (2 * semi_range)%R /\
     nth 1 rng 0%R = (nth 1 std 0 * sqrt 3 * 2)%R /\
     nth 1 mn 0%R = (nth 1 mean 0 - semi_range)%R /\
     nth 1 mx 0%R = (nth 1 mean 0 + semi_range)%R).
Proof.
  apply (@normalization_statistics
           {| index := [Row 0; Row 1]; columns := [Input; Output];
              values := [[0; 1]; [2; 5]]%R |} 1).
  simpl. lia.
Defined.

Lemma std_of_0_2 : std_of [0; 2]%R = sqrt 2.
Proof.
  unfold std_of, mean_of. f_equal. simpl. unfold Rsqr. field.
Qed.

Lemma population_std_of_0_2 : population_std_of [0; 2]%R = 1%R.
Proof.
  unfold population_std_of, mean_of.
  replace (Rsum _ / _)%R with 1%R by (simpl; unfold Rsqr; field).
  apply sqrt_1.
Qed.

(** C8, as stated, fails: for the column 0, 2 the ['std'] entry of the
    table is sqrt 2, while the population standard deviation is 1. *)
Lemma std_is_not_population :
  let data := {| index := [Row 0; Row 1]; columns := [Input];
                 values := [[0]; [2]]%R |} in
  nth 0 (nth 1 (values (statistics data)) []) 0%R = sqrt 2 /\
  population_std_of (column 0 (values data)) = 1%R /\
  sqrt 2 <> 1%R.
Proof.
  simpl. split; [|split].
  - unfold per_column. simpl. apply std_of_0_2.
  - apply population_std_of_0_2.
  - intro E. pose proof (sqrt_sqrt 2 ltac:(lra)) as S. rewrite E in S. lra.
Qed.

(** ** The normalization round trip *)

(** A distribution whose two functions have a closed form, to run the
    model with: the logistic distribution. *)
Definition logistic_cdf (z : R) : R := (/ (1 + exp (- z)))%R.
Definition logistic_ppf (u : R) : R := ln (u / (1 - u)).

Lemma logistic_cdf_ppf (u : R) :
  (0 < u < 1)%R -> logistic_cdf (logistic_ppf u) = u.
Proof.
  intros [H0 H1]. unfold logistic_cdf, logistic_ppf.
  rewrite exp_Ropp, exp_ln by (apply Rdiv_lt_0_compat; lra).
  field. lra.
Qed.

Definition logistic : NormalDistribution := {|
  norm_cdf := logistic_cdf;
  norm_ppf := logistic_ppf;
  norm_cdf_ppf := logistic_cdf_ppf
|}.

(** The four series of [_relevant_stats] when the table has its rows in
    the order in which [Normalization.__init__] writes them. *)
Definition relevant_of (stats : DataFrame) (fold_M : nat) : relevant :=
  {| X_min := firstn fold_M (nth 3 (values stats) []);
     X_rng := firstn fold_M (nth 2 (values stats) []);
     Y_mean := skipn fold_M (nth 0 (values stats) []);
     Y_std := skipn fold_M (nth 1 (values stats) []) |}.

Definition stat_labels : list label :=
  [Stat "mean"%string; Stat "std"%string; Stat "rng"%string;
   Stat "min"%string; Stat "max"%string].

Section RoundTrip.
Context {G : Type} {ND : NormalDistribution}.

Local Open Scope R_scope.

Lemma margin_bounds : 0 < UNIFORM_MARGIN < 1 / 2.
Proof.
  unfold UNIFORM_MARGIN.
  assert (H10 : 2 < 10 ^ 12) by (simpl; lra).
  split.
  - apply Rinv_0_lt_compat. lra.
  - unfold Rdiv. rewrite Rmult_1_l. apply Rinv_lt_contravar; lra.
Qed.

Lemma clip_inside u :
  UNIFORM_MARGIN <= u <= 1 - UNIFORM_MARGIN ->
  clip UNIFORM_MARGIN (1 - UNIFORM_MARGIN) u = u.
Proof.
  intros [Hl Hu]. unfold clip.
  rewrite Rmax_left by assumption. now rewrite Rmin_left.
Qed.

Lemma clip_below u :
  u <= UNIFORM_MARGIN ->
  clip UNIFORM_MARGIN (1 - UNIFORM_MARGIN) u = UNIFORM_MARGIN.
Proof.
  intro Hl. unfold clip. pose proof margin_bounds.
  rewrite Rmax_right by assumption. rewrite Rmin_left; lra.
Qed.

(** One input value inside the clipping band. *)
Lemma input_value_round_trip x m r :
  0 < r ->
  m + UNIFORM_MARGIN * r <= x <= m + (1 - UNIFORM_MARGIN) * r ->
  norm_cdf (norm_ppf (clip UNIFORM_MARGIN (1 - UNIFORM_MARGIN) ((x - m) / r)))
    * r + m = x.
Proof.
  intros Hr [Hl Hu]. pose proof margin_bounds as Hm.
  assert (Hband : UNIFORM_MARGIN <= (x - m) / r <= 1 - UNIFORM_MARGIN).
  { split.
    - apply (Rmult_le_reg_r r); [assumption|].
      replace ((x - m) / r * r) with (x - m) by (field; lra). lra.
    - apply (Rmult_le_reg_r r); [assumption|].
      replace ((x - m) / r * r) with (x - m) by (field; lra). lra. }
  rewrite clip_inside by assumption.
  rewrite norm_cdf_ppf by lra.
  field. lra.
Qed.

(** One input value strictly above [min] but below the band. *)
Lemma input_value_clipped x m r :
  0 < r -> m < x <= m + UNIFORM_MARGIN * r ->
  norm_cdf (norm_ppf (clip UNIFORM_MARGIN (1 - UNIFORM_MARGIN) ((x - m) / r)))
    * r + m = m + UNIFORM_MARGIN * r.
Proof.
  intros Hr [Hl Hu]. pose proof margin_bounds as Hm.
  rewrite clip_below.
  - rewrite norm_cdf_ppf by lra. ring.
  - apply (Rmult_le_reg_r r); [assumption|].
    replace ((x - m) / r * r) with (x - m) by (field; lra). lra.
Qed.

Lemma inputs_round_trip X mn rg :
  length mn = length X -> length rg = length X ->
  (forall j, (j < length X)%nat ->
     0 < nth j rg 0 /\
     nth j mn 0 + UNIFORM_MARGIN * nth j rg 0 <= nth j X 0
       <= nth j mn 0 + (1 - UNIFORM_MARGIN) * nth j rg 0) ->
  map2 Rplus
    (map2 Rmult
       (map norm_cdf
          (map norm_ppf
             (map (clip UNIFORM_MARGIN (1 - UNIFORM_MARGIN))
                  (map2 Rdiv (map2 Rminus X mn) rg)))) rg) mn = X.
Proof.
  unfold map2.
  revert mn rg; induction X as [|x X IH]; intros [|m mn] [|r rg] Hm Hr Hb;
    simpl in *; try discriminate; [reflexivity|].
  f_equal.
  - destruct (Hb 0%nat ltac:(lia)) as [Hpos Hband].
    now apply input_value_round_trip.
  - apply IH; try lia. intros j Hj. apply (Hb (S j)). lia.
Qed.

Lemma outputs_round_trip Y me sd :
  length me = length Y -> length sd = length Y ->
  (forall j, (j < length Y)%nat -> 0 < nth j sd 0) ->
  map2 Rplus (map2 Rmult (map2 Rdiv (map2 Rminus Y me) sd) sd) me = Y.
Proof.
  unfold map2.
  revert me sd; induction Y as [|y Y IH]; intros [|m me] [|s sd] Hm Hs Hb;
    simpl in *; try discriminate; [reflexivity|].
  f_equal.
  - pose proof (Hb 0%nat ltac:(lia)). simpl in *. field. lra.
  - apply IH; try lia. intros j Hj. apply (Hb (S j)). lia.
Qed.

Lemma firstn_exact {A : Type} (l l' : list A) n :
  length l = n -> firstn n (l ++ l') = l.
Proof.
  intros <-. rewrite firstn_app, Nat.sub_diag, firstn_all. simpl.
  apply app_nil_r.
Qed.

Lemma skipn_exact {A : Type} (l l' : list A) n :
  length l = n -> skipn n (l ++ l') = l'.
Proof.
  intros <-. rewrite skipn_app, Nat.sub_diag, skipn_all. reflexivity.
Qed.

(** A row of the frame against the statistics of the training data. *)
Definition in_band (training : DataFrame) (fold_M : nat) (row : list R) : Prop :=
  length row = length (columns training) /\
  forall j, (j < fold_M)%nat ->
    let c := column j (values training) in
    let lo := mean_of c - std_of c * sqrt 3 in
    let range := 2 * (std_of c * sqrt 3) in
    lo + UNIFORM_MARGIN * range <= nth j row 0
      <= lo + (1 - UNIFORM_MARGIN) * range.

Lemma row_round_trip training fold_M row :
  (fold_M <= length (columns training))%nat ->
  (forall j, (j < length (columns training))%nat ->
     0 < std_of (column j (values training))) ->
  in_band training fold_M row ->
  let s := relevant_of (statistics training) fold_M in
  undo_row s fold_M (apply_row s fold_M row) = row.
Proof.
  intros HM Hstd [Hlen Hband] s.
  set (W := length (columns training)) in *.
  assert (Hs3 : 0 < sqrt 3) by (apply sqrt_lt_R0; lra).
  assert (LX : length (firstn fold_M row) = fold_M)
    by (rewrite length_firstn; lia).
  assert (LY : length (skipn fold_M row) = (W - fold_M)%nat)
    by (rewrite length_skipn; lia).
  assert (Lmin : length (X_min s) = fold_M).
  { unfold s, relevant_of, statistics. simpl.
    rewrite length_firstn, length_map2, length_map, !length_per_column.
    fold W. lia. }
  assert (Lrng : length (X_rng s) = fold_M).
  { unfold s, relevant_of, statistics. simpl.
    rewrite length_firstn, !length_map, length_per_column. fold W. lia. }
  assert (Lmean : length (Y_mean s) = (W - fold_M)%nat).
  { unfold s, relevant_of, statistics. simpl.
    rewrite length_skipn, length_per_column. reflexivity. }
  assert (Lstd : length (Y_std s) = (W - fold_M)%nat).
  { unfold s, relevant_of, statistics. simpl.
    rewrite length_skipn, length_per_column. reflexivity. }
  unfold undo_row, apply_row.
  rewrite firstn_exact, skipn_exact;
    try (rewrite !length_map, !length_map2; lia).
  rewrite <- (firstn_skipn fold_M row) at 3. f_equal.
  - apply inputs_round_trip; try lia.
    rewrite LX. intros j Hj.
    assert (HjW : (j < W)%nat) by lia.
    destruct (@statistics_entries training j HjW)
      as (_ & _ & Erg & Emn & _).
    unfold s, relevant_of. cbn [X_min X_rng].
    rewrite !nth_firstn.
    destruct (Nat.ltb_spec j fold_M) as [_|]; [|lia].
    rewrite Erg, Emn.
    specialize (Hband j Hj). simpl in Hband.
    specialize (Hstd j HjW).
    split; [|lra].
    apply Rmult_lt_0_compat; [lra|]. now apply Rmult_lt_0_compat.
  - apply outputs_round_trip; try lia.
    rewrite LY. intros j Hj.
    assert (HjW : (fold_M + j < W)%nat) by lia.
    unfold s, relevant_of, statistics. simpl.
    rewrite nth_skipn, nth_per_column by exact HjW.
    now apply Hstd.
Qed.

(** [_relevant_stats] on a normalization that holds its table. *)
Lemma relevant_stats_cached (n : Normalization) (t : DataTable) fold_M
    (w : @world G) :
  _frame n = Some t -> index (df t) = stat_labels ->
  _relevant_stats n fold_M w = (Ok (relevant_of (df t) fold_M, n), w).
Proof.
  intros Hf Hi.
  unfold _relevant_stats, Normalization_DataTable, stat_row, bind, lift, ret.
  rewrite Hf, Hi. reflexivity.
Qed.

End RoundTrip.

(** C3, as the code has it. For a normalization computed from training
    data whose columns all have std > 0, and every frame of the same width
    whose input values x satisfy
    min + 1e-12 * range <= x <= min + (1 - 1e-12) * range,
    [undo_from] of [apply_to] returns the frame itself (over the reals):
    inside that band the clip does nothing, the distribution function
    undoes the quantile function, and multiplying by range (by std) and
    adding min (mean) undoes the subtraction and the division. *)
Theorem normalization_round_trip :
  forall (G : Type) (ND : NormalDistribution) (training d : DataFrame)
         (fold_M : nat) (n : Normalization) (csv : path) (w : @world G),
    _frame n = Some {| _csv := csv; df := statistics training |} ->
    fold_M <= length (columns training) ->
    (forall j, j < length (columns training) ->
       (0 < std_of (column j (values training)))%R) ->
    (forall row, In row (values d) -> in_band training fold_M row) ->
    exists d',
      apply_to n fold_M d w = (Ok (d', n), w) /\
      undo_from n fold_M d' w = (Ok (d, n), w).
Proof.
  intros G ND training d fold_M n csv w Hf HM Hstd Hband.
  unfold apply_to, undo_from.
  destruct (_is_applicable n).
  - unfold bind.
    rewrite (relevant_stats_cached n fold_M w Hf eq_refl).
    eexists. split; [reflexivity|].
    unfold ret, with_values. simpl. rewrite map_map.
    rewrite (map_ext_in _ (fun row => row)).
    + rewrite map_id. now destruct d.
    + intros row Hrow. apply row_round_trip; auto.
  - exists d. split; reflexivity.
Qed.

Lemma mean_of_0_2 : mean_of [0; 2]%R = 1%R.
Proof. unfold mean_of. simpl. field. Qed.

Lemma std_of_1_5 : std_of [1; 5]%R = sqrt 8.
Proof. unfold std_of, mean_of. f_equal. simpl. unfold Rsqr. field. Qed.

Lemma normalization_round_trip_witness :
  let training := {| index := [Row 0; Row 1]; columns := [Input; Output];
                     values := [[0; 1]; [2; 5]]%R |} in
  let d := {| index := [Row 7]; columns := [Input; Output];
              values := [[1; 4]]%R |} in
  let n := {| _fold := [fold_ 0]; _is_applicable := true;
              _frame := Some {| _csv := [fold_ 0; Named "normalization.csv"%string];
                                df := statistics training |} |} in
  let w := {| fs := fun _ => None; rng := tt |} in
  exists d',
    apply_to (H0:=logistic) n 1 d w = (Ok (d', n), w) /\
    undo_from (H0:=logistic) n 1 d' w = (Ok (d, n), w).
Proof.
  intros training d n w.
  apply (@normalization_round_trip unit logistic training d 1 n
           [fold_ 0; Named "normalization.csv"%string] w).
  - reflexivity.
  - simpl. lia.
  - intros j Hj. simpl in Hj.
    destruct j as [|[|j]]; [| |lia]; unfold training, column; simpl.
    + rewrite std_of_0_2. apply sqrt_lt_R0. lra.
    + rewrite std_of_1_5. apply sqrt_lt_R0. lra.
  - intros row [<-|[]]. split; [reflexivity|].
    intros j Hj. assert (j = 0) as -> by lia.
    unfold training, column. simpl.
    rewrite mean_of_0_2, std_of_0_2.
    pose proof (@margin_bounds) as Hm.
    assert (Ht : (0 < sqrt 2 * sqrt 3)%R)
      by (apply Rmult_lt_0_compat; apply sqrt_lt_R0; lra).
    split; nra.
Defined.

Lemma mean_of_about (s : R) : mean_of [s - 1; s + 1]%R = s.
Proof. unfold mean_of. simpl. field. Qed.

Lemma std_of_about (s : R) : std_of [s - 1; s + 1]%R = sqrt 2.
Proof. unfold std_of, mean_of. f_equal. simpl. unfold Rsqr. field. Qed.

(** C3, as stated, fails. The training column sqrt 6 - 1, sqrt 6 + 1 has
    mean sqrt 6 and std sqrt 2 > 0, hence min = 0 and max = range =
    2 sqrt 6. The raw value x = 1e-13 * range lies strictly inside
    (min, max), is clipped to 1e-12 by [apply_to], and comes back from
    [undo_from] as 10 * x, for every distribution. *)
Lemma clip_breaks_round_trip :
  let s := (sqrt 2 * sqrt 3)%R in
  let training := {| index := [Row 0; Row 1]; columns := [Input];
                     values := [[s - 1]; [s + 1]]%R |} in
  let x := (UNIFORM_MARGIN / 10 * (2 * s))%R in
  let d := {| index := [Row 0]; columns := [Input]; values := [[x]] |} in
  let n := {| _fold := [fold_ 0]; _is_applicable := true;
              _frame := Some {| _csv := [fold_ 0; Named "normalization.csv"%string];
                                df := statistics training |} |} in
  let w := {| fs := fun _ => None; rng := tt |} in
  (0 < std_of (column 0 (values training)))%R /\
  nth 0 (nth 3 (values (statistics training)) []) 0%R = 0%R /\
  nth 0 (nth 4 (values (statistics training)) []) 0%R = (2 * s)%R /\
  (0 < x < 2 * s)%R /\
  (10 * x <> x)%R /\
  forall ND : NormalDistribution,
    exists d',
      apply_to n 1 d w = (Ok (d', n), w) /\
      undo_from n 1 d' w = (Ok (with_values d [[(10 * x)%R]], n), w).
Proof.
  intros s training x d n w.
  pose proof (@margin_bounds) as Hm.
  assert (Hs : (0 < s)%R)
    by (apply Rmult_lt_0_compat; apply sqrt_lt_R0; lra).
  assert (Hx : (0 < x)%R).
  { unfold x. apply Rmult_lt_0_compat; lra. }
  assert (Emin : nth 0 (nth 3 (values (statistics training)) []) 0%R = 0%R).
  { unfold training, statistics, per_column, column. simpl.
    rewrite mean_of_about, std_of_about. unfold s. ring. }
  assert (Erng : nth 0 (nth 2 (values (statistics training)) []) 0%R = (2 * s)%R).
  { unfold training, statistics, per_column, column. simpl.
    rewrite std_of_about. reflexivity. }
  split; [|split; [exact Emin|split; [|split; [|split]]]].
  - unfold training, column. simpl. rewrite std_of_about.
    apply sqrt_lt_R0. lra.
  - unfold training, statistics, per_column, column. simpl.
    rewrite mean_of_about, std_of_about. unfold s. ring.
  - split; [exact Hx|]. unfold x. nra.
  - lra.
  - intro ND.
    assert (Hrow : undo_row (relevant_of (statistics training) 1) 1
                     (apply_row (relevant_of (statistics training) 1) 1 [x])
                   = [(10 * x)%R]).
    { unfold undo_row, apply_row, relevant_of, map2.
      cbn [X_min X_rng Y_mean Y_std].
      remember (nth 3 (values (statistics training)) []) as mn eqn:Emn.
      remember (nth 2 (values (statistics training)) []) as rg eqn:Erg.
      assert (Lmn : mn = [nth 0 mn 0%R]) by (subst mn; reflexivity).
      assert (Lrg : rg = [nth 0 rg 0%R]) by (subst rg; reflexivity).
      rewrite Lmn, Lrg, Emin, Erng.
      cbn [firstn skipn map combine fst snd app].
      f_equal.
      rewrite input_value_clipped.
      + unfold x. field.
      + lra.
      + unfold x. nra. }
    unfold apply_to, undo_from.
    change (_is_applicable n) with true. cbv iota. unfold bind.
    rewrite (relevant_stats_cached n 1 w eq_refl eq_refl).
    eexists. split; [reflexivity|].
    unfold ret, with_values. cbn [df values index columns].
    unfold d. cbn [values index columns map].
    rewrite Hrow. reflexivity.
Qed.

(** ** Rotations: the algebra of [einsum] and [matmul] *)

Section MatrixFacts.

Local Open Scope R_scope.



















End MatrixFacts.

(** ** Paths *)

Section PathFacts.

Lemma component_eqb_refl a : component_eqb a a = true.
Proof. destruct a; simpl; [apply String.eqb_refl | apply Nat.eqb_refl]. Qed.

Lemma component_eqb_eq a b : component_eqb a b = true <-> a = b.
Proof.
  destruct a, b; simpl; split; intro E; try discriminate.
  - apply String.eqb_eq in E. now subst.
  - injection E as ->. apply String.eqb_refl.
  - apply Nat.eqb_eq in E. now subst.
  - injection E as ->. apply Nat.eqb_refl.
Qed.

Lemma path_eqb_refl p : path_eqb p p = true.
Proof. induction p; simpl; [reflexivity|]. now rewrite component_eqb_refl. Qed.

Lemma path_eqb_eq p q : path_eqb p q = true <-> p = q.
Proof.
  revert q; induction p as [|a p IH]; intros [|b q]; simpl;
    split; intro E; try discriminate; try reflexivity.
  - apply andb_true_iff in E. destruct E as [E1 E2].
    apply component_eqb_eq in E1. apply IH in E2. now subst.
  - injection E as -> ->. now rewrite component_eqb_refl, path_eqb_refl.
Qed.

Lemma path_eqb_app_l p q r : path_eqb (p ++ q) (p ++ r) = path_eqb q r.
Proof. induction p; simpl; [reflexivity|]. now rewrite component_eqb_refl. Qed.

Lemma is_under_app_l p q r : is_under (p ++ q) (p ++ r) = is_under q r.
Proof. induction p; simpl; [reflexivity|]. now rewrite component_eqb_refl. Qed.

Lemma is_under_self_app p r : is_under p (p ++ r) = true.
Proof.
  rewrite <- (app_nil_r p) at 1. rewrite is_under_app_l. reflexivity.
Qed.

Lemma is_under_app_self p a q : is_under (p ++ a :: q) p = false.
Proof.
  rewrite <- (app_nil_r p) at 2. rewrite is_under_app_l. reflexivity.
Qed.

Lemma path_eqb_app_self p a q : path_eqb (p ++ a :: q) p = false.
Proof.
  rewrite <- (app_nil_r p) at 2. rewrite path_eqb_app_l. reflexivity.
Qed.

Lemma path_eqb_self_app p a q : path_eqb p (p ++ a :: q) = false.
Proof.
  rewrite <- (app_nil_r p) at 1. rewrite path_eqb_app_l. reflexivity.
Qed.

Lemma is_under_trans p q r :
  is_under p q = true -> is_under q r = true -> is_under p r = true.
Proof.
  revert q r; induction p as [|a p IH]; intros [|b q] [|c r]; simpl;
    intros H1 H2; try discriminate; try reflexivity.
  apply andb_true_iff in H1. destruct H1 as [E1 H1].
  apply andb_true_iff in H2. destruct H2 as [E2 H2].
  apply component_eqb_eq in E1, E2. subst.
  rewrite component_eqb_refl. simpl. eapply IH; eassumption.
Qed.

Lemma is_under_snoc p r a :
  is_under p (r ++ [a]) = true -> p = r ++ [a] \/ is_under p r = true.
Proof.
  revert r; induction p as [|b p IH]; intros [|c r]; simpl; intro Hu.
  - now right.
  - now right.
  - apply andb_true_iff in Hu. destruct Hu as [E Hu].
    apply component_eqb_eq in E. subst.
    destruct p; [now left | discriminate].
  - apply andb_true_iff in Hu. destruct Hu as [E Hu].
    apply component_eqb_eq in E. subst.
    destruct (IH r Hu) as [->|Hr]; [now left|].
    right. now rewrite component_eqb_refl.
Qed.

End PathFacts.

(** ** The setter and the getter of [X_rotation] *)

Section RotationFacts.
Context {G : Type}.





Lemma is_empty_snoc p c d : is_empty {| _csv := p ++ [c]; df := d |} = false.
Proof. unfold is_empty. simpl. now destruct p. Qed.

(** The world after a file has been written. *)
Definition written (p : path) (c : content) (w : @world G) : @world G :=
  {| fs := fun q => if path_eqb q p then Some (File c) else fs w q;
     rng := rng w |}.

Lemma DataTable_write_run t p c (w : @world G) :
  _csv t = p ++ [c] ->
  DataTable_write t w = (Ok tt, written (p ++ [c]) (Csv (df t)) w).
Proof.
  intro E. unfold DataTable_write. destruct t as [csv d]. simpl in E. subst.
  now rewrite is_empty_snoc.
Qed.

Lemma DataTable_init_read p c f (w : @world G) :
  fs w (p ++ [c]) = Some (File (Csv f)) ->
  DataTable_init (p ++ [c]) no_frame w = (Ok {| _csv := p ++ [c]; df := f |}, w).
Proof.
  intro Hf. unfold DataTable_init. rewrite is_empty_snoc. simpl.
  unfold bind, read_csv. now rewrite Hf.
Qed.

Lemma DataTable_init_write p c d (w : @world G) :
  empty d = false ->
  DataTable_init (p ++ [c]) d w
  = (Ok {| _csv := p ++ [c]; df := d |}, written (p ++ [c]) (Csv d) w).
Proof.
  intro Hd. unfold DataTable_init. rewrite is_empty_snoc, Hd.
  unfold bind. now erewrite DataTable_write_run by reflexivity.
Qed.





End RotationFacts.







Definition bare : @world unit := {| fs := fun _ => None; rng := tt |}.



(** ** Creating a repository folder *)

Section CreateFacts.
Context {G : Type}.

(** The world after [rmtree] of a directory. *)
Definition cleared (folder : path) (w : @world G) : @world G :=
  {| fs := fun p => if is_under folder p then None else fs w p;
     rng := rng w |}.

(** The world after [mkdir] of an absent folder, parents included. *)
Definition made (folder : path) (w : @world G) : @world G :=
  {| fs := fun p => if is_under p folder
                    then match fs w p with
                         | None => Some Dir
                         | Some n => Some n
                         end
                    else fs w p;
     rng := rng w |}.

(** Nothing is at or below [folder]. *)
Definition vacant (folder : path) (w : @world G) : Prop :=
  forall p, is_under folder p = true -> fs w p = None.

(** [folder] is a directory, or is absent with nothing below it: it is not
    a regular file. *)
Definition clearable (folder : path) (w : @world G) : Prop :=
  fs w folder = Some Dir \/ vacant folder w.

Lemma is_under_refl p : is_under p p = true.
Proof. rewrite <- (app_nil_r p) at 2. apply is_under_self_app. Qed.

Lemma is_under_inv q p : is_under q p = true -> exists r, p = q ++ r.
Proof.
  revert p; induction q as [|a q IH]; intros [|b p] Hu; simpl in *;
    try discriminate.
  - now exists [].
  - now exists (b :: p).
  - apply andb_true_iff in Hu. destruct Hu as [E Hu].
    apply component_eqb_eq in E. subst.
    destruct (IH p Hu) as [r ->]. now exists r.
Qed.

Lemma not_under_neq folder p r :
  is_under folder p = false -> path_eqb p (folder ++ r) = false.
Proof.
  intro Hn. destruct (path_eqb p (folder ++ r)) eqn:E; [|reflexivity].
  apply path_eqb_eq in E. subst. now rewrite is_under_self_app in Hn.
Qed.

Lemma rmtree_clears folder (w : @world G) :
  clearable folder w ->
  exists w1, rmtree folder true w = (Ok tt, w1) /\ rng w1 = rng w /\
             vacant folder w1 /\
             (forall p, is_under folder p = false -> fs w1 p = fs w p).
Proof.
  intros [Hd|Hv]; unfold rmtree.
  - rewrite Hd. exists (cleared folder w). split; [reflexivity|].
    split; [reflexivity|]. split.
    + intros p Hp. unfold cleared. cbn [fs]. now rewrite Hp.
    + intros p Hp. unfold cleared. cbn [fs]. now rewrite Hp.
  - rewrite (Hv folder (is_under_refl folder)).
    exists w. repeat split; auto.
Qed.

Lemma mkdir_run folder exist_ok (w : @world G) :
  fs w folder = None -> mkdir folder exist_ok w = (Ok tt, made folder w).
Proof. intro Hn. unfold mkdir. now rewrite Hn. Qed.

(** [Repository.__init__] in mode [CREATE] never fails on a folder that
    is not a regular file, and leaves it an empty directory. *)
Lemma Repository_create_run folder (w : @world G) :
  clearable folder w ->
  exists w1, Repository_create folder w = (Ok tt, made folder w1) /\
             rng w1 = rng w /\ vacant folder w1 /\
             (forall p, is_under folder p = false -> fs w1 p = fs w p).
Proof.
  intro Hc. destruct (rmtree_clears Hc) as (w1 & Hr & Hg & Hv & Ho).
  exists w1. unfold Repository_create, bind. rewrite Hr.
  rewrite mkdir_run by (apply Hv, is_under_refl). auto.
Qed.

Lemma fs_made_under folder (w : @world G) a r :
  vacant folder w -> fs (made folder w) (folder ++ a :: r) = None.
Proof.
  intro Hv. unfold made. cbn [fs].
  rewrite is_under_app_self. apply Hv, is_under_self_app.
Qed.

Lemma fs_made_self folder (w : @world G) :
  vacant folder w -> fs (made folder w) folder = Some Dir.
Proof.
  intro Hv. unfold made. cbn [fs].
  now rewrite is_under_refl, (Hv folder (is_under_refl folder)).
Qed.

Lemma fs_made_kept folder (w : @world G) p n :
  fs w p = Some n -> fs (made folder w) p = Some n.
Proof.
  intro Hp. unfold made. cbn [fs]. rewrite Hp. now destruct (is_under p folder).
Qed.

Lemma fs_made_aside folder (w : @world G) p :
  is_under p folder = false -> fs (made folder w) p = fs w p.
Proof. intro Hp. unfold made. cbn [fs]. now rewrite Hp. Qed.

Lemma fs_written_same p c (w : @world G) : fs (written p c w) p = Some (File c).
Proof. unfold written. cbn [fs]. now rewrite path_eqb_refl. Qed.

Lemma fs_written_other p c (w : @world G) q :
  path_eqb q p = false -> fs (written p c w) q = fs w q.
Proof. intro E. unfold written. cbn [fs]. now rewrite E. Qed.

Lemma path_neqb p q : p <> q -> path_eqb p q = false.
Proof.
  intro Hne. destruct (path_eqb p q) eqn:E; [|reflexivity].
  now apply path_eqb_eq in E.
Qed.

Lemma path_eqb_siblings p a b :
  component_eqb a b = false -> path_eqb (p ++ [a]) (p ++ [b]) = false.
Proof. intro E. rewrite path_eqb_app_l. simpl. now rewrite E. Qed.

Lemma write_meta_run folder meta (w : @world G) :
  write_meta folder meta w = (Ok tt, written (meta_json folder) (Json meta) w).
Proof. reflexivity. Qed.

(** The metadata after [_update_meta]. *)
Definition updated_meta (meta : Meta) (d : DataFrame) : Meta :=
  {| meta_K := meta_K meta;
     meta_has_improper_fold := meta_has_improper_fold meta;
     meta_shuffle_before_folding := meta_shuffle_before_folding meta;
     meta_N := n_rows d; meta_M := X_width d; meta_L := Y_width d;
     meta_k := meta_k meta |}.

Lemma update_meta_run (self : Repository) (w : @world G) :
  _update_meta self w
  = (Ok {| _folder := _folder self;
           _meta := updated_meta (_meta self) (df (_data self));
           _data := _data self |},
     written (meta_json (_folder self))
             (Json (updated_meta (_meta self) (df (_data self)))) w).
Proof. reflexivity. Qed.

End CreateFacts.

(** ** [from_df] on a folder that exists *)







Definition two_rows : DataFrame :=
  {| index := [Row 0; Row 1]; columns := [Input; Output];
     values := [[0; 1]; [2; 5]]%R |}.



(** ** Creating one fold *)

Section FoldFacts.
Context {G : Type} {ND : NormalDistribution}.

(** The table that [apply_to] makes of [d] with the statistics of
    [train]. *)
Definition normalized (is_applicable : bool) (train d : DataFrame)
    (fold_M : nat) : DataFrame :=
  if is_applicable
  then with_values d
         (map (apply_row (relevant_of (statistics train) fold_M) fold_M)
              (values d))
  else d.

Lemma empty_normalized b train d fold_M :
  empty (normalized b train d fold_M) = empty d.
Proof. unfold normalized. now destruct b. Qed.

Lemma empty_statistics data : empty data = false -> empty (statistics data) = false.
Proof.
  unfold empty, statistics. cbn [index columns length].
  intro E. apply orb_false_iff in E. now destruct E as [_ ->].
Qed.

Lemma apply_to_cached (n : Normalization) csv train d fold_M (w : @world G) :
  _frame n = Some {| _csv := csv; df := statistics train |} ->
  apply_to n fold_M d w
  = (Ok (normalized (_is_applicable n) train d fold_M, n), w).
Proof.
  intro Hf. unfold apply_to, normalized.
  destruct (_is_applicable n); [|reflexivity].
  unfold bind. now rewrite (relevant_stats_cached n fold_M w Hf eq_refl).
Qed.

Definition normalization_csv (folder : path) : path :=
  folder ++ [Named "normalization.csv"%string].

(** The normalization object of a folder in which a table was computed
    from [data]. *)
Definition computed (folder : path) (data : DataFrame) (is_applicable : bool)
  : Normalization :=
  {| _fold := folder; _is_applicable := is_applicable;
     _frame := Some {| _csv := normalization_csv folder;
                       df := statistics data |} |}.

Lemma Normalization_init_fresh folder data b (w : @world G) :
  fs w (normalization_csv folder) = None ->
  empty data = false ->
  Normalization_init folder (Some data) b w
  = (Ok (computed folder data b),
     written (normalization_csv folder) (Csv (statistics data)) w).
Proof.
  intros Hn Hd. unfold Normalization_init, bind, exists_, Normalization_csv.
  cbn [_fold]. fold (normalization_csv folder). rewrite Hn.
  unfold normalization_csv.
  erewrite DataTable_init_write by now apply empty_statistics.
  reflexivity.
Qed.

Lemma copy_run src dst c (w : @world G) :
  fs w src = Some (File c) -> copy src dst w = (Ok tt, written dst c w).
Proof. intro Hs. unfold copy. now rewrite Hs. Qed.

(** The fold object and the world that [Fold.from_dfs] returns, over the
    world [w1] in which the folder has been cleared. *)
Definition fold_made (parent : Repository) (k : nat) (train test : DataFrame)
    (is_applicable : bool) : Fold :=
  let F := fold_folder (_folder parent) k in
  let M := meta_M (_meta parent) in
  let d := normalized is_applicable train train M in
  {| repository :=
       {| _folder := F;
          _meta := updated_meta (with_k (_meta parent) k) d;
          _data := {| _csv := Repository_csv F; df := d |} |};
     _test_data := {| _csv := _test_csv F;
                      df := normalized is_applicable train test M |};
     _normalization := computed F train is_applicable |}.

Definition fold_written (parent : Repository) (k : nat) (train test : DataFrame)
    (c : content) (is_applicable : bool) (w1 : @world G) : @world G :=
  let F := fold_folder (_folder parent) k in
  let fold := fold_made parent k train test is_applicable in
  written (meta_json F) (Json (_meta fold))
    (written (_test_csv F) (Csv (df (_test_data fold)))
       (written (Repository_csv F) (Csv (df (_data fold)))
          (written (normalization_csv F) c
             (written (normalization_csv F) (Csv (statistics train))
                (made F w1))))).

Lemma from_dfs_run parent k train test np c is_applicable (w : @world G) :
  clearable (fold_folder (_folder parent) k) w ->
  fs w np = Some (File c) ->
  is_under (fold_folder (_folder parent) k) np = false ->
  empty train = false -> empty test = false ->
  exists w1,
    from_dfs parent k train test (Some np) is_applicable w
    = (Ok (fold_made parent k train test is_applicable),
       fold_written parent k train test c is_applicable w1) /\
    rng w1 = rng w /\
    vacant (fold_folder (_folder parent) k) w1 /\
    (forall p, is_under (fold_folder (_folder parent) k) p = false ->
               fs w1 p = fs w p).
Proof.
  intros Hc Hnp Hout Htrain Htest.
  set (F := fold_folder (_folder parent) k) in *.
  destruct (Repository_create_run Hc) as (w1 & Hr & Hg & Hv & Ho).
  exists w1. split; [|auto].
  unfold from_dfs. fold F. unfold bind at 1. rewrite Hr.
  unfold bind at 1.
  rewrite Normalization_init_fresh;
    [|unfold normalization_csv; now apply fs_made_under|assumption].
  unfold bind at 1. unfold Normalization_csv, computed at 1. cbn [_fold].
  fold (normalization_csv F).
  erewrite copy_run.
  2:{ rewrite fs_written_other by now apply not_under_neq.
      apply fs_made_kept. rewrite Ho by exact Hout. exact Hnp. }
  unfold bind at 1.
  erewrite apply_to_cached by reflexivity. cbv beta iota.
  unfold bind at 1. unfold Repository_csv at 1.
  erewrite DataTable_init_write by now rewrite empty_normalized.
  unfold bind at 1.
  erewrite apply_to_cached by reflexivity. cbv beta iota.
  unfold bind at 1. unfold _test_csv at 1.
  erewrite DataTable_init_write by now rewrite empty_normalized.
  unfold bind. rewrite update_meta_run.
  reflexivity.
Qed.

(** What is in the world once a fold has been written. *)
Lemma fs_fold_written parent k train test c b (w1 : @world G) :
  let F := fold_folder (_folder parent) k in
  let fold := fold_made parent k train test b in
  vacant F w1 ->
  fs (fold_written parent k train test c b w1) F = Some Dir /\
  fs (fold_written parent k train test c b w1) (Repository_csv F)
    = Some (File (Csv (df (_data fold)))) /\
  fs (fold_written parent k train test c b w1) (_test_csv F)
    = Some (File (Csv (df (_test_data fold)))) /\
  fs (fold_written parent k train test c b w1) (normalization_csv F)
    = Some (File c) /\
  (forall p n, is_under F p = false -> fs w1 p = Some n ->
               fs (fold_written parent k train test c b w1) p = Some n) /\
  (forall p, is_under F p = false -> is_under p F = false ->
             fs (fold_written parent k train test c b w1) p = fs w1 p).
Proof.
  intros F fold Hv. unfold fold_written. fold F. fold fold.
  unfold meta_json, _test_csv, Repository_csv, normalization_csv.
  split; [|split; [|split; [|split; [|split]]]].
  - rewrite !fs_written_other by apply path_eqb_self_app.
    now apply fs_made_self.
  - rewrite !fs_written_other by now apply path_eqb_siblings.
    apply fs_written_same.
  - rewrite !fs_written_other by now apply path_eqb_siblings.
    apply fs_written_same.
  - rewrite !fs_written_other by now apply path_eqb_siblings.
    apply fs_written_same.
  - intros p n Hp Hn.
    rewrite !fs_written_other by now apply not_under_neq.
    now apply fs_made_kept.
  - intros p Hp Hp'.
    rewrite !fs_written_other by now apply not_under_neq.
    now apply fs_made_aside.
Qed.

End FoldFacts.

(** ** The loops of [into_K_folds] *)

Section LoopFacts.
Context {G : Type} {RS : RandomSource G} {ND : NormalDistribution}.

(** The rows of [data] at the given positions: what [iloc] returns when it
    does not raise. *)
Definition select (data : DataFrame) (positions : list nat) : DataFrame :=
  {| index := map (fun i => nth i (index data) (Row 0)) positions;
     columns := columns data;
     values := map (fun i => nth i (values data) []) positions |}.

Lemma iloc_select data positions :
  (forall i, In i positions -> i < n_rows data) ->
  iloc data positions = Ok (select data positions).
Proof.
  intro Hin. unfold iloc.
  replace (forallb (fun i => i <? n_rows data) positions) with true;
    [reflexivity|].
  symmetry. apply forallb_forall. intros i Hi. apply Nat.ltb_lt. auto.
Qed.

Lemma empty_select data positions :
  columns data <> [] -> positions <> [] -> empty (select data positions) = false.
Proof.
  intros Hc Hp. unfold empty, select. cbn [index columns].
  rewrite length_map.
  destruct positions; [congruence|]. destruct (columns data); [congruence|].
  reflexivity.
Qed.

Lemma with_rng_run {A : Type} (f : G -> A * G) (w : @world G) :
  with_rng f w = (Ok (fst (f (rng w))), {| fs := fs w; rng := snd (f (rng w)) |}).
Proof. unfold with_rng. now destruct (f (rng w)). Qed.

(** Fold folders of one repository do not meet. *)
Lemma fold_folders_apart folder k k' p :
  k <> k' ->
  is_under (fold_folder folder k) p = true ->
  is_under (fold_folder folder k') p = false /\
  is_under p (fold_folder folder k') = false.
Proof.
  intros Hne Hu. destruct (is_under_inv _ _ Hu) as [r ->].
  unfold fold_folder. rewrite <- app_assoc, !is_under_app_l. simpl.
  assert (E : (k' =? k) = false) by (apply Nat.eqb_neq; congruence).
  assert (E' : (k =? k') = false) by (apply Nat.eqb_neq; congruence).
  now rewrite E, E'.
Qed.

(** [for k in range(...): shutil.rmtree(self.fold_folder(k), ignore_errors=True)] *)
Lemma rmtree_loop folder ks (w : @world G) :
  (forall k, In k ks -> clearable (fold_folder folder k) w) ->
  exists w1,
    for_each ks (fun k => rmtree (fold_folder folder k) true) w = (Ok tt, w1) /\
    rng w1 = rng w /\
    (forall k, In k ks -> vacant (fold_folder folder k) w1) /\
    (forall p, (forall k, In k ks -> is_under (fold_folder folder k) p = false) ->
               fs w1 p = fs w p) /\
    (forall p, fs w p = None -> fs w1 p = None).
Proof.
  revert w; induction ks as [|k ks IH]; intros w Hc.
  - exists w. simpl. unfold ret. repeat split; auto. intros k [].
  - destruct (@rmtree_clears G (fold_folder folder k) w
                (Hc k (or_introl eq_refl)))
      as (w1 & Hr & Hg & Hv & Ho).
    assert (Hmono : forall p, fs w p = None -> fs w1 p = None).
    { intros p Hp. destruct (is_under (fold_folder folder k) p) eqn:E.
      - now apply Hv.
      - now rewrite Ho. }
    assert (Hc1 : forall k', In k' ks -> clearable (fold_folder folder k') w1).
    { intros k' Hk'. destruct (Hc k' (or_intror Hk')) as [Hd|Hvac].
      - destruct (is_under (fold_folder folder k) (fold_folder folder k')) eqn:E.
        + right. intros p Hp. apply Hv. eapply is_under_trans; eassumption.
        + left. now rewrite Ho.
      - right. intros p Hp. apply Hmono. now apply Hvac. }
    destruct (IH w1 Hc1) as (w2 & Hr2 & Hg2 & Hv2 & Ho2 & Hm2).
    exists w2. simpl. unfold bind. rewrite Hr. split; [exact Hr2|].
    split; [congruence|]. split; [|split].
    + intros k' [<-|Hk']; [|now apply Hv2].
      intros p Hp. apply Hm2. now apply Hv.
    + intros p Hp. rewrite Ho2 by (intros; apply Hp; now right).
      apply Ho, Hp. now left.
    + intros p Hp. auto.
Qed.

(** The body of [for k in range(K)] in [models.py]. *)
Definition fold_body (self : Repository) (data : DataFrame)
    (index indicator : list nat) (normalization : path) (is_applicable : bool)
    (k : nat) : @M G unit :=
  let (data_index, test_index) := proper_fold k index indicator in
  bind (lift (iloc data data_index)) (fun train =>
  bind (lift (iloc data test_index)) (fun test =>
  bind (from_dfs self k train test (Some normalization) is_applicable)
       (fun _ => ret tt))).

(** Fold [k] as it stands in the world: a directory with the two tables
    normalized by the statistics of the training rows [rows], and a copy
    [c] of the normalization file handed to [from_dfs]. *)
Definition fold_stands (self : Repository) (data : DataFrame) (k : nat)
    (rows : list nat * list nat) (c : content) (is_applicable : bool)
    (w : @world G) : Prop :=
  let F := fold_folder (_folder self) k in
  let M := meta_M (_meta self) in
  let train := select data (fst rows) in
  let test := select data (snd rows) in
  fs w F = Some Dir /\
  fs w (Repository_csv F)
    = Some (File (Csv (normalized is_applicable train train M))) /\
  fs w (_test_csv F)
    = Some (File (Csv (normalized is_applicable train test M))) /\
  fs w (normalization_csv F) = Some (File c).

(** Rows fit to make a fold of: some, and all within the table. *)
Definition usable (data : DataFrame) (rows : list nat * list nat) : Prop :=
  fst rows <> [] /\ snd rows <> [] /\
  (forall i, In i (fst rows) -> i < n_rows data) /\
  (forall i, In i (snd rows) -> i < n_rows data).

Lemma from_dfs_stands self data k rows np c b (w : @world G) :
  vacant (fold_folder (_folder self) k) w ->
  fs w np = Some (File c) ->
  is_under (fold_folder (_folder self) k) np = false ->
  columns data <> [] -> usable data rows ->
  exists fold w',
    from_dfs self k (select data (fst rows)) (select data (snd rows))
             (Some np) b w = (Ok fold, w') /\
    rng w' = rng w /\
    fold_stands self data k rows c b w' /\
    (forall p n, is_under (fold_folder (_folder self) k) p = false ->
                 fs w p = Some n -> fs w' p = Some n) /\
    (forall p, is_under (fold_folder (_folder self) k) p = false ->
               is_under p (fold_folder (_folder self) k) = false ->
               fs w' p = fs w p).
Proof.
  intros Hv Hnp Hout Hcol (Hd & Ht & _ & _).
  destruct (@from_dfs_run G ND self k (select data (fst rows))
              (select data (snd rows)) np c b w (or_intror Hv) Hnp Hout
              (@empty_select data (fst rows) Hcol Hd)
              (@empty_select data (snd rows) Hcol Ht))
    as (w1 & Hrun & Hg & Hv1 & Ho).
  destruct (@fs_fold_written G ND self k (select data (fst rows))
              (select data (snd rows)) c b w1 Hv1)
    as (F1 & F2 & F3 & F4 & F5 & F6).
  do 2 eexists. split; [exact Hrun|]. split; [exact Hg|].
  split; [|split].
  - unfold fold_stands. auto.
  - intros p n Hp Hn. apply F5; [assumption|]. now rewrite Ho.
  - intros p Hp Hp'. rewrite F6 by assumption. now apply Ho.
Qed.

Lemma fold_body_run self data index indicator np c b k (w : @world G) :
  vacant (fold_folder (_folder self) k) w ->
  fs w np = Some (File c) ->
  is_under (fold_folder (_folder self) k) np = false ->
  columns data <> [] -> usable data (proper_fold k index indicator) ->
  exists w',
    fold_body self data index indicator np b k w = (Ok tt, w') /\
    rng w' = rng w /\
    fold_stands self data k (proper_fold k index indicator) c b w' /\
    (forall p n, is_under (fold_folder (_folder self) k) p = false ->
                 fs w p = Some n -> fs w' p = Some n) /\
    (forall p, is_under (fold_folder (_folder self) k) p = false ->
               is_under p (fold_folder (_folder self) k) = false ->
               fs w' p = fs w p).
Proof.
  intros Hv Hnp Hout Hcol Hu.
  destruct (@from_dfs_stands self data k (proper_fold k index indicator)
              np c b w Hv Hnp Hout Hcol Hu)
    as (fold & w' & Hrun & Hg & Hs & Hk & Ha).
  exists w'. split; [|auto].
  unfold fold_body. destruct Hu as (_ & _ & Hi1 & Hi2).
  destruct (proper_fold k index indicator) as [data_index test_index].
  cbn [fst snd] in *.
  unfold bind, lift. rewrite (@iloc_select data data_index Hi1),
    (@iloc_select data test_index Hi2), Hrun.
  reflexivity.
Qed.

(** [for k in range(K): ... Fold.from_dfs(...)] *)
Lemma fold_loop self data index indicator np c b ks (w : @world G) :
  NoDup ks ->
  (forall k, In k ks -> vacant (fold_folder (_folder self) k) w) ->
  fs w np = Some (File c) ->
  (forall k, is_under (fold_folder (_folder self) k) np = false) ->
  columns data <> [] ->
  (forall k, In k ks -> usable data (proper_fold k index indicator)) ->
  exists w',
    for_each ks (fold_body self data index indicator np b) w = (Ok tt, w') /\
    rng w' = rng w /\
    (forall k, In k ks ->
       fold_stands self data k (proper_fold k index indicator) c b w') /\
    (forall p n, (forall k, In k ks ->
                    is_under (fold_folder (_folder self) k) p = false) ->
                 fs w p = Some n -> fs w' p = Some n) /\
    (forall p, (forall k, In k ks ->
                  is_under (fold_folder (_folder self) k) p = false /\
                  is_under p (fold_folder (_folder self) k) = false) ->
               fs w' p = fs w p).
Proof.
  revert w; induction ks as [|k ks IH]; intros w Hnd Hv Hnp Hout Hcol Hu.
  - exists w. simpl. unfold ret.
    split; [reflexivity|]. split; [reflexivity|].
    split; [intros k []|]. split; auto.
  - inversion Hnd as [|? ? Hnotin Hnd']; subst.
    destruct (@fold_body_run self data index indicator np c b k w
                (Hv k (or_introl eq_refl)) Hnp (Hout k) Hcol
                (Hu k (or_introl eq_refl)))
      as (w1 & Hrun & Hg & Hs & Hk & Ha).
    assert (Hv1 : forall k', In k' ks -> vacant (fold_folder (_folder self) k') w1).
    { intros k' Hk' p Hp.
      assert (Hne : k' <> k) by (intros ->; contradiction).
      destruct (@fold_folders_apart (_folder self) k' k p Hne Hp) as [A1 A2].
      rewrite Ha by assumption. apply (Hv k' (or_intror Hk') p Hp). }
    destruct (IH w1 Hnd' Hv1 (Hk np _ (Hout k) Hnp) Hout Hcol
                (fun k' Hk' => Hu k' (or_intror Hk')))
      as (w2 & Hrun2 & Hg2 & Hs2 & Hk2 & Ha2).
    exists w2. simpl. unfold bind. rewrite Hrun. split; [exact Hrun2|].
    split; [congruence|]. split; [|split].
    + intros k' [<-|Hk']; [|now apply Hs2].
      destruct Hs as (S1 & S2 & S3 & S4).
      assert (Hin : forall r k', In k' ks ->
                is_under (fold_folder (_folder self) k')
                         (fold_folder (_folder self) k ++ r) = false).
      { intros r k' Hk'. assert (Hne : k <> k') by (intros ->; contradiction).
        apply (@fold_folders_apart (_folder self) k k' _ Hne).
        apply is_under_self_app. }
      unfold fold_stands.
      split; [|split; [|split]].
      * apply Hk2; [|exact S1]. intros k' Hk'.
        rewrite <- (app_nil_r (fold_folder (_folder self) k)). now apply Hin.
      * apply Hk2; [|exact S2]. intros k' Hk'. now apply Hin.
      * apply Hk2; [|exact S3]. intros k' Hk'. now apply Hin.
      * apply Hk2; [|exact S4]. intros k' Hk'. now apply Hin.
    + intros p n Hp Hn. apply Hk2; [intros; apply Hp; now right|].
      apply Hk; [apply Hp; now left | exact Hn].
    + intros p Hp. rewrite Ha2 by (intros; apply Hp; now right).
      apply Ha; apply Hp; now left.
Qed.

End LoopFacts.

(** ** Running [Repository.into_K_folds] *)

Section FoldingFacts.
Context {G : Type} {RS : RandomSource G} {ND : NormalDistribution}.

(** The rows handed to [from_dfs] for a proper fold are fit for it. *)
Lemma proper_fold_usable (data : DataFrame) N K index indicator k :
  well_indicated N K index indicator ->
  1 <= K <= N -> k < K -> n_rows data = N ->
  usable data (proper_fold k index indicator).
Proof.
  intros W HK Hk HN.
  assert (Hsize := test_size W k).
  destruct (Nat.ltb_spec k K) as [_|]; [|lia].
  assert (Hq : 0 < N / K) by (apply Nat.div_str_pos; lia).
  assert (Ht : test_index k (combine index indicator) <> []).
  { intro E. rewrite E in Hsize. simpl in Hsize. lia. }
  assert (Hti : forall i, In i (test_index k (combine index indicator)) ->
                          i < n_rows data).
  { intros i Hi. rewrite HN. now apply (test_within W) in Hi. }
  unfold usable, proper_fold. cbn [fst snd].
  split; [|split; [exact Ht|split; [|exact Hti]]].
  - unfold swap_if_empty.
    destruct (data_index k (combine index indicator)); [exact Ht|discriminate].
  - intros i Hi. unfold swap_if_empty in Hi.
    destruct (data_index k (combine index indicator)) as [|a l] eqn:E.
    + now apply Hti.
    + rewrite <- E in Hi. rewrite HN. now apply (data_complement W) in Hi.
Qed.

Lemma Normalization_init_existing folder data b f (w : @world G) :
  fs w (normalization_csv folder) = Some (File (Csv f)) ->
  Normalization_init folder data b w
  = (Ok {| _fold := folder; _is_applicable := b;
           _frame := Some {| _csv := normalization_csv folder; df := f |} |}, w).
Proof.
  intro Hf. unfold Normalization_init, bind, exists_, Normalization_csv.
  cbn [_fold]. fold (normalization_csv folder). rewrite Hf.
  unfold normalization_csv in *.
  now erewrite DataTable_init_read by exact Hf.
Qed.

(** A normalization file that [into_K_folds] can hand to its folds: none
    given and the one of the repository absent or a table; or one given,
    which is a file away from the fold folders and from the metadata. *)
Definition normalization_ready (folder : path) (normalization : option path)
    (w : @world G) : Prop :=
  match normalization with
  | None => fs w (normalization_csv folder) = None \/
            exists f, fs w (normalization_csv folder) = Some (File (Csv f))
  | Some p => (exists c, fs w p = Some (File c)) /\
              (forall k, is_under (fold_folder folder k) p = false) /\
              p <> meta_json folder
  end.

(** [normalization = Normalization(self, self._data.pd).csv if normalization
    is None else normalization] *)
Definition normalization_step (self : Repository) (data : DataFrame)
    (normalization : option path) : @M G path :=
  match normalization with
  | None => bind (Normalization_init (_folder self) (Some data) true)
                 (fun n => ret (Normalization_csv n))
  | Some p => ret p
  end.

Lemma normalization_step_run self data normalization (w : @world G) :
  empty data = false ->
  normalization_ready (_folder self) normalization w ->
  exists np c w',
    normalization_step self data normalization w = (Ok np, w') /\
    rng w' = rng w /\
    fs w' np = Some (File c) /\
    (forall k, is_under (fold_folder (_folder self) k) np = false) /\
    np <> meta_json (_folder self) /\
    (forall p, p <> np -> fs w' p = fs w p) /\
    (normalization = None -> fs w (normalization_csv (_folder self)) = None ->
     c = Csv (statistics data)).
Proof.
  intros Hd Hready. unfold normalization_step.
  assert (Hmj : normalization_csv (_folder self) <> meta_json (_folder self)).
  { unfold normalization_csv, meta_json. intro E.
    apply app_inv_head in E. discriminate. }
  assert (Hnp : forall k, is_under (fold_folder (_folder self) k)
                                   (normalization_csv (_folder self)) = false).
  { intro k. unfold fold_folder, normalization_csv.
    now rewrite is_under_app_l. }
  destruct normalization as [p|]; cbn in Hready.
  - destruct Hready as ([c Hc] & Hout & Hne).
    exists p, c, w. unfold ret. repeat split; auto. discriminate.
  - destruct Hready as [Hn|[f Hf]].
    + exists (normalization_csv (_folder self)), (Csv (statistics data)),
        (written (normalization_csv (_folder self)) (Csv (statistics data)) w).
      unfold bind. rewrite Normalization_init_fresh by assumption.
      split; [reflexivity|]. split; [reflexivity|].
      split; [apply fs_written_same|]. split; [exact Hnp|].
      split; [exact Hmj|]. split; [|reflexivity].
      intros q Hq. now rewrite fs_written_other by now apply path_neqb.
    + exists (normalization_csv (_folder self)), (Csv f), w.
      unfold bind. erewrite Normalization_init_existing by exact Hf.
      repeat split; auto. congruence.
Qed.

(** The repository object that [into_K_folds] returns. *)
Definition folded (self : Repository) (K : Z) (sbf : bool) : Repository :=
  {| _folder := _folder self;
     _meta := update_folding (_meta self) (Z.abs_nat K) (0 <? K)%Z sbf;
     _data := _data self |}.

(** A world in which [into_K_folds] is at home: the table has columns,
    no fold folder is a regular file, and the normalization is ready. *)
Definition foldable (self : Repository) (normalization : option path)
    (w : @world G) : Prop :=
  columns (df (_data self)) <> [] /\
  (forall k, clearable (fold_folder (_folder self) k) w) /\
  normalization_ready (_folder self) normalization w.

(** [index] and [indicator] of a call, from the state of the random
    source at its start. *)
Definition index_of (N : nat) (sbf : bool) (g : G) : list nat :=
  fst (shuffled_index N sbf g).

Definition indicator_of (N K : nat) (sbf : bool) (g : G) : list nat :=
  fst (make_indicator N K (snd (shuffled_index N sbf g))).

Lemma folding_split N K sbf (g : G) :
  fst (folding N K sbf g) = (index_of N sbf g, indicator_of N K sbf g).
Proof.
  unfold folding, index_of, indicator_of.
  destruct (shuffled_index N sbf g) as [index g1]. cbn [fst snd].
  now destruct (make_indicator N K g1).
Qed.

Lemma fold_rows_split N K sbf (g : G) k :
  fold_rows N K sbf g k
  = proper_fold k (index_of N sbf g) (indicator_of N K sbf g).
Proof.
  unfold fold_rows. pose proof (folding_split N K sbf g) as E.
  destruct (folding N K sbf g) as [[index indicator] g'].
  cbn [fst] in E. now injection E as -> ->.
Qed.

Lemma split_well_indicated N K sbf (g : G) :
  0 < K -> well_indicated N K (index_of N sbf g) (indicator_of N K sbf g).
Proof.
  intro HK. pose proof (folding_well_indicated N sbf g HK) as W.
  now rewrite folding_split in W.
Qed.

Theorem into_K_folds_run (self : Repository) (K : Z) (sbf : bool)
    (normalization : option path) (b : bool) (w : @world G) :
  let data := df (_data self) in
  let N := n_rows data in
  let Ka := Z.abs_nat K in
  let idx := index_of N sbf (rng w) in
  let ind := indicator_of N Ka sbf (rng w) in
  (1 <= Z.abs K <= Z.of_nat N)%Z ->
  foldable self normalization w ->
  exists (w' : @world G) (c : content),
    into_K_folds self K sbf normalization b w = (Ok (folded self K sbf), w') /\
    (forall k, k < Ka ->
       fold_stands self data k (proper_fold k idx ind) c b w') /\
    ((0 < K)%Z -> fold_stands self data Ka (idx, idx) c b w') /\
    ((K < 0)%Z -> vacant (fold_folder (_folder self) Ka) w') /\
    fs w' (meta_json (_folder self))
      = Some (File (Json (_meta (folded self K sbf)))) /\
    (normalization = None ->
     fs w (normalization_csv (_folder self)) = None ->
     c = Csv (statistics data)).
Proof.
  intros data N Ka idx ind HK (Hcol & Hclear & Hready).
  assert (HKa : 1 <= Ka <= N) by (unfold Ka; lia).
  assert (W := @split_well_indicated N Ka sbf (rng w) ltac:(lia)).
  fold idx ind in W.
  assert (Hidx : forall i, In i idx -> i < n_rows data)
    by (intros i Hi; now apply (wi_in_index W) in Hi).
  assert (Hidx0 : idx <> []).
  { intro E. pose proof (Permutation_length (wi_index W)) as L.
    rewrite E, length_seq in L. simpl in L. lia. }
  assert (Hempty : empty data = false).
  { unfold empty.
    destruct (length (index data)) eqn:EN; [unfold N, n_rows in HKa; lia|].
    destruct (columns data) eqn:Ec; [exfalso; apply Hcol; exact Ec|].
    reflexivity. }
  unfold into_K_folds. fold data. fold N.
  replace (negb ((1 <=? Z.abs K)%Z && (Z.abs K <=? Z.of_nat N)%Z)) with false
    by (symmetry; apply negb_false_iff, andb_true_iff; split;
        apply Z.leb_le; lia).
  (* the folders go *)
  destruct (@rmtree_loop G (_folder self)
              (seq 0 (Nat.max (Z.abs_nat K) (meta_K (_meta self)) + 1)) w
              (fun k _ => Hclear k))
    as (w1 & Hr1 & Hg1 & Hv1 & Ho1 & Hm1).
  unfold bind at 1. rewrite Hr1.
  (* the idx *)
  unfold bind at 1. rewrite with_rng_run. cbv beta iota. rewrite Hg1.
  fold (index_of N sbf (rng w)). fold idx.
  set (g1 := snd (shuffled_index N sbf (rng w))).
  set (w2 := {| fs := fs w1; rng := g1 |}).
  (* the metadata *)
  cbn [_folder _meta _data].
  unfold bind at 1. rewrite write_meta_run.
  set (w3 := written (meta_json (_folder self))
                     (Json (update_folding (_meta self) (Z.abs_nat K)
                                           (0 <? K)%Z sbf)) w2).
  assert (Hv3 : forall k, k <= Ka -> vacant (fold_folder (_folder self) k) w3).
  { intros k Hk p Hp. unfold w3.
    rewrite fs_written_other.
    - unfold w2. cbn [fs]. apply (Hv1 k); [|exact Hp].
      apply in_seq. unfold Ka in Hk. lia.
    - destruct (is_under_inv _ _ Hp) as [r ->].
      unfold fold_folder, meta_json. rewrite <- app_assoc, path_eqb_app_l.
      simpl. now destruct r. }
  (* the normalization *)
  assert (Hready3 : normalization_ready (_folder self) normalization w3).
  { unfold normalization_ready in *. destruct normalization as [p|].
    - destruct Hready as ([c Hc] & Hout & Hne). split; [|auto].
      exists c. unfold w3. rewrite fs_written_other by now apply path_neqb.
      cbn [fs w2]. rewrite Ho1; [exact Hc|]. intros k _. apply Hout.
    - assert (E : fs w3 (normalization_csv (_folder self))
                  = fs w (normalization_csv (_folder self))).
      { unfold w3. rewrite fs_written_other
          by (unfold normalization_csv, meta_json; now apply path_eqb_siblings).
        cbn [fs w2]. apply Ho1. intros k _.
        unfold fold_folder, normalization_csv. now rewrite is_under_app_l. }
      now rewrite E. }
  destruct (@normalization_step_run self data normalization w3 Hempty Hready3)
    as (np & c & w4 & Hr4 & Hg4 & Hnp4 & Hout4 & Hnm4 & Ho4 & Hc4).
  change (match normalization with
          | Some p => ret p
          | None => bind (Normalization_init (_folder self) (Some data) true)
                         (fun n => ret (Normalization_csv n))
          end) with (normalization_step self data normalization).
  unfold bind at 1. rewrite Hr4.
  assert (Hv4 : forall k, k <= Ka -> vacant (fold_folder (_folder self) k) w4).
  { intros k Hk p Hp. rewrite Ho4; [exact (Hv3 k Hk p Hp)|].
    intros ->. now rewrite Hout4 in Hp. }
  assert (Hmeta4 : fs w4 (meta_json (_folder self))
                   = Some (File (Json (_meta (folded self K sbf))))).
  { rewrite Ho4 by congruence. unfold w3. apply fs_written_same. }
  fold (folded self K sbf).
  (* the improper fold *)
  assert (Himp : exists w5,
    (if (0 <? K)%Z
     then bind (lift (iloc data idx))
            (fun all => bind (from_dfs (folded self K sbf) (Z.abs_nat K)
                                       all all (Some np) b)
                             (fun _ => ret tt))
     else ret tt) w4 = (Ok tt, w5) /\
    rng w5 = rng w4 /\
    (forall k, k < Ka -> vacant (fold_folder (_folder self) k) w5) /\
    fs w5 np = Some (File c) /\
    fs w5 (meta_json (_folder self))
      = Some (File (Json (_meta (folded self K sbf)))) /\
    ((0 < K)%Z -> fold_stands self data Ka (idx, idx) c b w5) /\
    ((K < 0)%Z -> vacant (fold_folder (_folder self) Ka) w5)).
  { destruct (Z.ltb_spec 0 K) as [Hpos|Hneg].
    - assert (Hu : usable data (idx, idx)) by (repeat split; assumption).
      destruct (@from_dfs_stands G ND (folded self K sbf) data Ka (idx, idx)
                  np c b w4 (Hv4 Ka (le_n Ka)) Hnp4 (Hout4 Ka) Hcol Hu)
        as (fold & w5 & Hrun & Hg & Hs & Hk & Ha).
      exists w5. unfold bind, lift. rewrite (@iloc_select data idx Hidx).
      cbn [fst snd] in Hrun. fold Ka. rewrite Hrun.
      split; [reflexivity|]. split; [exact Hg|].
      split; [|split; [|split; [|split]]].
      + intros k Hk' p Hp.
        assert (Hne : k <> Ka) by lia.
        destruct (@fold_folders_apart (_folder self) k Ka p Hne Hp) as [A1 A2].
        rewrite (Ha p A1 A2). exact (Hv4 k ltac:(lia) p Hp).
      + exact (Hk np _ (Hout4 Ka) Hnp4).
      + apply (Hk (meta_json (_folder self))); [|exact Hmeta4].
        unfold fold_folder, meta_json. now rewrite is_under_app_l.
      + intros _. exact Hs.
      + intros Hlt. lia.
    - exists w4. unfold ret.
      split; [reflexivity|]. split; [reflexivity|].
      split; [|split; [|split; [|split]]].
      + intros k Hk'. apply Hv4. lia.
      + exact Hnp4.
      + exact Hmeta4.
      + intros Hlt. lia.
      + intros _. exact (Hv4 Ka (le_n Ka)). }
  destruct Himp as (w5 & Hr5 & Hg5 & Hv5 & Hnp5 & Hmeta5 & Hs5 & Hvac5).
  unfold bind at 1. rewrite Hr5.
  (* the indicator *)
  unfold bind at 1. rewrite with_rng_run. cbv beta iota.
  assert (Eg : rng w5 = g1) by (rewrite Hg5, Hg4; reflexivity).
  rewrite Eg.
  change (fst (make_indicator N (Z.abs_nat K) g1)) with ind.
  set (w6 := {| fs := fs w5; rng := snd (make_indicator N (Z.abs_nat K) g1) |}).
  (* the proper folds *)
  assert (Hus : forall k, In k (seq 0 Ka) -> usable data (proper_fold k idx ind)).
  { intros k Hk'. apply in_seq in Hk'.
    apply (@proper_fold_usable data N Ka idx ind k W HKa); [lia | reflexivity]. }
  destruct (@fold_loop G ND (folded self K sbf) data idx ind np c b (seq 0 Ka) w6
              (seq_NoDup Ka 0)
              (fun k Hk' => Hv5 k (proj2 (proj1 (in_seq Ka 0 k) Hk')))
              Hnp5 Hout4 Hcol Hus)
    as (w7 & Hr7 & Hg7 & Hs7 & Hk7 & Ha7).
  unfold bind at 1. unfold fold_body in Hr7. fold Ka. rewrite Hr7. unfold ret.
  exists w7, c. split; [reflexivity|].
  assert (Hside : forall r k, In k (seq 0 Ka) ->
            is_under (fold_folder (_folder self) k)
                     (fold_folder (_folder self) Ka ++ r) = false).
  { intros r k Hk'. apply in_seq in Hk'.
    assert (Hne : Ka <> k) by lia.
    apply (@fold_folders_apart (_folder self) Ka k _ Hne).
    apply is_under_self_app. }
  split; [|split; [|split; [|split]]].
  - intros k Hk'. apply Hs7. apply in_seq. lia.
  - intros Hpos. destruct (Hs5 Hpos) as (S1 & S2 & S3 & S4).
    unfold fold_stands. split; [|split; [|split]].
    + apply Hk7; [|exact S1]. intros k Hk'.
      rewrite <- (app_nil_r (fold_folder (_folder self) Ka)). now apply Hside.
    + apply Hk7; [|exact S2]. intros k Hk'. now apply Hside.
    + apply Hk7; [|exact S3]. intros k Hk'. now apply Hside.
    + apply Hk7; [|exact S4]. intros k Hk'. now apply Hside.
  - intros Hneg p Hp. rewrite Ha7; [exact (Hvac5 Hneg p Hp)|].
    intros k Hk'. apply in_seq in Hk'.
    assert (Hne : Ka <> k) by lia.
    exact (@fold_folders_apart (_folder self) Ka k p Hne Hp).
  - apply Hk7; [|exact Hmeta5]. intros k _.
    unfold fold_folder, meta_json. now rewrite is_under_app_l.
  - intros Hn Hnone. apply Hc4; [exact Hn|].
    unfold w3. rewrite fs_written_other
      by (unfold normalization_csv, meta_json; now apply path_eqb_siblings).
    unfold w2. cbn [fs]. now apply Hm1.
Qed.

End FoldingFacts.

(** ** The improper fold *)

Lemma map_nth_seq_all {A : Type} (l : list A) (d : A) :
  map (fun i => nth i l d) (seq 0 (length l)) = l.
Proof.
  apply (nth_ext _ _ d d).
  - now rewrite length_map, length_seq.
  - intros j Hj. rewrite length_map, length_seq in Hj.
    now rewrite nth_map_seq.
Qed.

(** Selecting along a rearrangement of all positions rearranges the rows. *)
Lemma select_all_rows (data : DataFrame) (idx : list nat) :
  Permutation (seq 0 (n_rows data)) idx ->
  length (values data) = n_rows data ->
  Permutation (values data) (values (select data idx)) /\
  Permutation (index data) (index (select data idx)).
Proof.
  intros P L. unfold select. cbn [values index]. split.
  - rewrite <- (map_nth_seq_all (values data) []) at 1. rewrite L.
    now apply Permutation_map.
  - rewrite <- (map_nth_seq_all (index data) (Row 0)) at 1.
    now apply Permutation_map.
Qed.

(** What a call of [into_K_folds] with [K] within bounds builds. *)
Definition folds_built {G : Type} {RS : RandomSource G} {ND : NormalDistribution}
    (self : Repository) (K : Z) (sbf : bool) (normalization : option path)
    (b : bool) (w : @world G) : Prop :=
  let data := df (_data self) in
  let N := n_rows data in
  let Ka := Z.abs_nat K in
  exists (w' : @world G) (c : content),
    into_K_folds self K sbf normalization b w = (Ok (folded self K sbf), w') /\
    (* the |K| proper folds *)
    (forall k, k < Ka ->
       fold_stands self data k (fold_rows N Ka sbf (rng w) k) c b w') /\
    (* K > 0: the improper fold, indexed K *)
    ((0 < K)%Z ->
       exists idx,
         Permutation (seq 0 N) idx /\
         fold_stands self data Ka (idx, idx) c b w' /\
         (length (values data) = N ->
          Permutation (values data) (values (select data idx))) /\
         folds (folded self K sbf) = seq 0 (Ka + 1)) /\
    (* K < 0: no improper fold *)
    ((K < 0)%Z ->
       fs w' (fold_folder (_folder self) Ka) = None /\
       meta_has_improper_fold (_meta (folded self K sbf)) = false /\
       folds (folded self K sbf) = seq 0 Ka).

(** C5. [into_K_folds] with K > 0 builds the |K| proper folds and, indexed
    K, a fold whose training table and test table are both made of all the
    rows of the data (in the order of the possibly shuffled index); with
    K < 0 it builds the |K| proper folds and leaves no fold |K| behind. *)
Theorem improper_fold_built :
  forall (G : Type) (RS : RandomSource G) (ND : NormalDistribution)
         (self : Repository) (K : Z) (sbf : bool) (normalization : option path)
         (b : bool) (w : @world G),
    (1 <= Z.abs K <= Z.of_nat (n_rows (df (_data self))))%Z ->
    foldable self normalization w ->
    folds_built self K sbf normalization b w.
Proof.
  intros G RS ND self K sbf normalization b w HK Hf.
  destruct (@into_K_folds_run G RS ND self K sbf normalization b w HK Hf)
    as (w' & c & Hrun & Hproper & Himproper & Hnone & _ & _).
  unfold folds_built. exists w', c. split; [exact Hrun|].
  split; [|split].
  - intros k Hk. rewrite fold_rows_split. now apply Hproper.
  - intros Hpos.
    exists (index_of (n_rows (df (_data self))) sbf (rng w)).
    assert (P : Permutation (seq 0 (n_rows (df (_data self))))
                  (index_of (n_rows (df (_data self))) sbf (rng w)))
      by apply shuffled_index_perm.
    split; [exact P|]. split; [now apply Himproper|]. split.
    + intro L. now apply select_all_rows.
    + unfold folds, folded. cbn [_meta update_folding meta_K meta_has_improper_fold].
      replace (Z.abs_nat K <? 1) with false by (symmetry; apply Nat.ltb_ge; lia).
      replace (0 <? K)%Z with true by (symmetry; apply Z.ltb_lt; lia).
      reflexivity.
  - intros Hneg. split; [|split].
    + apply (Hnone Hneg). apply is_under_refl.
    + unfold folded. cbn. apply Z.ltb_ge. lia.
    + unfold folds, folded. cbn [_meta update_folding meta_K meta_has_improper_fold].
      replace (Z.abs_nat K <? 1) with false by (symmetry; apply Nat.ltb_ge; lia).
      replace (0 <? K)%Z with false by (symmetry; apply Z.ltb_ge; lia).
      now rewrite Nat.add_0_r.
Qed.

(** A repository of four rows with one input and one output, at home in
    a world that holds its folder, its table and an old fold. *)
Definition four_rows : DataFrame :=
  {| index := [Row 0; Row 1; Row 2; Row 3]; columns := [Input; Output];
     values := [[0; 0]; [1; 1]; [2; 0]; [3; 3]]%R |}.

Definition small_repo : Repository :=
  let folder := [Named "repo"%string] in
  {| _folder := folder;
     _meta := {| meta_K := 0; meta_has_improper_fold := true;
                 meta_shuffle_before_folding := false;
                 meta_N := 4; meta_M := 1; meta_L := 1; meta_k := None |};
     _data := {| _csv := Repository_csv folder; df := four_rows |} |}.

Definition settled {G : Type} (g : G) : @world G :=
  {| fs := fun p =>
       if path_eqb p [Named "repo"%string] then Some Dir
       else if path_eqb p [Named "repo"%string; Named "data.csv"%string]
            then Some (File (Csv four_rows))
       else if path_eqb p [Named "repo"%string; fold_ 0] then Some Dir
       else None;
     rng := g |}.

Lemma settled_foldable {G : Type} (g : G) : foldable small_repo None (settled g).
Proof.
  split; [discriminate|]. split; [|now left].
  intro k. destruct k as [|k].
  - now left.
  - right. intros p Hp. destruct (is_under_inv _ _ Hp) as [r ->].
    unfold settled. cbn. reflexivity.
Qed.

Lemma improper_fold_built_witness :
  folds_built (RS:=turning) (ND:=logistic) small_repo (-2) true None true
              (settled 3).
Proof.
  apply (@improper_fold_built nat turning logistic small_repo (-2)%Z true None
           true (settled 3)).
  - cbn. lia.
  - apply settled_foldable.
Defined.

(** ** Where [IndexError] can come from *)

Section ErrorFacts.
Context {G : Type} {RS : RandomSource G} {ND : NormalDistribution}.

(** [yields c P]: whatever the world, [c] does not raise [IndexError], and
    a value it returns satisfies [P]. *)
Definition yields {A : Type} (c : @M G A) (P : A -> Prop) : Prop :=
  forall w, match fst (c w) with
            | Ok a => P a
            | Raise e => e <> IndexError
            end.

Definition anything {A : Type} : A -> Prop := fun _ => True.

Lemma yields_ret {A : Type} (a : A) (P : A -> Prop) : P a -> yields (ret a) P.
Proof. intros Ha w. exact Ha. Qed.

Lemma yields_bind {A B : Type} (c : @M G A) (f : A -> @M G B) P Q :
  yields c P -> (forall a, P a -> yields (f a) Q) -> yields (bind c f) Q.
Proof.
  intros Hc Hf w. unfold bind. specialize (Hc w).
  destruct (c w) as [[a|e] w1]; cbn [fst] in *.
  - apply (Hf a Hc).
  - exact Hc.
Qed.

Lemma yields_any {A : Type} (c : @M G A) P : yields c P -> yields c anything.
Proof.
  intros Hc w. specialize (Hc w). destruct (fst (c w)); [exact I | exact Hc].
Qed.

Lemma yields_raise {A : Type} (e : exn) (P : A -> Prop) :
  e <> IndexError -> yields (raise e) P.
Proof. intros He w. exact He. Qed.

Lemma yields_for_each {A : Type} (l : list A) (body : A -> @M G unit) :
  (forall a, In a l -> yields (body a) anything) ->
  yields (for_each l body) anything.
Proof.
  induction l as [|a l IH]; intro Hb; simpl.
  - now apply yields_ret.
  - apply yields_bind with (P:=anything); [apply Hb; now left|].
    intros _ _. apply IH. intros; apply Hb; now right.
Qed.

Lemma yields_with_rng {A : Type} (f : G -> A * G) :
  yields (with_rng f) (fun a => exists g, a = fst (f g)).
Proof.
  intro w. unfold with_rng. destruct (f (rng w)) as [a g] eqn:E. cbn [fst].
  exists (rng w). now rewrite E.
Qed.

Lemma yields_iloc data positions :
  (forall i, In i positions -> i < n_rows data) ->
  yields (lift (iloc data positions)) anything.
Proof. intros Hin w. unfold lift. now rewrite iloc_select. Qed.

Lemma get_loc_not_IndexError name labels :
  get_loc name labels <> Raise IndexError.
Proof.
  induction labels as [|l labels IH]; simpl; [discriminate|].
  destruct (label_eqb name l); [discriminate|].
  destruct (get_loc name labels) as [i|e]; [discriminate|].
  intro E. apply IH. exact E.
Qed.

Lemma yields_get_loc name labels : yields (lift (get_loc name labels)) anything.
Proof.
  intro w. unfold lift. cbn [fst].
  pose proof (get_loc_not_IndexError name labels) as Hn.
  destruct (get_loc name labels); [exact I | congruence].
Qed.

(** The file operations raise errors of the file system only. *)
Lemma yields_exists p : yields (exists_ p) anything.
Proof. intro w. exact I. Qed.

Lemma yields_rmtree p b : yields (rmtree p b) anything.
Proof.
  intro w. unfold rmtree.
  destruct (fs w p) as [[|c]|]; try destruct b; cbn; try exact I; discriminate.
Qed.

Lemma yields_mkdir p b : yields (mkdir p b) anything.
Proof.
  intro w. unfold mkdir.
  destruct (fs w p) as [[|c]|]; try destruct b; cbn; try exact I; discriminate.
Qed.

Lemma yields_write_file p c : yields (write_file p c) anything.
Proof. intro w. exact I. Qed.

Lemma yields_read_csv p : yields (read_csv p) anything.
Proof.
  intro w. unfold read_csv.
  destruct (fs w p) as [[|[d|m]]|]; cbn; try exact I; discriminate.
Qed.

Lemma yields_copy p q : yields (copy p q) anything.
Proof.
  intro w. unfold copy.
  destruct (fs w p) as [[|c]|]; cbn; try exact I; discriminate.
Qed.

Lemma yields_DataTable_write t : yields (DataTable_write t) anything.
Proof.
  unfold DataTable_write. destruct (is_empty t).
  - now apply yields_raise.
  - apply yields_write_file.
Qed.

Lemma yields_DataTable_init csv d : yields (DataTable_init csv d) anything.
Proof.
  unfold DataTable_init.
  destruct (is_empty _).
  - destruct (empty d); [now apply yields_ret | now apply yields_raise].
  - destruct (empty d).
    + eapply yields_bind; [apply yields_read_csv|].
      intros; now apply yields_ret.
    + eapply yields_bind; [apply yields_DataTable_write|].
      intros; now apply yields_ret.
Qed.

Lemma yields_Normalization_init folder data b :
  yields (Normalization_init folder data b) anything.
Proof.
  unfold Normalization_init.
  eapply yields_bind; [apply yields_exists|]. intros [|] _.
  - eapply yields_bind; [apply yields_DataTable_init|].
    intros; now apply yields_ret.
  - destruct data as [data|]; [|now apply yields_ret].
    eapply yields_bind; [apply yields_DataTable_init|].
    intros; now apply yields_ret.
Qed.

Lemma yields_relevant_stats n fold_M : yields (_relevant_stats n fold_M) anything.
Proof.
  unfold _relevant_stats.
  eapply yields_bind with (P:=anything).
  - unfold Normalization_DataTable. destruct (_frame n).
    + now apply yields_ret.
    + eapply yields_bind; [apply yields_DataTable_init|].
      intros; now apply yields_ret.
  - intros [t n'] _. unfold stat_row.
    repeat (eapply yields_bind with (P:=anything);
            [eapply yields_bind; [apply yields_get_loc|];
             intros; now apply yields_ret|]; intros ? _).
    now apply yields_ret.
Qed.

Lemma yields_apply_to n fold_M d : yields (apply_to n fold_M d) anything.
Proof.
  unfold apply_to. destruct (_is_applicable n); [|now apply yields_ret].
  eapply yields_bind; [apply yields_relevant_stats|].
  intros [s n'] _. now apply yields_ret.
Qed.

Lemma yields_from_dfs parent k train test normalization b :
  yields (from_dfs parent k train test normalization b) anything.
Proof.
  unfold from_dfs, Repository_create.
  eapply yields_bind with (P:=anything).
  { eapply yields_bind; [apply yields_rmtree|]. intros; apply yields_mkdir. }
  intros _ _.
  eapply yields_bind; [apply yields_Normalization_init|]. intros n _.
  eapply yields_bind with (P:=anything).
  { destruct normalization; [apply yields_copy | now apply yields_ret]. }
  intros _ _.
  eapply yields_bind; [apply yields_apply_to|]. intros [d n1] _.
  eapply yields_bind; [apply yields_DataTable_init|]. intros t _.
  eapply yields_bind; [apply yields_apply_to|]. intros [d2 n2] _.
  eapply yields_bind; [apply yields_DataTable_init|]. intros t2 _.
  eapply yields_bind with (P:=anything).
  { unfold _update_meta. eapply yields_bind; [apply yields_write_file|].
    intros; now apply yields_ret. }
  intros; now apply yields_ret.
Qed.

(** Within bounds [into_K_folds] never raises [IndexError], whatever the
    world: every position handed to [iloc] comes from [index]. *)
Lemma into_K_folds_no_IndexError (self : Repository) (K : Z) (sbf : bool)
    (normalization : option path) (b : bool) :
  (1 <= Z.abs K <= Z.of_nat (n_rows (df (_data self))))%Z ->
  yields (into_K_folds self K sbf normalization b) anything.
Proof.
  intro HK. unfold into_K_folds.
  set (data := df (_data self)) in *. set (N := n_rows data) in *.
  replace (negb ((1 <=? Z.abs K)%Z && (Z.abs K <=? Z.of_nat N)%Z)) with false
    by (symmetry; apply negb_false_iff, andb_true_iff; split;
        apply Z.leb_le; lia).
  eapply yields_bind with (P:=anything).
  { apply yields_for_each. intros; apply yields_rmtree. }
  intros _ _.
  eapply yields_bind; [apply yields_with_rng|]. intros idx [g ->].
  assert (Hidx : forall i, In i (fst (shuffled_index N sbf g)) -> i < n_rows data).
  { intros i Hi.
    apply (Permutation_in _ (Permutation_sym (shuffled_index_perm N sbf g))) in Hi.
    apply in_seq in Hi. fold N. lia. }
  eapply yields_bind with (P:=anything); [apply yields_write_file|]. intros _ _.
  eapply yields_bind with (P:=anything).
  { destruct normalization; [now apply yields_ret|].
    eapply yields_bind; [apply yields_Normalization_init|].
    intros; now apply yields_ret. }
  intros np _.
  eapply yields_bind with (P:=anything).
  { destruct (0 <? K)%Z; [|now apply yields_ret].
    eapply yields_bind; [now apply yields_iloc|]. intros all _.
    eapply yields_bind; [apply yields_from_dfs|].
    intros; now apply yields_ret. }
  intros _ _.
  eapply yields_bind; [apply yields_with_rng|]. intros ind [g' ->].
  eapply yields_bind with (P:=anything); [|intros; now apply yields_ret].
  apply yields_for_each. intros k Hk. apply in_seq in Hk.
  assert (W : well_indicated N (Z.abs_nat K) (fst (shuffled_index N sbf g))
                (fst (make_indicator N (Z.abs_nat K) g'))).
  { constructor.
    - apply shuffled_index_perm.
    - apply length_indicator. lia.
    - intros j. apply indicator_bound. lia.
    - apply count_indicator. }
  destruct (@proper_fold_usable data N (Z.abs_nat K) _ _ k W
              ltac:(lia) ltac:(lia) eq_refl) as (_ & _ & H1 & H2).
  destruct (proper_fold k _ _) as [data_index test_index]. cbn [fst snd] in *.
  eapply yields_bind; [now apply yields_iloc|]. intros train _.
  eapply yields_bind; [now apply yields_iloc|]. intros test _.
  eapply yields_bind; [apply yields_from_dfs|].
  intros; now apply yields_ret.
Qed.

End ErrorFacts.

(** ** The bounds of K *)

(** How [into_K_folds] answers to its bounds. *)
Definition bounds_contract {G : Type} {RS : RandomSource G}
    {ND : NormalDistribution} (self : Repository) (K : Z) (sbf : bool)
    (normalization : option path) (b : bool) (w : @world G) : Prop :=
  let N := n_rows (df (_data self)) in
  let run := into_K_folds self K sbf normalization b w in
  (fst run = Raise IndexError <-> ~ (1 <= Z.abs K <= Z.of_nat N)%Z) /\
  (~ (1 <= Z.abs K <= Z.of_nat N)%Z -> run = (Raise IndexError, w)) /\
  (K = 0%Z -> run = (Raise IndexError, w)) /\
  (forall from_dfs_of_Store,
     ~ (1 <= K <= Z.of_nat N)%Z ->
     Store_into_K_folds from_dfs_of_Store self K sbf normalization w
     = (Raise IndexError, w)).

(** C6. [into_K_folds(K)] raises [IndexError] exactly when |K| does not lie
    between 1 and N; it then returns with the world as it found it, no
    folder deleted or created and no metadata written, and K = 0 always
    fails. ([Store.into_K_folds] of [data.py] tests K itself, and likewise
    leaves the world alone when it raises.) *)
Theorem bounds_checked_first :
  forall (G : Type) (RS : RandomSource G) (ND : NormalDistribution)
         (self : Repository) (K : Z) (sbf : bool) (normalization : option path)
         (b : bool) (w : @world G),
    bounds_contract self K sbf normalization b w.
Proof.
  intros G RS ND self K sbf normalization b w. unfold bounds_contract.
  set (N := n_rows (df (_data self))).
  assert (Hout : ~ (1 <= Z.abs K <= Z.of_nat N)%Z ->
                 into_K_folds self K sbf normalization b w = (Raise IndexError, w)).
  { intro Hn. unfold into_K_folds. fold N.
    replace (negb ((1 <=? Z.abs K)%Z && (Z.abs K <=? Z.of_nat N)%Z)) with true;
      [reflexivity|].
    symmetry. apply negb_true_iff, andb_false_iff.
    destruct (Z.leb_spec 1 (Z.abs K)); [|now left].
    destruct (Z.leb_spec (Z.abs K) (Z.of_nat N)); [|now right].
    exfalso. apply Hn. lia. }
  split; [|split; [exact Hout|split]].
  - split.
    + intros Hr Hin.
      pose proof (@into_K_folds_no_IndexError G RS ND self K sbf normalization b
                    Hin w) as Hy.
      rewrite Hr in Hy. now apply Hy.
    + intro Hn. now rewrite Hout.
  - intros ->. apply Hout. simpl. lia.
  - intros F Hn. unfold Store_into_K_folds. fold N.
    replace (negb ((1 <=? K)%Z && (K <=? Z.of_nat N)%Z)) with true;
      [reflexivity|].
    symmetry. apply negb_true_iff, andb_false_iff.
    destruct (Z.leb_spec 1 K); [|now left].
    destruct (Z.leb_spec K (Z.of_nat N)); [|now right].
    exfalso. apply Hn. lia.
Qed.

Definition ten_rows : DataFrame :=
  {| index := map Row (seq 0 10); columns := [Input; Input; Output];
     values := map (fun i => [INR i; INR (i * i); INR (i + 1)]) (seq 0 10) |}.

Definition ten_repo : Repository :=
  {| _folder := [Named "repo"%string]; _meta := META;
     _data := {| _csv := Repository_csv [Named "repo"%string];
                 df := ten_rows |} |}.

(** [into_K_folds(0)] and [into_K_folds(11)] on ten rows. *)
Example bounds_of_ten :
  @into_K_folds nat turning logistic ten_repo 0 false None true (settled 0)
    = (Raise IndexError, settled 0) /\
  @into_K_folds nat turning logistic ten_repo 11 false None true (settled 0)
    = (Raise IndexError, settled 0).
Proof. split; reflexivity. Qed.

(** ** The statistics that normalize a fold *)

Section FoldStatistics.
Context {G : Type} {RS : RandomSource G} {ND : NormalDistribution}.

(** [into_K_folds] without a normalization file, in a repository that has
    no [normalization.csv] yet: every fold is given a copy of the table
    computed from the whole data, and holds its two tables normalized by the
    statistics of its own training rows, which [Fold.from_dfs] computes
    before it copies the file and keeps in [_frame]. *)
Lemma folds_normalized_run (self : Repository) (K : Z) (sbf b : bool)
    (w : @world G) :
  let data := df (_data self) in
  let N := n_rows data in
  let Ka := Z.abs_nat K in
  (1 <= Z.abs K <= Z.of_nat N)%Z ->
  foldable self None w ->
  fs w (normalization_csv (_folder self)) = None ->
  exists w' : @world G,
    into_K_folds self K sbf None b w = (Ok (folded self K sbf), w') /\
    (forall k, k < Ka ->
       fold_stands self data k (fold_rows N Ka sbf (rng w) k)
                   (Csv (statistics data)) b w') /\
    ((0 < K)%Z ->
       fold_stands self data Ka (index_of N sbf (rng w), index_of N sbf (rng w))
                   (Csv (statistics data)) b w').
Proof.
  intros data N Ka HK Hf Hnone.
  destruct (@into_K_folds_run G RS ND self K sbf None b w HK Hf)
    as (w' & c & Hrun & Hproper & Himproper & _ & _ & Hc).
  rewrite (Hc eq_refl Hnone) in *.
  exists w'. split; [exact Hrun|]. split.
  - intros k Hk. rewrite fold_rows_split. now apply Hproper.
  - exact Himproper.
Qed.

End FoldStatistics.

Definition entry (d : DataFrame) (i j : nat) : R :=
  nth j (nth i (values d) []) 0%R.

Lemma sqrt_2_neq_0 : sqrt 2 <> 0%R.
Proof.
  intro E. pose proof (sqrt_sqrt 2 ltac:(lra)) as S. rewrite E in S. lra.
Qed.

Ltac entries :=
  cbv beta iota zeta delta
    [entry normalized with_values select four_rows values columns index
     map nth apply_row undo_row firstn skipn relevant_of
     Y_mean Y_std X_min X_rng statistics per_column length seq column
     map2 combine fst snd app mean_of std_of Rsum fold_right INR].

(** C4. With four rows whose outputs are 0, 1, 0, 3, [into_K_folds(2)]
    without a normalization file makes fold 0 of the training rows 1 and 3
    and the test rows 0 and 2. The [normalization.csv] of the fold is the
    table of the whole data (mean of the outputs 1), but its [data.csv] is
    normalized by the statistics of the two training rows (mean 2, std
    sqrt 2): the output 1 of row 1 is stored as -1 / sqrt 2, where the table
    of the whole data gives 0. *)
Theorem folds_keep_their_own_statistics :
  forall (ND : NormalDistribution),
    let fold_0 := fold_folder (_folder small_repo) 0 in
    let train := select four_rows [1; 3] in
    exists w' : @world unit,
      @into_K_folds unit still ND small_repo 2 false None true (settled tt)
        = (Ok (folded small_repo 2 false), w') /\
      @fold_rows unit still 4 2 false tt 0 = ([1; 3], [0; 2]) /\
      fs w' (normalization_csv fold_0)
        = Some (File (Csv (statistics four_rows))) /\
      fs w' (Repository_csv fold_0)
        = Some (File (Csv (normalized true train train 1))) /\
      entry (statistics four_rows) 0 1 = 1%R /\
      entry (statistics train) 0 1 = 2%R /\
      entry (statistics train) 1 1 = sqrt 2 /\
      entry (normalized true train train 1) 0 1 = (- / sqrt 2)%R /\
      entry (normalized true four_rows train 1) 0 1 = 0%R /\
      (- / sqrt 2 <> 0)%R.
Proof.
  intros ND fold_0 train.
  destruct (@folds_normalized_run unit still ND small_repo 2 false true
              (settled tt))
    as (w' & Hrun & Hproper & _);
    [cbn; lia | apply settled_foldable | reflexivity |].
  exists w'. split; [exact Hrun|]. split; [reflexivity|].
  specialize (Hproper 0 ltac:(cbn; lia)).
  assert (E : @fold_rows unit still (n_rows (df (_data small_repo)))
                (Z.abs_nat 2) false (rng (settled tt)) 0 = ([1; 3], [0; 2]))
    by reflexivity.
  rewrite E in Hproper.
  destruct Hproper as (_ & Hdata & _ & Hnorm).
  split; [exact Hnorm|]. split; [exact Hdata|].
  assert (S2 : ((Rsqr (1 - (1 + (3 + 0)) / (1 + 1))
                 + (Rsqr (3 - (1 + (3 + 0)) / (1 + 1)) + 0))
                / (1 + 1 - 1) = 2)%R)
    by (unfold Rsqr; field).
  pose proof sqrt_2_neq_0 as Hs.
  split; [|split; [|split; [|split; [|split]]]].
  - unfold train. entries. field.
  - unfold train. entries. field.
  - unfold train. entries. now rewrite S2.
  - unfold train. entries. rewrite S2. field. exact Hs.
  - unfold train. entries. unfold Rdiv.
    replace (1 - (0 + (1 + (0 + (3 + 0)))) * / (1 + 1 + 1 + 1))%R with 0%R
      by field.
    apply Rmult_0_l.
  - intro E0. assert (Hi : (/ sqrt 2 = 0)%R) by lra.
    exact (Rinv_neq_0_compat _ Hs Hi).
Qed.

(** * Further properties of the code *)

(** ** What [apply_to] does to the data it was computed from *)

Section Standardized.
Context {ND : NormalDistribution}.

Local Open Scope R_scope.

Lemma Rsum_scaled (f : R -> R) (k : R) (c : list R) :
  Rsum (map (fun y => f y * k) c) = Rsum (map f c) * k.
Proof.
  induction c as [|y c IH]; simpl; [ring|]. rewrite IH. ring.
Qed.

Lemma Rsum_shifted (m : R) (c : list R) :
  Rsum (map (fun y => y - m) c) = Rsum c - INR (length c) * m.
Proof.
  induction c as [|y c IH]; [simpl; ring|].
  change (length (y :: c)) with (S (length c)). rewrite S_INR.
  simpl. rewrite IH. ring.
Qed.

Lemma std_of_positive (c : list R) :
  0 < std_of c ->
  let v := Rsum (map (fun x => Rsqr (x - mean_of c)) c) / (INR (length c) - 1) in
  0 < v /\ std_of c * std_of c = v /\ c <> [].
Proof.
  intros Hs v. unfold std_of in Hs. fold v in Hs.
  assert (Hv : 0 < v).
  { destruct (Rlt_le_dec 0 v) as [|Hle]; [assumption|].
    rewrite (sqrt_neg_0 _ Hle) in Hs. lra. }
  split; [exact Hv|]. split.
  - unfold std_of. fold v. apply sqrt_sqrt. lra.
  - intros ->. unfold v in Hv. simpl in Hv. unfold Rdiv in Hv.
    rewrite Rmult_0_l in Hv. lra.
Qed.

(** A column with standard deviation [s > 0] and mean [m], shifted by [m]
    and divided by [s], has mean 0 and standard deviation 1. *)
Lemma standardized_column (c : list R) :
  0 < std_of c ->
  let c' := map (fun y => (y - mean_of c) / std_of c) c in
  mean_of c' = 0 /\ std_of c' = 1.
Proof.
  intros Hs c'.
  destruct (@std_of_positive c Hs) as (Hv & Hsq & Hne).
  set (m := mean_of c) in *. set (s := std_of c) in *.
  assert (Hn : INR (length c) <> 0).
  { apply not_0_INR. destruct c; [congruence | discriminate]. }
  assert (Hmean : mean_of c' = 0).
  { unfold mean_of at 1. unfold c'. rewrite length_map.
    unfold Rdiv at 2.
    rewrite (Rsum_scaled (fun y => y - m) (/ s) c), Rsum_shifted.
    unfold m, mean_of. field. split; first [exact Hn | lra]. }
  split; [exact Hmean|].
  unfold std_of. rewrite Hmean. unfold c' at 2. rewrite length_map.
  replace (Rsum (map (fun x => Rsqr (x - 0)) c'))
    with (Rsum (map (fun y => Rsqr (y - m)) c) * (/ s * / s)).
  - replace (Rsum (map (fun y => Rsqr (y - m)) c) * (/ s * / s)
             / (INR (length c) - 1))
      with (Rsum (map (fun y => Rsqr (y - m)) c) / (INR (length c) - 1)
            * (/ s * / s))
      by (unfold Rdiv; ring).
    rewrite <- Hsq.
    replace (s * s * (/ s * / s)) with 1 by (field; lra).
    apply sqrt_1.
  - unfold c'. rewrite map_map.
    rewrite <- (Rsum_scaled (fun y => Rsqr (y - m)) (/ s * / s) c).
    f_equal. apply map_ext. intro y. unfold Rsqr, Rdiv. ring.
Qed.

(** An output entry of a row normalized by [apply_to]. *)
Lemma apply_row_output (train : DataFrame) (fold_M j : nat) (row : list R) :
  (fold_M <= j < length (columns train))%nat ->
  length row = length (columns train) ->
  nth j (apply_row (relevant_of (statistics train) fold_M) fold_M row) 0
  = (nth j row 0 - mean_of (column j (values train)))
    / std_of (column j (values train)).
Proof.
  intros Hj Hlen. set (W := length (columns train)) in *.
  set (s := relevant_of (statistics train) fold_M).
  assert (Lmin : length (X_min s) = fold_M).
  { unfold s, relevant_of, statistics. simpl.
    rewrite length_firstn, length_map2, length_map, !length_per_column.
    fold W. lia. }
  assert (Lrng : length (X_rng s) = fold_M).
  { unfold s, relevant_of, statistics. simpl.
    rewrite length_firstn, !length_map, length_per_column. fold W. lia. }
  assert (Lmean : length (Y_mean s) = (W - fold_M)%nat).
  { unfold s, relevant_of, statistics. simpl.
    rewrite length_skipn, length_per_column. reflexivity. }
  assert (Lstd : length (Y_std s) = (W - fold_M)%nat).
  { unfold s, relevant_of, statistics. simpl.
    rewrite length_skipn, length_per_column. reflexivity. }
  unfold apply_row.
  rewrite app_nth2;
    rewrite !length_map, !length_map2, length_firstn, Lmin, Lrng, Hlen;
    [|lia].
  replace (Nat.min (Nat.min (Nat.min fold_M W) fold_M) fold_M) with fold_M
    by lia.
  rewrite !nth_map2;
    rewrite ?length_map2, ?length_skipn, ?Lmean, ?Lstd, ?Hlen; try lia.
  rewrite nth_skipn. replace (fold_M + (j - fold_M))%nat with j by lia.
  unfold s, relevant_of, statistics. cbn [Y_mean Y_std values nth].
  rewrite !nth_skipn. replace (fold_M + (j - fold_M))%nat with j by lia.
  rewrite !nth_per_column by (fold W; lia).
  reflexivity.
Qed.

Lemma column_map_rows (f : list R -> list R) (g : R -> R) (j : nat)
    (rows : list (list R)) :
  (forall row, In row rows -> nth j (f row) 0 = g (nth j row 0)) ->
  column j (map f rows) = map g (column j rows).
Proof.
  intro Hf. unfold column. rewrite !map_map.
  apply map_ext_in. exact Hf.
Qed.

End Standardized.

(** X1. [Normalization.apply_to] applied to the data the statistics were
    computed from: every output column with a positive standard deviation
    comes out with mean 0 and (sample) standard deviation 1. *)
Theorem training_outputs_standardized :
  forall (ND : NormalDistribution) (train : DataFrame) (fold_M j : nat),
    Forall (fun row => length row = length (columns train)) (values train) ->
    fold_M <= j < length (columns train) ->
    (0 < std_of (column j (values train)))%R ->
    let c := column j (values (normalized true train train fold_M)) in
    mean_of c = 0%R /\ std_of c = 1%R.
Proof.
  intros ND train fold_M j Hrows Hj Hs c.
  unfold c, normalized, with_values. cbn [values].
  rewrite (@column_map_rows _
             (fun y => (y - mean_of (column j (values train)))
                       / std_of (column j (values train)))%R).
  - now apply standardized_column.
  - intros row Hrow. apply apply_row_output; [exact Hj|].
    rewrite Forall_forall in Hrows. now apply Hrows.
Qed.

Lemma std_of_0_2_4 : std_of [0; 2; 4]%R = 2%R.
Proof.
  unfold std_of, mean_of.
  replace (Rsum _ / _)%R with (Rsqr 2) by (simpl; unfold Rsqr; field).
  apply sqrt_Rsqr. lra.
Qed.

Lemma training_outputs_standardized_witness :
  let train := {| index := [Row 0; Row 1; Row 2]; columns := [Input; Output];
                  values := [[1; 0]; [2; 2]; [3; 4]]%R |} in
  let c := column 1 (values (@normalized logistic true train train 1)) in
  mean_of c = 0%R /\ std_of c = 1%R.
Proof.
  intro train.
  apply (@training_outputs_standardized logistic train 1 1).
  - repeat constructor.
  - simpl. lia.
  - unfold train, column. simpl. rewrite std_of_0_2_4. lra.
Defined.

(** ** The statistics do not depend on the order of the rows *)

Lemma Rsum_perm (c c' : list R) : Permutation c c' -> Rsum c = Rsum c'.
Proof.
  induction 1 as [|x l l' _ IH|x y l|l l' l'' _ IH1 _ IH2]; simpl.
  - reflexivity.
  - now rewrite IH.
  - ring.
  - now rewrite IH1.
Qed.

Lemma mean_of_perm (c c' : list R) : Permutation c c' -> mean_of c = mean_of c'.
Proof.
  intro P. unfold mean_of.
  now rewrite (Rsum_perm P), (Permutation_length P).
Qed.

Lemma std_of_perm (c c' : list R) : Permutation c c' -> std_of c = std_of c'.
Proof.
  intro P. unfold std_of.
  rewrite (mean_of_perm P), (Permutation_length P).
  now rewrite (Rsum_perm (Permutation_map _ P)).
Qed.

Lemma statistics_of_rearranged (data : DataFrame) (idx : list nat) :
  Permutation (seq 0 (n_rows data)) idx ->
  length (values data) = n_rows data ->
  statistics (select data idx) = statistics data.
Proof.
  intros P L.
  destruct (select_all_rows data P L) as [Pv _].
  assert (E : forall f, (forall c c', Permutation c c' -> f c = f c') ->
                        per_column f (select data idx) = per_column f data).
  { intros f Hf. unfold per_column. cbn [select columns].
    apply map_ext. intro j. apply Hf. unfold column.
    apply Permutation_map, Permutation_sym, Pv. }
  unfold statistics. cbn [select columns].
  now rewrite (E mean_of mean_of_perm), (E std_of std_of_perm).
Qed.

(** X2. [data.iloc[index]] with [index] a rearrangement of all row positions,
    as [into_K_folds] makes it for the improper fold, has the statistics of
    [data] itself: mean and standard deviation are sums over the rows. *)
Theorem statistics_ignore_row_order :
  forall (data : DataFrame) (idx : list nat),
    Permutation (seq 0 (n_rows data)) idx ->
    length (values data) = n_rows data ->
    statistics (select data idx) = statistics data.
Proof. exact statistics_of_rearranged. Qed.

Lemma statistics_ignore_row_order_witness :
  statistics (select four_rows (rotate_left 2 (seq 0 4))) = statistics four_rows.
Proof.
  apply (@statistics_ignore_row_order four_rows (rotate_left 2 (seq 0 4))).
  - apply rotate_left_perm.
  - reflexivity.
Defined.

(** ** The round trip without a condition on the inputs *)

Section Clamp.
Context {G : Type} {ND : NormalDistribution}.

Local Open Scope R_scope.

(** The ends of the band outside which [apply_to] clips input [j]. *)
Definition band_low (training : DataFrame) (j : nat) : R :=
  let c := column j (values training) in
  mean_of c - std_of c * sqrt 3 + UNIFORM_MARGIN * (2 * (std_of c * sqrt 3)).

Definition band_high (training : DataFrame) (j : nat) : R :=
  let c := column j (values training) in
  mean_of c - std_of c * sqrt 3
  + (1 - UNIFORM_MARGIN) * (2 * (std_of c * sqrt 3)).

(** A row with its inputs brought into the band. *)
Definition clamped (training : DataFrame) (fold_M : nat) (row : list R)
  : list R :=
  map (fun j => if (j <? fold_M)%nat
                then Rmin (Rmax (nth j row 0) (band_low training j))
                          (band_high training j)
                else nth j row 0)
      (seq 0 (length row)).

Lemma clip_in_band u :
  UNIFORM_MARGIN <= clip UNIFORM_MARGIN (1 - UNIFORM_MARGIN) u
    <= 1 - UNIFORM_MARGIN.
Proof.
  pose proof margin_bounds as Hm. unfold clip, Rmin, Rmax.
  repeat destruct Rle_dec; lra.
Qed.

(** One input value, wherever it lies. *)
Lemma input_value_clamped x m r :
  0 < r ->
  norm_cdf (norm_ppf (clip UNIFORM_MARGIN (1 - UNIFORM_MARGIN) ((x - m) / r)))
    * r + m
  = Rmin (Rmax x (m + UNIFORM_MARGIN * r)) (m + (1 - UNIFORM_MARGIN) * r).
Proof.
  intro Hr. pose proof margin_bounds as Hm.
  pose proof (clip_in_band ((x - m) / r)) as Hc.
  rewrite norm_cdf_ppf by lra.
  set (u := (x - m) / r) in *.
  assert (Hu : x = u * r + m) by (unfold u; field; lra).
  rewrite Hu. clear Hc. unfold clip, Rmin, Rmax.
  repeat destruct Rle_dec; try nra.
Qed.

Lemma inputs_clamped X mn rg j :
  length mn = length X -> length rg = length X -> (j < length X)%nat ->
  0 < nth j rg 0 ->
  nth j
    (map2 Rplus
       (map2 Rmult
          (map norm_cdf
             (map norm_ppf
                (map (clip UNIFORM_MARGIN (1 - UNIFORM_MARGIN))
                     (map2 Rdiv (map2 Rminus X mn) rg)))) rg) mn) 0
  = Rmin (Rmax (nth j X 0) (nth j mn 0 + UNIFORM_MARGIN * nth j rg 0))
         (nth j mn 0 + (1 - UNIFORM_MARGIN) * nth j rg 0).
Proof.
  intros Lm Lr Hj Hr.
  rewrite !nth_map2; rewrite ?length_map2, ?length_map, ?length_map2; try lia.
  rewrite !nth_map_R;
    rewrite ?length_map, ?length_map2, ?length_map2; try lia.
  rewrite !nth_map2; rewrite ?length_map2; try lia.
  now apply input_value_clamped.
Qed.

Lemma length_clamped training fold_M row :
  length (clamped training fold_M row) = length row.
Proof. unfold clamped. now rewrite length_map, length_seq. Qed.

Lemma nth_clamped training fold_M row j :
  (j < length row)%nat ->
  nth j (clamped training fold_M row) 0
  = if (j <? fold_M)%nat
    then Rmin (Rmax (nth j row 0) (band_low training j)) (band_high training j)
    else nth j row 0.
Proof. intro Hj. unfold clamped. now rewrite nth_map_seq. Qed.

(** [undo_from] after [apply_to], on one row of the right width. *)
Lemma row_round_trip_clamped training fold_M row :
  (fold_M <= length (columns training))%nat ->
  (forall j, (j < length (columns training))%nat ->
     0 < std_of (column j (values training))) ->
  length row = length (columns training) ->
  let s := relevant_of (statistics training) fold_M in
  undo_row s fold_M (apply_row s fold_M row) = clamped training fold_M row.
Proof.
  intros HM Hstd Hlen s.
  set (W := length (columns training)) in *.
  assert (Hs3 : 0 < sqrt 3) by (apply sqrt_lt_R0; lra).
  assert (LX : length (firstn fold_M row) = fold_M)
    by (rewrite length_firstn; lia).
  assert (LY : length (skipn fold_M row) = (W - fold_M)%nat)
    by (rewrite length_skipn; lia).
  assert (Lmin : length (X_min s) = fold_M).
  { unfold s, relevant_of, statistics. simpl.
    rewrite length_firstn, length_map2, length_map, !length_per_column.
    fold W. lia. }
  assert (Lrng : length (X_rng s) = fold_M).
  { unfold s, relevant_of, statistics. simpl.
    rewrite length_firstn, !length_map, length_per_column. fold W. lia. }
  assert (Lmean : length (Y_mean s) = (W - fold_M)%nat).
  { unfold s, relevant_of, statistics. simpl.
    rewrite length_skipn, length_per_column. reflexivity. }
  assert (Lstd : length (Y_std s) = (W - fold_M)%nat).
  { unfold s, relevant_of, statistics. simpl.
    rewrite length_skipn, length_per_column. reflexivity. }
  unfold undo_row, apply_row.
  rewrite firstn_exact, skipn_exact;
    try (rewrite !length_map, !length_map2; lia).
  rewrite outputs_round_trip; try lia.
  2:{ rewrite LY. intros j Hj.
      assert (HjW : (fold_M + j < W)%nat) by lia.
      unfold s, relevant_of, statistics. simpl.
      rewrite nth_skipn, nth_per_column by exact HjW.
      now apply Hstd. }
  apply (nth_ext _ _ 0 0).
  - rewrite length_clamped, length_app, !length_map2, !length_map,
      !length_map2, LX, LY, Lmin, Lrng. lia.
  - intros j Hj.
    rewrite length_app, !length_map2, !length_map, !length_map2,
      LX, LY, Lmin, Lrng in Hj.
    rewrite nth_clamped by lia.
    destruct (Nat.ltb_spec j fold_M) as [Hlt|Hge].
    + rewrite app_nth1
        by (rewrite !length_map2, !length_map, !length_map2, LX, Lmin, Lrng;
            lia).
      assert (HjW : (j < W)%nat) by lia.
      destruct (@statistics_entries training j HjW)
        as (_ & _ & Erg & Emn & _).
      rewrite inputs_clamped; rewrite ?LX; try lia.
      * rewrite nth_firstn.
        destruct (Nat.ltb_spec j fold_M) as [_|]; [|lia].
        unfold s, relevant_of. cbn [X_min X_rng].
        rewrite !nth_firstn.
        destruct (Nat.ltb_spec j fold_M) as [_|]; [|lia].
        rewrite Erg, Emn. reflexivity.
      * unfold s, relevant_of. cbn [X_rng]. rewrite nth_firstn.
        destruct (Nat.ltb_spec j fold_M) as [_|]; [|lia].
        rewrite Erg. specialize (Hstd j HjW).
        apply Rmult_lt_0_compat; [lra|]. now apply Rmult_lt_0_compat.
    + rewrite app_nth2
        by (rewrite !length_map2, !length_map, !length_map2, LX, Lmin, Lrng;
            lia).
      rewrite !length_map2, !length_map, !length_map2, LX, Lmin, Lrng.
      replace (Nat.min (Nat.min (Nat.min (Nat.min fold_M fold_M) fold_M)
                          fold_M) fold_M) with fold_M by lia.
      rewrite nth_skipn. f_equal. lia.
Qed.

(** Bringing a row into the band a second time changes nothing. *)
Lemma clamped_twice training fold_M row :
  (forall j, (j < fold_M)%nat -> 0 < std_of (column j (values training))) ->
  clamped training fold_M (clamped training fold_M row)
  = clamped training fold_M row.
Proof.
  intro Hstd. apply (nth_ext _ _ 0 0).
  - now rewrite !length_clamped.
  - intros j Hj. rewrite !length_clamped in Hj.
    rewrite nth_clamped by now rewrite length_clamped.
    destruct (Nat.ltb_spec j fold_M) as [Hlt|Hge]; [|reflexivity].
    rewrite nth_clamped by assumption.
    destruct (Nat.ltb_spec j fold_M) as [_|]; [|lia].
    assert (Hlh : band_low training j <= band_high training j).
    { unfold band_low, band_high. pose proof margin_bounds as Hm.
      assert (Hs3 : 0 < sqrt 3) by (apply sqrt_lt_R0; lra).
      specialize (Hstd j Hlt).
      assert (0 < std_of (column j (values training)) * sqrt 3)
        by now apply Rmult_lt_0_compat.
      nra. }
    unfold Rmin, Rmax. repeat destruct Rle_dec; lra.
Qed.

End Clamp.

(** X3. [undo_from] of [apply_to] on any frame of the width of the training
    data, whatever its input values: the outputs come back as they were, and
    every input comes back brought into the band [min + 1e-12 * rng, min + (1
    - 1e-12) * rng]; a second round trip returns that same frame. *)
Theorem round_trip_clamps_inputs :
  forall (G : Type) (ND : NormalDistribution) (training d : DataFrame)
         (fold_M : nat) (n : Normalization) (csv : path) (w : @world G),
    _frame n = Some {| _csv := csv; df := statistics training |} ->
    _is_applicable n = true ->
    fold_M <= length (columns training) ->
    (forall j, j < length (columns training) ->
       (0 < std_of (column j (values training)))%R) ->
    (forall row, In row (values d) ->
       length row = length (columns training)) ->
    let back := with_values d (map (clamped training fold_M) (values d)) in
    exists d' back',
      apply_to n fold_M d w = (Ok (d', n), w) /\
      undo_from n fold_M d' w = (Ok (back, n), w) /\
      apply_to n fold_M back w = (Ok (back', n), w) /\
      undo_from n fold_M back' w = (Ok (back, n), w).
Proof.
  intros G ND training d fold_M n csv w Hf Ha HM Hstd Hrows back.
  assert (Hrun : forall e : DataFrame,
             (forall row, In row (values e) ->
                length row = length (columns training)) ->
             exists e',
               apply_to n fold_M e w = (Ok (e', n), w) /\
               undo_from n fold_M e' w
               = (Ok (with_values e (map (clamped training fold_M) (values e)),
                      n), w)).
  { intros e He. unfold apply_to, undo_from. rewrite Ha. unfold bind.
    rewrite (relevant_stats_cached n fold_M w Hf eq_refl).
    eexists. split; [reflexivity|].
    unfold ret, with_values. cbn [values index columns df]. rewrite map_map.
    do 4 f_equal. apply map_ext_in. intros row Hrow.
    now apply row_round_trip_clamped; auto. }
  destruct (Hrun d Hrows) as (d' & Hap & Hun).
  assert (Hback : forall row, In row (values back) ->
                    length row = length (columns training)).
  { intros row Hrow. unfold back, with_values in Hrow. cbn [values] in Hrow.
    apply in_map_iff in Hrow. destruct Hrow as (r & <- & Hr).
    rewrite length_clamped. now apply Hrows. }
  destruct (Hrun back Hback) as (back' & Hap' & Hun').
  exists d', back'. split; [exact Hap|]. split; [exact Hun|].
  split; [exact Hap'|]. rewrite Hun'. do 3 f_equal.
  unfold back, with_values. cbn [values index columns]. f_equal.
  rewrite map_map. apply map_ext. intro row.
  apply clamped_twice. intros j Hj. apply Hstd. lia.
Qed.

Lemma round_trip_clamps_inputs_witness :
  let training := {| index := [Row 0; Row 1]; columns := [Input; Output];
                     values := [[0; 1]; [2; 5]]%R |} in
  let d := {| index := [Row 7]; columns := [Input; Output];
              values := [[100; 4]]%R |} in
  let n := {| _fold := [fold_ 0]; _is_applicable := true;
              _frame := Some {| _csv := [fold_ 0; Named "normalization.csv"%string];
                                df := statistics training |} |} in
  let w := {| fs := fun _ => None; rng := tt |} in
  let back := with_values d (map (clamped training 1) (values d)) in
  exists d' back',
    apply_to (H0:=logistic) n 1 d w = (Ok (d', n), w) /\
    undo_from (H0:=logistic) n 1 d' w = (Ok (back, n), w) /\
    apply_to (H0:=logistic) n 1 back w = (Ok (back', n), w) /\
    undo_from (H0:=logistic) n 1 back' w = (Ok (back, n), w).
Proof.
  intros training d n w.
  apply (@round_trip_clamps_inputs unit logistic training d 1 n
           [fold_ 0; Named "normalization.csv"%string] w).
  - reflexivity.
  - reflexivity.
  - simpl. lia.
  - intros j Hj. simpl in Hj.
    destruct j as [|[|j]]; [| |lia]; unfold training, column; simpl.
    + rewrite std_of_0_2. apply sqrt_lt_R0. lra.
    + rewrite std_of_1_5. apply sqrt_lt_R0. lra.
  - intros row [<-|[]]. reflexivity.
Defined.

(** ** [Normalization.unscale_Y] *)

Section UnscaleY.
Context {G : Type} {ND : NormalDistribution}.

Local Open Scope R_scope.

(** [df.iloc[:, fold_M:]]: the output columns of a frame. *)
Definition Y_of (fold_M : nat) (d : DataFrame) : DataFrame :=
  {| index := index d; columns := skipn fold_M (columns d);
     values := map (skipn fold_M) (values d) |}.

(** [Normalization.unscale_Y(dfY)]: the statistics are read before
    [_is_applicable] is looked at. The frame [dfY] is taken to carry the
    output columns of the statistics, so that the label alignment of [mul]
    pairs the columns by position. *)
Definition unscale_Y (self : Normalization) (fold_M : nat) (dfY : DataFrame)
  : @M G (DataFrame * Normalization) :=
  bind (_relevant_stats self fold_M) (fun p =>
    let (s, self') := p in
    if _is_applicable self
    then ret (with_values dfY
                (map (fun row => map2 Rmult row (Y_std s)) (values dfY)),
              self')
    else ret (dfY, self')).

Lemma outputs_unscaled Y me sd :
  length me = length Y -> length sd = length Y ->
  (forall j, (j < length Y)%nat -> nth j sd 0 <> 0) ->
  map2 Rmult (map2 Rdiv (map2 Rminus Y me) sd) sd = map2 Rminus Y me.
Proof.
  unfold map2.
  revert me sd; induction Y as [|y Y IH]; intros [|m me] [|s sd] Hm Hs Hb;
    simpl in *; try discriminate; [reflexivity|].
  f_equal.
  - pose proof (Hb 0%nat ltac:(lia)). simpl in *. field. assumption.
  - apply IH; try lia. intros j Hj. apply (Hb (S j)). lia.
Qed.

End UnscaleY.

(** X4. [unscale_Y] of the outputs of a frame normalized by [apply_to] gives
    the raw outputs less the training mean: the division by std is undone, the
    mean is not added back. *)
Theorem unscale_Y_undoes_scaling :
  forall (G : Type) (ND : NormalDistribution) (training d : DataFrame)
         (fold_M : nat) (n : Normalization) (csv : path) (w : @world G),
    _frame n = Some {| _csv := csv; df := statistics training |} ->
    _is_applicable n = true ->
    fold_M <= length (columns training) ->
    (forall j, fold_M <= j < length (columns training) ->
       std_of (column j (values training)) <> 0%R) ->
    (forall row, In row (values d) ->
       length row = length (columns training)) ->
    let means := skipn fold_M (per_column mean_of training) in
    exists d',
      apply_to n fold_M d w = (Ok (d', n), w) /\
      unscale_Y n fold_M (Y_of fold_M d') w
      = (Ok (with_values (Y_of fold_M d)
               (map (fun row => map2 Rminus (skipn fold_M row) means)
                    (values d)), n), w).
Proof.
  intros G ND training d fold_M n csv w Hf Ha HM Hstd Hrows means.
  unfold apply_to, unscale_Y. rewrite Ha. unfold bind.
  rewrite (relevant_stats_cached n fold_M w Hf eq_refl).
  eexists. split; [reflexivity|].
  unfold ret, with_values, Y_of. cbn [values index columns df].
  rewrite !map_map. do 4 f_equal.
  apply map_ext_in. intros row Hrow. specialize (Hrows row Hrow).
  set (W := length (columns training)) in *.
  set (s := relevant_of (statistics training) fold_M).
  assert (LY : length (skipn fold_M row) = (W - fold_M)%nat)
    by (rewrite length_skipn; lia).
  assert (Lmin : length (X_min s) = fold_M).
  { unfold s, relevant_of, statistics. simpl.
    rewrite length_firstn, length_map2, length_map, !length_per_column.
    fold W. lia. }
  assert (Lrng : length (X_rng s) = fold_M).
  { unfold s, relevant_of, statistics. simpl.
    rewrite length_firstn, !length_map, length_per_column. fold W. lia. }
  assert (Lmean : length (Y_mean s) = (W - fold_M)%nat).
  { unfold s, relevant_of, statistics. simpl.
    rewrite length_skipn, length_per_column. reflexivity. }
  assert (Lstd : length (Y_std s) = (W - fold_M)%nat).
  { unfold s, relevant_of, statistics. simpl.
    rewrite length_skipn, length_per_column. reflexivity. }
  unfold apply_row.
  rewrite skipn_exact
    by (rewrite !length_map, !length_map2, length_firstn; lia).
  rewrite outputs_unscaled; try lia.
  - reflexivity.
  - rewrite LY. intros j Hj.
    unfold s, relevant_of, statistics. simpl.
    rewrite nth_skipn, nth_per_column by (fold W; lia).
    apply Hstd. fold W. lia.
Qed.

Lemma unscale_Y_undoes_scaling_witness :
  let training := {| index := [Row 0; Row 1]; columns := [Input; Output];
                     values := [[0; 1]; [2; 5]]%R |} in
  let d := {| index := [Row 7]; columns := [Input; Output];
              values := [[1; 4]]%R |} in
  let n := {| _fold := [fold_ 0]; _is_applicable := true;
              _frame := Some {| _csv := [fold_ 0; Named "normalization.csv"%string];
                                df := statistics training |} |} in
  let w := {| fs := fun _ => None; rng := tt |} in
  let means := skipn 1 (per_column mean_of training) in
  exists d',
    apply_to (H0:=logistic) n 1 d w = (Ok (d', n), w) /\
    unscale_Y n 1 (Y_of 1 d') w
    = (Ok (with_values (Y_of 1 d)
             (map (fun row => map2 Rminus (skipn 1 row) means) (values d)),
           n), w).
Proof.
  intros training d n w.
  apply (@unscale_Y_undoes_scaling unit logistic training d 1 n
           [fold_ 0; Named "normalization.csv"%string] w).
  - reflexivity.
  - reflexivity.
  - simpl. lia.
  - intros j Hj. simpl in Hj. assert (j = 1) as -> by lia.
    unfold training, column. simpl. rewrite std_of_1_5.
    assert (0 < sqrt 8)%R by (apply sqrt_lt_R0; lra). lra.
  - intros row [<-|[]]. reflexivity.
Defined.

(** X5. A normalization that is not applicable, of a fold without a
    [normalization.csv]: [apply_to] and [undo_from] hand the frame back and
    touch nothing, but [unscale_Y] reads the statistics first and fails on the
    missing file. *)
Theorem unscale_Y_reads_statistics_first :
  forall (G : Type) (ND : NormalDistribution) (n : Normalization)
         (fold_M : nat) (d : DataFrame) (w : @world G),
    _is_applicable n = false ->
    _frame n = None ->
    fs w (Normalization_csv n) = None ->
    apply_to n fold_M d w = (Ok (d, n), w) /\
    undo_from n fold_M d w = (Ok (d, n), w) /\
    unscale_Y n fold_M d w = (Raise FileNotFoundError, w).
Proof.
  intros G ND n fold_M d w Ha Hf Hn.
  unfold apply_to, undo_from, unscale_Y. rewrite Ha.
  split; [reflexivity|]. split; [reflexivity|].
  unfold _relevant_stats, Normalization_DataTable, bind. rewrite Hf.
  unfold DataTable_init, Normalization_csv in *.
  rewrite is_empty_snoc. cbn [empty no_frame index columns length Nat.eqb orb].
  unfold bind, read_csv. now rewrite Hn.
Qed.

Lemma unscale_Y_reads_statistics_first_witness :
  let n := {| _fold := [fold_ 0]; _is_applicable := false; _frame := None |} in
  let w := {| fs := fun _ => None; rng := tt |} in
  apply_to (H0:=logistic) n 1 two_rows w = (Ok (two_rows, n), w) /\
  undo_from (H0:=logistic) n 1 two_rows w = (Ok (two_rows, n), w) /\
  unscale_Y n 1 two_rows w = (Raise FileNotFoundError, w).
Proof.
  intros n w.
  apply (@unscale_Y_reads_statistics_first unit logistic n 1 two_rows w);
    reflexivity.
Defined.

(** ** Rotations that change nothing, and rotations undone *)

Section RotationAlgebra.

Local Open Scope R_scope.













End RotationAlgebra.








(** ** What a call touches *)

Section Frame.
Context {G : Type} {RS : RandomSource G} {ND : NormalDistribution}.

(** [leaves c P Q]: whatever the world and however [c] ends, it leaves
    the file system as it was at every path in [P]; a value it returns
    satisfies [Q]. *)
Definition leaves {A : Type} (c : @M G A) (P : path -> Prop) (Q : A -> Prop)
  : Prop :=
  forall w, (forall p, P p -> fs (snd (c w)) p = fs w p) /\
            match fst (c w) with Ok a => Q a | Raise _ => True end.

Lemma leaves_ret {A : Type} (a : A) P (Q : A -> Prop) :
  Q a -> leaves (ret a) P Q.
Proof. intros Ha w. split; [reflexivity | exact Ha]. Qed.

Lemma leaves_raise {A : Type} (e : exn) P (Q : A -> Prop) :
  leaves (raise e) P Q.
Proof. intro w. split; [reflexivity | exact I]. Qed.

Lemma leaves_lift {A : Type} (r : result A) P : leaves (lift r) P anything.
Proof. intro w. split; [reflexivity|]. unfold lift. cbn. now destruct r. Qed.

Lemma leaves_bind {A B : Type} (c : @M G A) (f : A -> @M G B) P Q Q' :
  leaves c P Q -> (forall a, Q a -> leaves (f a) P Q') ->
  leaves (bind c f) P Q'.
Proof.
  intros Hc Hf w. destruct (Hc w) as [Hfs Hq]. unfold bind.
  destruct (c w) as [[a|e] w1]; cbn [fst snd] in *.
  - destruct (Hf a Hq w1) as [Hfs' Hq']. split; [|exact Hq'].
    intros p Hp. rewrite Hfs' by exact Hp. now apply Hfs.
  - split; [exact Hfs | exact I].
Qed.

Lemma leaves_any {A : Type} (c : @M G A) P Q :
  leaves c P Q -> leaves c P anything.
Proof.
  intros Hc w. destruct (Hc w) as [Hfs _]. split; [exact Hfs|].
  now destruct (fst (c w)).
Qed.

Lemma leaves_for_each {A : Type} (l : list A) (body : A -> @M G unit) P :
  (forall a, In a l -> leaves (body a) P anything) ->
  leaves (for_each l body) P anything.
Proof.
  induction l as [|a l IH]; intro Hb; simpl.
  - now apply leaves_ret.
  - apply leaves_bind with (Q:=anything); [apply Hb; now left|].
    intros _ _. apply IH. intros; apply Hb; now right.
Qed.

Lemma leaves_with_rng {A : Type} (f : G -> A * G) P :
  leaves (with_rng f) P anything.
Proof.
  intro w. unfold with_rng. destruct (f (rng w)). split; [reflexivity|exact I].
Qed.

Lemma leaves_exists q P : leaves (exists_ q) P anything.
Proof. intro w. split; [reflexivity | exact I]. Qed.

Lemma leaves_rmtree folder b (P : path -> Prop) :
  (forall p, P p -> is_under folder p = false) ->
  leaves (rmtree folder b) P anything.
Proof.
  intros HP w. unfold rmtree.
  destruct (fs w folder) as [[|c]|]; try destruct b; cbn [fst snd fs];
    (split; [|exact I]); intros p Hp; try reflexivity.
  all: now rewrite (HP p Hp).
Qed.

Lemma leaves_mkdir folder b (P : path -> Prop) :
  (forall p, P p -> is_under p folder = false) ->
  leaves (mkdir folder b) P anything.
Proof.
  intros HP w. unfold mkdir.
  destruct (fs w folder) as [[|c]|]; try destruct b; cbn [fst snd fs];
    (split; [|exact I]); intros p Hp; try reflexivity.
  all: now rewrite (HP p Hp).
Qed.

Lemma leaves_write_file q c (P : path -> Prop) :
  (forall p, P p -> p <> q) -> leaves (write_file q c) P anything.
Proof.
  intros HP w. unfold write_file. cbn [fst snd fs]. split; [|exact I].
  intros p Hp. now rewrite (path_neqb (HP p Hp)).
Qed.

Lemma leaves_read_csv q P : leaves (read_csv q) P anything.
Proof.
  intro w. unfold read_csv.
  destruct (fs w q) as [[|[d|m]]|]; split; try reflexivity; exact I.
Qed.

Lemma leaves_copy src dst (P : path -> Prop) :
  (forall p, P p -> p <> dst) -> leaves (copy src dst) P anything.
Proof.
  intros HP w. unfold copy.
  destruct (fs w src) as [[|c]|]; try (split; [reflexivity | exact I]).
  now apply leaves_write_file.
Qed.

Lemma leaves_DataTable_write t (P : path -> Prop) :
  (forall p, P p -> p <> _csv t) -> leaves (DataTable_write t) P anything.
Proof.
  intro HP. unfold DataTable_write. destruct (is_empty t).
  - apply leaves_raise.
  - now apply leaves_write_file.
Qed.

Lemma leaves_DataTable_init csv d (P : path -> Prop) :
  (empty d = false -> forall p, P p -> p <> csv) ->
  leaves (DataTable_init csv d) P anything.
Proof.
  intro HP. unfold DataTable_init. destruct (is_empty _).
  - destruct (empty d); [now apply leaves_ret | apply leaves_raise].
  - destruct (empty d) eqn:E.
    + eapply leaves_bind; [apply leaves_read_csv|].
      intros; now apply leaves_ret.
    + eapply leaves_bind; [apply leaves_DataTable_write; now apply HP|].
      intros; now apply leaves_ret.
Qed.

Lemma leaves_DataTable_read csv P :
  leaves (DataTable_init csv no_frame) P anything.
Proof. apply leaves_DataTable_init. discriminate. Qed.

Lemma leaves_Normalization_init folder data b (P : path -> Prop) :
  (forall p, P p -> p <> normalization_csv folder) ->
  leaves (Normalization_init folder data b) P (fun n => _fold n = folder).
Proof.
  intro HP. unfold Normalization_init.
  eapply leaves_bind; [apply leaves_exists|]. intros [|] _.
  - eapply leaves_bind; [apply leaves_DataTable_read|].
    intros; now apply leaves_ret.
  - destruct data as [data|]; [|now apply leaves_ret].
    eapply leaves_bind; [apply leaves_DataTable_init; intros _; exact HP|].
    intros; now apply leaves_ret.
Qed.

Lemma leaves_relevant_stats n fold_M P :
  leaves (_relevant_stats n fold_M) P anything.
Proof.
  unfold _relevant_stats.
  eapply leaves_bind with (Q:=anything).
  - unfold Normalization_DataTable. destruct (_frame n).
    + now apply leaves_ret.
    + eapply leaves_bind; [apply leaves_DataTable_read|].
      intros; now apply leaves_ret.
  - intros [t n'] _. unfold stat_row.
    repeat (eapply leaves_bind with (Q:=anything);
            [eapply leaves_bind; [apply leaves_lift|];
             intros; now apply leaves_ret|]; intros ? _).
    now apply leaves_ret.
Qed.

Lemma leaves_apply_to n fold_M d P : leaves (apply_to n fold_M d) P anything.
Proof.
  unfold apply_to. destruct (_is_applicable n); [|now apply leaves_ret].
  eapply leaves_bind; [apply leaves_relevant_stats|].
  intros [s n'] _. now apply leaves_ret.
Qed.

Lemma apart_neq folder p r : is_under folder p = false -> p <> folder ++ r.
Proof. intros Hn ->. now rewrite is_under_self_app in Hn. Qed.

Lemma leaves_update_meta self (P : path -> Prop) :
  (forall p, P p -> p <> meta_json (_folder self)) ->
  leaves (_update_meta self) P anything.
Proof.
  intro HP. unfold _update_meta, write_meta.
  eapply leaves_bind; [now apply leaves_write_file|].
  intros; now apply leaves_ret.
Qed.

(** [Fold.from_dfs] touches the folder of its fold, and nothing else but
    missing parents of it. *)
Lemma leaves_from_dfs parent k train test normalization b (P : path -> Prop) :
  (forall p, P p -> is_under (fold_folder (_folder parent) k) p = false /\
                    is_under p (fold_folder (_folder parent) k) = false) ->
  leaves (from_dfs parent k train test normalization b) P anything.
Proof.
  intro HP. unfold from_dfs, Repository_create.
  set (F := fold_folder (_folder parent) k) in *.
  assert (Hne : forall p r, P p -> p <> F ++ r)
    by (intros p r Hp; apply apart_neq, (HP p Hp)).
  eapply leaves_bind with (Q:=anything).
  { eapply leaves_bind;
      [apply leaves_rmtree; intros p Hp; apply (HP p Hp)|].
    intros; apply leaves_mkdir. intros p Hp; apply (HP p Hp). }
  intros _ _.
  eapply leaves_bind;
    [apply leaves_Normalization_init; intros p Hp; now apply Hne|].
  intros n Hn. cbv beta in Hn.
  eapply leaves_bind with (Q:=anything).
  { destruct normalization as [np|]; [|now apply leaves_ret].
    apply leaves_copy. unfold Normalization_csv. rewrite Hn.
    intros p Hp. now apply Hne. }
  intros _ _.
  eapply leaves_bind; [apply leaves_apply_to|]. intros [d n1] _.
  eapply leaves_bind;
    [apply leaves_DataTable_init; intros _ p Hp; now apply Hne|].
  intros t _.
  eapply leaves_bind; [apply leaves_apply_to|]. intros [d2 n2] _.
  eapply leaves_bind;
    [apply leaves_DataTable_init; intros _ p Hp; now apply Hne|].
  intros t2 _.
  eapply leaves_bind with (Q:=anything).
  { apply leaves_update_meta. cbn [_folder]. intros p Hp. now apply Hne. }
  intros; now apply leaves_ret.
Qed.

(** The statements of [into_K_folds] that follow the removal of the old
    fold folders. *)
Definition folding_steps (self : Repository) (K : Z)
    (shuffle_before_folding : bool) (normalization : option path)
    (is_normalization_applicable : bool) : @M G Repository :=
  let data := df (_data self) in
  let N := n_rows data in
  bind (with_rng (shuffled_index N shuffle_before_folding)) (fun index =>
  let self := {| _folder := _folder self;
                 _meta := update_folding (_meta self) (Z.abs_nat K)
                            (0 <? K)%Z shuffle_before_folding;
                 _data := _data self |} in
  bind (write_meta (_folder self) (_meta self)) (fun _ =>
  bind (match normalization with
        | None =>
            bind (Normalization_init (_folder self) (Some data) true)
                 (fun n => ret (Normalization_csv n))
        | Some p => ret p
        end) (fun normalization =>
  bind (if (0 <? K)%Z then
          bind (lift (iloc data index)) (fun all =>
          bind (from_dfs self (Z.abs_nat K) all all (Some normalization)
                         is_normalization_applicable) (fun _ =>
          ret tt))
        else ret tt) (fun _ =>
  let K := Z.abs_nat K in
  bind (with_rng (make_indicator N K)) (fun indicator =>
  bind (for_each (seq 0 K)
          (fun k =>
             let (data_index, test_index) := proper_fold k index indicator in
             bind (lift (iloc data data_index)) (fun train =>
             bind (lift (iloc data test_index)) (fun test =>
             bind (from_dfs self k train test (Some normalization)
                            is_normalization_applicable) (fun _ =>
             ret tt))))) (fun _ =>
  ret self)))))).

Lemma into_K_folds_steps (self : Repository) (K : Z) (sbf : bool)
    (normalization : option path) (b : bool) :
  into_K_folds self K sbf normalization b
  = if negb ((1 <=? Z.abs K)%Z
             && (Z.abs K <=? Z.of_nat (n_rows (df (_data self))))%Z)
    then raise IndexError
    else bind (for_each
                 (seq 0 (Nat.max (Z.abs_nat K) (meta_K (_meta self)) + 1))
                 (fun k => rmtree (fold_folder (_folder self) k) true))
              (fun _ => folding_steps self K sbf normalization b).
Proof. reflexivity. Qed.

(** The fold folders that a call with [K] builds. *)
Definition built (K : Z) (k : nat) : Prop :=
  k < Z.abs_nat K \/ (k = Z.abs_nat K /\ (0 < K)%Z).

Lemma leaves_folding_steps self K sbf normalization b (P : path -> Prop) :
  (forall p k, P p -> built K k ->
     is_under (fold_folder (_folder self) k) p = false /\
     is_under p (fold_folder (_folder self) k) = false) ->
  (forall p, P p -> p <> meta_json (_folder self)) ->
  (forall p, P p -> normalization = None ->
             p <> normalization_csv (_folder self)) ->
  leaves (folding_steps self K sbf normalization b) P anything.
Proof.
  intros Hfold Hmeta Hnorm. unfold folding_steps.
  eapply leaves_bind; [apply leaves_with_rng|]. intros index _.
  eapply leaves_bind with (Q:=anything).
  { unfold write_meta. cbn [_folder]. now apply leaves_write_file. }
  intros _ _.
  eapply leaves_bind with (Q:=anything).
  { destruct normalization; [now apply leaves_ret|].
    eapply leaves_bind;
      [apply leaves_Normalization_init; cbn [_folder]; intros p Hp;
       now apply Hnorm|].
    intros; now apply leaves_ret. }
  intros np _.
  eapply leaves_bind with (Q:=anything).
  { destruct (0 <? K)%Z eqn:E; [|now apply leaves_ret].
    eapply leaves_bind; [apply leaves_lift|]. intros all _.
    eapply leaves_bind; [apply leaves_from_dfs|intros; now apply leaves_ret].
    cbn [_folder]. intros p Hp. apply Hfold; [exact Hp|].
    right. split; [reflexivity | now apply Z.ltb_lt]. }
  intros _ _.
  eapply leaves_bind; [apply leaves_with_rng|]. intros indicator _.
  eapply leaves_bind with (Q:=anything); [|intros; now apply leaves_ret].
  apply leaves_for_each. intros k Hk. apply in_seq in Hk.
  destruct (proper_fold k index indicator) as [data_index test_index].
  eapply leaves_bind; [apply leaves_lift|]. intros train _.
  eapply leaves_bind; [apply leaves_lift|]. intros test _.
  eapply leaves_bind; [apply leaves_from_dfs|intros; now apply leaves_ret].
  cbn [_folder]. intros p Hp. apply Hfold; [exact Hp|]. left. lia.
Qed.

(** A path beside those that [into_K_folds] may touch, which are: the fold
    folders up to the larger of |K| and the old K with all they hold,
    [meta.json], [normalization.csv], and the folder of the repository with
    its parents (which [mkdir] makes when they are missing). *)
Definition beside_the_folding (self : Repository) (K : Z) (p : path) : Prop :=
  (forall k, k <= Nat.max (Z.abs_nat K) (meta_K (_meta self)) ->
             is_under (fold_folder (_folder self) k) p = false) /\
  is_under p (_folder self) = false /\
  p <> meta_json (_folder self) /\
  p <> normalization_csv (_folder self).

Lemma leaves_into_K_folds self K sbf normalization b :
  leaves (into_K_folds self K sbf normalization b)
         (beside_the_folding self K) anything.
Proof.
  rewrite into_K_folds_steps.
  destruct (negb _); [apply leaves_raise|].
  eapply leaves_bind with (Q:=anything).
  - apply leaves_for_each. intros k Hk. apply in_seq in Hk.
    apply leaves_rmtree. intros p (Hp & _). apply Hp. lia.
  - intros _ _. apply leaves_folding_steps.
    + intros p k (Hp & Hf & _) Hk.
      assert (Hle : k <= Nat.max (Z.abs_nat K) (meta_K (_meta self)))
        by (destruct Hk as [|[-> _]]; lia).
      split; [now apply Hp|].
      destruct (is_under p (fold_folder (_folder self) k)) eqn:E;
        [|reflexivity].
      apply is_under_snoc in E. destruct E as [->|E]; [|congruence].
      rewrite <- (Hp k Hle). symmetry. apply is_under_refl.
    + now intros p (_ & _ & Hm & _).
    + now intros p (_ & _ & _ & Hn) _.
Qed.

(** Removing the fold folders: the loop always completes, and a folder
    on its list that is not a regular file is gone afterwards. *)
Lemma rmtree_result folder (w : @world G) :
  rmtree folder true w = (Ok tt, w) \/
  (fs w folder = Some Dir /\ rmtree folder true w = (Ok tt, cleared folder w)).
Proof.
  unfold rmtree. destruct (fs w folder) as [[|c]|]; auto.
Qed.

Lemma vacant_cleared folder folder' (w : @world G) :
  vacant folder w -> vacant folder (cleared folder' w).
Proof.
  intros Hv p Hp. unfold cleared. cbn [fs].
  destruct (is_under folder' p); [reflexivity | now apply Hv].
Qed.

Lemma stale_fold_cleared folder ks j (w : @world G) :
  In j ks -> clearable (fold_folder folder j) w ->
  exists w1,
    for_each ks (fun k => rmtree (fold_folder folder k) true) w = (Ok tt, w1) /\
    vacant (fold_folder folder j) w1.
Proof.
  assert (Hkeep : forall ks (w : @world G),
            vacant (fold_folder folder j) w ->
            exists w1,
              for_each ks (fun k => rmtree (fold_folder folder k) true) w
              = (Ok tt, w1) /\ vacant (fold_folder folder j) w1).
  { clear. induction ks as [|k ks IH]; intros w Hv.
    - exists w. now split.
    - simpl. unfold bind.
      destruct (rmtree_result (fold_folder folder k) w) as [E|[_ E]];
        rewrite E; apply IH; [exact Hv | now apply vacant_cleared]. }
  revert w. induction ks as [|k ks IH]; intros w Hin Hc; [destruct Hin|].
  simpl. unfold bind.
  destruct (Nat.eq_dec k j) as [->|Hne].
  - destruct (@rmtree_clears G (fold_folder folder j) w Hc)
      as (w1 & Hr & _ & Hv & _).
    rewrite Hr. now apply Hkeep.
  - destruct Hin as [->|Hin]; [congruence|].
    destruct (rmtree_result (fold_folder folder k) w) as [E|[_ E]];
      rewrite E; apply IH; try assumption.
    destruct Hc as [Hd|Hv].
    + left. unfold cleared. cbn [fs].
      destruct (@fold_folders_apart folder j k (fold_folder folder j)
                  ltac:(congruence) (is_under_refl _)) as [Hn _].
      now rewrite Hn.
    + right. now apply vacant_cleared.
Qed.

End Frame.

(** X8. [into_K_folds], however it ends, leaves every file and folder as it
    was that is not in a fold folder numbered up to the larger of |K| and the
    old K, is not [meta.json] or [normalization.csv] of the repository, and is
    not the repository folder or a parent of it: the data of the repository,
    and higher-numbered fold folders, are never touched. *)
Theorem into_K_folds_touches_only_folds :
  forall (G : Type) (RS : RandomSource G) (ND : NormalDistribution)
         (self : Repository) (K : Z) (sbf : bool)
         (normalization : option path) (b : bool) (w : @world G) (p : path),
    beside_the_folding self K p ->
    fs (snd (into_K_folds self K sbf normalization b w)) p = fs w p.
Proof.
  intros G RS ND self K sbf normalization b w p Hp.
  now apply (leaves_into_K_folds self K sbf normalization b w).
Qed.

Lemma into_K_folds_touches_only_folds_witness :
  fs (snd (@into_K_folds nat turning logistic small_repo 2 true None true
             (settled 3)))
     (Repository_csv (_folder small_repo))
  = fs (settled 3) (Repository_csv (_folder small_repo)).
Proof.
  apply (@into_K_folds_touches_only_folds nat turning logistic small_repo 2
           true None true (settled 3) (Repository_csv (_folder small_repo))).
  repeat split; try reflexivity; discriminate.
Defined.

(** X9. A fold folder left by an earlier folding into more folds (its number
    lies above |K| and up to the old K), or the improper fold of an earlier
    call when K is negative, is removed with all it holds, however the call
    ends afterwards. *)
Theorem into_K_folds_removes_stale_folds :
  forall (G : Type) (RS : RandomSource G) (ND : NormalDistribution)
         (self : Repository) (K : Z) (sbf : bool)
         (normalization : option path) (b : bool) (w : @world G) (j : nat),
    (1 <= Z.abs K <= Z.of_nat (n_rows (df (_data self))))%Z ->
    j <= Nat.max (Z.abs_nat K) (meta_K (_meta self)) ->
    ~ built K j ->
    clearable (fold_folder (_folder self) j) w ->
    vacant (fold_folder (_folder self) j)
           (snd (into_K_folds self K sbf normalization b w)).
Proof.
  intros G RS ND self K sbf normalization b w j HK Hj Hnb Hc.
  rewrite into_K_folds_steps.
  replace (negb _) with false
    by (symmetry; apply negb_false_iff, andb_true_iff; split;
        apply Z.leb_le; lia).
  destruct (@stale_fold_cleared G (_folder self)
              (seq 0 (Nat.max (Z.abs_nat K) (meta_K (_meta self)) + 1)) j w
              ltac:(apply in_seq; lia) Hc) as (w1 & Hloop & Hv).
  unfold bind. rewrite Hloop.
  intros p Hp.
  destruct (@leaves_folding_steps G RS ND self K sbf normalization b
              (fun p => is_under (fold_folder (_folder self) j) p = true))
    with (w := w1) as [Hfs _].
  - intros q k Hq Hk.
    apply (@fold_folders_apart (_folder self) j k q); [|exact Hq].
    intros ->. now apply Hnb.
  - intros q Hq E. subst q. unfold fold_folder, meta_json in Hq.
    rewrite is_under_app_l in Hq. discriminate.
  - intros q Hq _ E. subst q. unfold fold_folder, normalization_csv in Hq.
    rewrite is_under_app_l in Hq. discriminate.
  - rewrite (Hfs p Hp). now apply Hv.
Qed.

(** A repository that was folded into three folds before. *)
Definition refolded : Repository :=
  {| _folder := _folder small_repo;
     _meta := update_folding (_meta small_repo) 3 true false;
     _data := _data small_repo |}.

Lemma into_K_folds_removes_stale_folds_witness :
  vacant (fold_folder (_folder refolded) 3)
         (snd (@into_K_folds nat turning logistic refolded 2 false None true
                 (settled 0))).
Proof.
  apply (@into_K_folds_removes_stale_folds nat turning logistic refolded 2
           false None true (settled 0) 3).
  - cbn. lia.
  - cbn. lia.
  - unfold built. cbn. lia.
  - right. intros p Hp. destruct (is_under_inv _ _ Hp) as [r ->].
    reflexivity.
Defined.

(** ** What the folds hold *)

Section FoldContents.
Context {G : Type} {RS : RandomSource G} {ND : NormalDistribution}.

Lemma normalized_by_statistics b (t1 t2 d : DataFrame) fold_M :
  statistics t1 = statistics t2 ->
  normalized b t1 d fold_M = normalized b t2 d fold_M.
Proof. intro E. unfold normalized. now rewrite E. Qed.

(** The improper fold of a call, in the world the call leaves. *)
Definition improper_fold_holds (self : Repository) (K : Z) (sbf b : bool)
    (w w' : @world G) : Prop :=
  let data := df (_data self) in
  let F := fold_folder (_folder self) (Z.abs_nat K) in
  let all := select data (index_of (n_rows data) sbf (rng w)) in
  let table := Csv (normalized b data all (meta_M (_meta self))) in
  fs w' (normalization_csv F) = Some (File (Csv (statistics data))) /\
  fs w' (Repository_csv F) = Some (File table) /\
  fs w' (_test_csv F) = Some (File table).

(** The proper folds of a call that does not normalize. *)
Definition raw_folds_hold (self : Repository) (K : Z) (sbf : bool)
    (w w' : @world G) : Prop :=
  let data := df (_data self) in
  forall k, k < Z.abs_nat K ->
    let F := fold_folder (_folder self) k in
    let rows := fold_rows (n_rows data) (Z.abs_nat K) sbf (rng w) k in
    fs w' (Repository_csv F) = Some (File (Csv (select data (fst rows)))) /\
    fs w' (_test_csv F) = Some (File (Csv (select data (snd rows)))) /\
    exists c, fs w' (normalization_csv F) = Some (File c).

End FoldContents.

(** X10. [into_K_folds] with K > 0 and no normalization file, in a repository
    without a [normalization.csv]: the improper fold holds, as training table
    and as test table, all the rows in the order of [index], normalized by the
    very statistics its [normalization.csv] holds, those of the whole data; a
    shuffle does not change them. *)
Theorem improper_fold_matches_its_statistics :
  forall (G : Type) (RS : RandomSource G) (ND : NormalDistribution)
         (self : Repository) (K : Z) (sbf b : bool) (w : @world G),
    (1 <= K <= Z.of_nat (n_rows (df (_data self))))%Z ->
    foldable self None w ->
    fs w (normalization_csv (_folder self)) = None ->
    length (values (df (_data self))) = n_rows (df (_data self)) ->
    exists w' : @world G,
      into_K_folds self K sbf None b w = (Ok (folded self K sbf), w') /\
      improper_fold_holds self K sbf b w w'.
Proof.
  intros G RS ND self K sbf b w HK Hf Hnone Hlen.
  destruct (@into_K_folds_run G RS ND self K sbf None b w ltac:(lia) Hf)
    as (w' & c & Hrun & _ & Himproper & _ & _ & Hc).
  rewrite (Hc eq_refl Hnone) in *.
  exists w'. split; [exact Hrun|].
  destruct (Himproper ltac:(lia)) as (_ & Hd & Ht & Hn).
  cbn [fst snd] in Hd, Ht.
  assert (E : statistics (select (df (_data self))
                            (index_of (n_rows (df (_data self))) sbf (rng w)))
              = statistics (df (_data self))).
  { apply statistics_of_rearranged; [apply shuffled_index_perm | exact Hlen]. }
  rewrite (@normalized_by_statistics ND b _ _ _ _ E) in Hd, Ht.
  unfold improper_fold_holds. auto.
Qed.

Lemma improper_fold_matches_its_statistics_witness :
  exists w' : @world nat,
    @into_K_folds nat turning logistic small_repo 2 true None true (settled 3)
      = (Ok (folded small_repo 2 true), w') /\
    improper_fold_holds (RS:=turning) (ND:=logistic) small_repo 2 true true
      (settled 3) w'.
Proof.
  apply (@improper_fold_matches_its_statistics nat turning logistic small_repo
           2 true true (settled 3)).
  - cbn. lia.
  - apply settled_foldable.
  - reflexivity.
  - reflexivity.
Defined.

(** X11. [into_K_folds] with [is_normalization_applicable=False]: the training
    table and the test table of every proper fold are the rows of the data at
    the fold's positions, as they are in the data; a [normalization.csv] is
    put into the fold all the same. *)
Theorem unnormalized_folds_hold_raw_rows :
  forall (G : Type) (RS : RandomSource G) (ND : NormalDistribution)
         (self : Repository) (K : Z) (sbf : bool)
         (normalization : option path) (w : @world G),
    (1 <= Z.abs K <= Z.of_nat (n_rows (df (_data self))))%Z ->
    foldable self normalization w ->
    exists w' : @world G,
      into_K_folds self K sbf normalization false w
        = (Ok (folded self K sbf), w') /\
      raw_folds_hold self K sbf w w'.
Proof.
  intros G RS ND self K sbf normalization w HK Hf.
  destruct (@into_K_folds_run G RS ND self K sbf normalization false w HK Hf)
    as (w' & c & Hrun & Hproper & _).
  exists w'. split; [exact Hrun|].
  intros k Hk F rows.
  destruct (Hproper k Hk) as (_ & Hd & Ht & Hn).
  rewrite <- fold_rows_split in Hd, Ht.
  split; [exact Hd|]. split; [exact Ht|]. now exists c.
Qed.

Lemma unnormalized_folds_hold_raw_rows_witness :
  exists w' : @world nat,
    @into_K_folds nat turning logistic small_repo (-2) true None false
      (settled 3)
      = (Ok (folded small_repo (-2) true), w') /\
    raw_folds_hold (RS:=turning) small_repo (-2) true (settled 3) w'.
Proof.
  apply (@unnormalized_folds_hold_raw_rows nat turning logistic small_repo
           (-2)%Z true None (settled 3)).
  - cbn. lia.
  - apply settled_foldable.
Defined.

(** ** [DataTable]: storing and reading back *)




(** ** The earlier revision: [Store] of [data.py] *)

Section StoreFacts.
Context {G : Type}.


End StoreFacts.














(** X15. [Store.into_K_folds] removes the folders of the folds above K with
    [shutil.rmtree] and no [ignore_errors]: when the metadata counts more
    folds than K and the folder of fold K + 1 is not there, the call fails
    with [FileNotFoundError] before it has changed anything, whatever
    [Fold.from_dfs] would do. *)
Theorem Store_into_K_folds_needs_stale_folders :
  forall (G : Type) (RS : RandomSource G)
         (from_dfs_of_Store : Repository -> nat -> DataFrame -> DataFrame ->
                              option path -> @M G unit)
         (self : Repository) (K : Z) (sbf : bool)
         (normalization : option path) (w : @world G),
    (1 <= K <= Z.of_nat (n_rows (df (_data self))))%Z ->
    Z.to_nat K < meta_K (_meta self) ->
    fs w (fold_folder (_folder self) (Z.to_nat K + 1)) = None ->
    Store_into_K_folds from_dfs_of_Store self K sbf normalization w
    = (Raise FileNotFoundError, w).
Proof.
  intros G RS F self K sbf normalization w HK Hold Hn.
  unfold Store_into_K_folds.
  replace (negb _) with false
    by (symmetry; apply negb_false_iff, andb_true_iff; split;
        apply Z.leb_le; lia).
  destruct (meta_K (_meta self) - Z.to_nat K) as [|n] eqn:E; [lia|].
  cbn [seq for_each]. unfold bind at 1. unfold bind at 1.
  unfold rmtree. now rewrite Hn.
Qed.

Lemma Store_into_K_folds_needs_stale_folders_witness :
  @Store_into_K_folds nat turning (fun _ _ _ _ _ => ret tt) refolded 2 false
     None (settled 0)
  = (Raise FileNotFoundError, settled 0).
Proof.
  apply (@Store_into_K_folds_needs_stale_folders nat turning
           (fun _ _ _ _ _ => ret tt) refolded 2 false None (settled 0)).
  - cbn. lia.
  - cbn. lia.
  - reflexivity.
Defined.






(** ** The order of the rows in a fold *)

Section RowOrder.
Context {G : Type} {RS : RandomSource G}.

Lemma ordered_seq s n : ForallOrdPairs lt (seq s n).
Proof.
  revert s; induction n as [|n IH]; intro s; simpl; constructor.
  - apply Forall_forall. intros x Hx. apply in_seq in Hx. lia.
  - apply IH.
Qed.

(** The positions picked for a fold come in the order of [index]. *)
Lemma ordered_picked (R : nat -> nat -> Prop) (f : nat * nat -> bool)
    (index indicator : list nat) :
  ForallOrdPairs R index ->
  ForallOrdPairs R (map fst (filter f (combine index indicator))).
Proof.
  intro Ho. revert indicator.
  induction Ho as [|a index Ha Ho IH]; intros [|b indicator]; simpl;
    try constructor.
  assert (Hall : Forall (R a) (map fst (filter f (combine index indicator)))).
  { apply Forall_forall. intros x Hx. apply in_map_iff in Hx.
    destruct Hx as ([x' y] & <- & Hin). apply filter_In in Hin.
    destruct Hin as [Hin _]. apply in_combine_l in Hin.
    rewrite Forall_forall in Ha. now apply Ha. }
  destruct (f (a, b)); simpl.
  - constructor; [exact Hall | apply IH].
  - apply IH.
Qed.

Lemma ordered_proper_fold (R : nat -> nat -> Prop) k (index indicator : list nat) :
  ForallOrdPairs R index ->
  ForallOrdPairs R (fst (proper_fold k index indicator)) /\
  ForallOrdPairs R (snd (proper_fold k index indicator)) /\
  ForallOrdPairs R (fst (proper_fold_store k index indicator)) /\
  ForallOrdPairs R (snd (proper_fold_store k index indicator)).
Proof.
  intro Ho. unfold proper_fold, proper_fold_store, swap_if_empty,
    data_index, test_index. cbn [fst snd].
  pose proof (ordered_picked (fun p => negb (k =? snd p)) indicator Ho) as Hd.
  pose proof (ordered_picked (fun p => k =? snd p) indicator Ho) as Ht.
  repeat split; try assumption.
  destruct (map fst (filter (fun p => negb (k =? snd p))
                            (combine index indicator))) eqn:E;
    [exact Ht | exact Hd].
Qed.

End RowOrder.

(** X17. Without [shuffle_before_folding] the training rows and the test rows
    of every fold keep the order they have in the data: their positions
    increase, whatever the shuffling of the blocks does, in both revisions of
    [into_K_folds]. *)
Theorem folds_keep_the_order_of_the_data :
  forall (G : Type) (RS : RandomSource G) (N K : nat) (g : G) (k : nat),
    ForallOrdPairs lt (fst (fold_rows N K false g k)) /\
    ForallOrdPairs lt (snd (fold_rows N K false g k)) /\
    ForallOrdPairs lt (fst (fold_rows_store N K false g k)) /\
    ForallOrdPairs lt (snd (fold_rows_store N K false g k)).
Proof.
  intros G RS N K g k. unfold fold_rows, fold_rows_store, folding.
  cbn [shuffled_index].
  destruct (make_indicator N K g) as [indicator g'].
  apply ordered_proper_fold, ordered_seq.
Qed.

(** ** A normalization file that is not there *)

Section LateFailure.
Context {G : Type} {RS : RandomSource G} {ND : NormalDistribution}.

(** [Fold.from_dfs] with a normalization file that does not exist: the
    folder of the fold has been made, and holds the statistics of the
    training rows, when [shutil.copy] fails. *)
Lemma from_dfs_missing_file parent k train test np b (w : @world G) :
  let F := fold_folder (_folder parent) k in
  clearable F w ->
  fs w np = None ->
  is_under F np = false -> is_under np F = false ->
  empty train = false ->
  exists w',
    from_dfs parent k train test (Some np) b w
    = (Raise FileNotFoundError, w') /\
    fs w' F = Some Dir /\
    (forall p, is_under F p = false -> is_under p F = false ->
               fs w' p = fs w p).
Proof.
  intros F Hc Hnp Hout Hanc Htrain.
  destruct (Repository_create_run Hc) as (w1 & Hr & Hg & Hv & Ho).
  exists (written (normalization_csv F) (Csv (statistics train)) (made F w1)).
  split; [|split].
  - unfold from_dfs. fold F. unfold bind at 1. rewrite Hr.
    unfold bind at 1.
    rewrite Normalization_init_fresh;
      [|unfold normalization_csv; now apply fs_made_under|assumption].
    unfold bind at 1. unfold Normalization_csv, computed at 1. cbn [_fold].
    fold (normalization_csv F). unfold copy.
    rewrite fs_written_other by now apply not_under_neq.
    rewrite fs_made_aside by exact Hanc.
    rewrite Ho by exact Hout. now rewrite Hnp.
  - rewrite fs_written_other by apply path_eqb_self_app.
    now apply fs_made_self.
  - intros p Hp Hp'.
    rewrite fs_written_other by now apply not_under_neq.
    rewrite fs_made_aside by exact Hp'. now apply Ho.
Qed.

End LateFailure.

(** How a call with a missing normalization file ends. *)
Definition fails_late {G : Type} {RS : RandomSource G}
    {ND : NormalDistribution} (self : Repository) (K : Z) (sbf : bool)
    (np : path) (b : bool) (w : @world G) : Prop :=
  let first := if (0 <? K)%Z then Z.abs_nat K else 0 in
  exists w' : @world G,
    into_K_folds self K sbf (Some np) b w = (Raise FileNotFoundError, w') /\
    fs w' (meta_json (_folder self))
      = Some (File (Json (_meta (folded self K sbf)))) /\
    fs w' (fold_folder (_folder self) first) = Some Dir /\
    (forall j, j <= Nat.max (Z.abs_nat K) (meta_K (_meta self)) ->
               j <> first -> vacant (fold_folder (_folder self) j) w').

(** X18. [into_K_folds] with a normalization file that does not exist fails
    with [FileNotFoundError] only in [shutil.copy] of the first fold it makes
    (the improper fold for K > 0, fold 0 otherwise): by then [meta.json] has
    been rewritten for the new K, the folder of that fold has been made, and
    every other fold folder numbered up to the larger of |K| and the old K has
    been removed with all it held. *)
Theorem missing_normalization_file_found_late :
  forall (G : Type) (RS : RandomSource G) (ND : NormalDistribution)
         (self : Repository) (K : Z) (sbf : bool) (np : path) (b : bool)
         (w : @world G),
    (1 <= Z.abs K <= Z.of_nat (n_rows (df (_data self))))%Z ->
    columns (df (_data self)) <> [] ->
    (forall k, clearable (fold_folder (_folder self) k) w) ->
    fs w np = None ->
    np <> meta_json (_folder self) ->
    (forall k, is_under (fold_folder (_folder self) k) np = false /\
               is_under np (fold_folder (_folder self) k) = false) ->
    fails_late self K sbf np b w.
Proof.
  intros G RS ND self K sbf np b w HK Hcol Hclear Hnp Hnm Hapart.
  set (data := df (_data self)) in *. set (N := n_rows data) in *.
  set (Ka := Z.abs_nat K).
  set (idx := index_of N sbf (rng w)).
  set (ind := indicator_of N Ka sbf (rng w)).
  assert (HKa : 1 <= Ka <= N) by (unfold Ka; lia).
  assert (W := @split_well_indicated G RS N Ka sbf (rng w) ltac:(lia)).
  fold idx ind in W.
  assert (Hidx : forall i, In i idx -> i < n_rows data)
    by (intros i Hi; now apply (wi_in_index W) in Hi).
  assert (Hidx0 : idx <> []).
  { intro E. pose proof (Permutation_length (wi_index W)) as L.
    rewrite E, length_seq in L. simpl in L. lia. }
  unfold fails_late. rewrite into_K_folds_steps. fold data. fold N.
  replace (negb ((1 <=? Z.abs K)%Z && (Z.abs K <=? Z.of_nat N)%Z)) with false
    by (symmetry; apply negb_false_iff, andb_true_iff; split;
        apply Z.leb_le; lia).
  destruct (@rmtree_loop G (_folder self)
              (seq 0 (Nat.max (Z.abs_nat K) (meta_K (_meta self)) + 1)) w
              (fun k _ => Hclear k))
    as (w1 & Hr1 & Hg1 & Hv1 & Ho1 & Hm1).
  unfold bind at 1. rewrite Hr1.
  unfold folding_steps. fold data. fold N.
  unfold bind at 1. rewrite with_rng_run. cbv beta iota. rewrite Hg1.
  fold (index_of N sbf (rng w)). fold idx.
  set (g1 := snd (shuffled_index N sbf (rng w))).
  set (w2 := {| fs := fs w1; rng := g1 |}).
  cbn [_folder _meta _data].
  unfold bind at 1. rewrite write_meta_run.
  fold (folded self K sbf).
  set (w3 := written (meta_json (_folder self))
                     (Json (update_folding (_meta self) (Z.abs_nat K)
                                           (0 <? K)%Z sbf)) w2).
  assert (Hv3 : forall k, k <= Nat.max (Z.abs_nat K) (meta_K (_meta self)) ->
                          vacant (fold_folder (_folder self) k) w3).
  { intros k Hk p Hp. unfold w3.
    rewrite fs_written_other.
    - unfold w2. cbn [fs]. apply (Hv1 k); [|exact Hp].
      apply in_seq. lia.
    - destruct (is_under_inv _ _ Hp) as [r ->].
      unfold fold_folder, meta_json. rewrite <- app_assoc, path_eqb_app_l.
      simpl. now destruct r. }
  assert (Hc3 : forall k, k <= Ka -> clearable (fold_folder (_folder self) k) w3).
  { intros k Hk. right. apply Hv3. unfold Ka in Hk. lia. }
  assert (Hnp3 : fs w3 np = None).
  { unfold w3. rewrite fs_written_other by now apply path_neqb.
    unfold w2. cbn [fs]. now apply Hm1. }
  assert (Hmeta3 : fs w3 (meta_json (_folder self))
                   = Some (File (Json (_meta (folded self K sbf)))))
    by apply fs_written_same.
  assert (Hmeta_apart : forall k,
             is_under (fold_folder (_folder self) k) (meta_json (_folder self))
             = false /\
             is_under (meta_json (_folder self)) (fold_folder (_folder self) k)
             = false).
  { intro k. unfold fold_folder, meta_json. now rewrite !is_under_app_l. }
  unfold bind at 1. unfold ret at 1. cbv beta iota.
  destruct (Z.ltb_spec 0 K) as [Hpos|Hneg].
  - (* the improper fold is the first to be made *)
    unfold bind at 1. unfold bind at 1. unfold lift at 1.
    rewrite iloc_select by exact Hidx. cbv beta iota.
    destruct (@from_dfs_missing_file G ND (folded self K sbf) (Z.abs_nat K)
                (select data idx) (select data idx) np b w3
                (Hc3 Ka (le_n Ka)) Hnp3
                (proj1 (Hapart Ka)) (proj2 (Hapart Ka))
                (empty_select data Hcol Hidx0))
      as (w' & Hrun & Hdir & Hother).
    unfold bind at 1. cbn [_folder folded] in Hrun, Hdir, Hother.
    rewrite Hrun.
    exists w'. split; [reflexivity|]. split; [|split; [exact Hdir|]].
    + rewrite Hother by apply Hmeta_apart. exact Hmeta3.
    + intros j Hj Hne p Hp.
      destruct (@fold_folders_apart (_folder self) j _ p Hne Hp) as [Hu Hu'].
      rewrite Hother by assumption. exact (Hv3 j Hj p Hp).
  - (* fold 0 is the first to be made *)
    unfold bind at 1. unfold ret at 1. cbv beta iota.
    unfold bind at 1. rewrite with_rng_run. cbv beta iota.
    set (w4 := {| fs := fs w3; rng := _ |}).
    assert (Eind : fst (make_indicator N (Z.abs_nat K) (rng w3)) = ind).
    { unfold ind, indicator_of, w3, w2, g1. reflexivity. }
    rewrite Eind.
    destruct (@proper_fold_usable data N Ka idx ind 0 W HKa ltac:(lia) eq_refl)
      as (Htr & Hte & Htri & Htei).
    destruct (seq 0 (Z.abs_nat K)) as [|k0 ks] eqn:Es;
      [apply (f_equal (@length nat)) in Es; rewrite length_seq in Es;
       simpl in Es; lia|].
    assert (k0 = 0) as -> by (destruct (Z.abs_nat K); simpl in Es;
                              [discriminate | now injection Es]).
    cbn [for_each].
    destruct (proper_fold 0 idx ind) as [data_index test_index] eqn:Ep.
    cbn [fst snd] in *.
    unfold bind at 1. unfold bind at 1. unfold bind at 1.
    unfold lift at 1. rewrite iloc_select by exact Htri. cbv beta iota.
    unfold bind at 1. unfold lift at 1.
    rewrite iloc_select by exact Htei. cbv beta iota.
    destruct (@from_dfs_missing_file G ND (folded self K sbf) 0
                (select data data_index) (select data test_index) np b w4
                (Hc3 0 ltac:(lia)) Hnp3
                (proj1 (Hapart 0)) (proj2 (Hapart 0))
                (empty_select data Hcol Htr))
      as (w' & Hrun & Hdir & Hother).
    unfold bind at 1. cbn [_folder folded] in Hrun, Hdir, Hother.
    rewrite Hrun.
    exists w'. split; [reflexivity|]. split; [|split; [exact Hdir|]].
    + rewrite Hother by apply Hmeta_apart. exact Hmeta3.
    + intros j Hj Hne p Hp.
      destruct (@fold_folders_apart (_folder self) j _ p Hne Hp) as [Hu Hu'].
      rewrite Hother by assumption. exact (Hv3 j Hj p Hp).
Qed.

Lemma missing_normalization_file_found_late_witness :
  fails_late (RS:=turning) (ND:=logistic) small_repo (-2) true
             [Named "nowhere.csv"%string] true (settled 3).
Proof.
  apply (@missing_normalization_file_found_late nat turning logistic
           small_repo (-2)%Z true [Named "nowhere.csv"%string] true
           (settled 3)).
  - cbn. lia.
  - discriminate.
  - intro k. destruct k as [|k].
    + now left.
    + right. intros p Hp. destruct (is_under_inv _ _ Hp) as [r ->].
      reflexivity.
  - reflexivity.
  - discriminate.
  - intro k. split; reflexivity.
Defined.

(** ** [Fold.from_dfs] on its own *)

(** What [Fold.from_dfs] without a normalization file leaves behind. *)
Definition from_dfs_contract {G : Type} {ND : NormalDistribution}
    (parent : Repository) (k : nat) (train test : DataFrame) (b : bool)
    (w : @world G) : Prop :=
  let F := fold_folder (_folder parent) k in
  let M := meta_M (_meta parent) in
  exists (fold : Fold) (w' : @world G),
    from_dfs parent k train test None b w = (Ok fold, w') /\
    df (_data fold) = normalized b train train M /\
    df (_test_data fold) = normalized b train test M /\
    fs w' F = Some Dir /\
    fs w' (normalization_csv F) = Some (File (Csv (statistics train))) /\
    fs w' (Repository_csv F) = Some (File (Csv (df (_data fold)))) /\
    fs w' (_test_csv F) = Some (File (Csv (df (_test_data fold)))) /\
    (forall p, is_under F p = false -> is_under p F = false ->
               fs w' p = fs w p).

(** X19. [Fold.from_dfs(parent, k, data, test_data)] without a normalization
    file, on a folder that is not a regular file and with tables that are not
    empty: the folder is made anew, the statistics of the training table are
    written to its [normalization.csv], and both tables are normalized by them
    (or kept as they are when normalization is not applicable) and written.
    Nothing outside the folder is changed, but for missing parents of it. *)
Theorem from_dfs_normalizes_by_training_table :
  forall (G : Type) (ND : NormalDistribution) (parent : Repository) (k : nat)
         (train test : DataFrame) (b : bool) (w : @world G),
    clearable (fold_folder (_folder parent) k) w ->
    empty train = false -> empty test = false ->
    from_dfs_contract parent k train test b w.
Proof.
  intros G ND parent k train test b w Hc Htrain Htest.
  unfold from_dfs_contract.
  set (F := fold_folder (_folder parent) k) in *.
  destruct (Repository_create_run Hc) as (w1 & Hr & Hg & Hv & Ho).
  unfold from_dfs. fold F. unfold bind at 1. rewrite Hr.
  unfold bind at 1.
  rewrite Normalization_init_fresh;
    [|unfold normalization_csv; now apply fs_made_under|assumption].
  unfold bind at 1. unfold ret at 1. cbv beta iota.
  unfold bind at 1.
  erewrite apply_to_cached by reflexivity. cbv beta iota.
  unfold bind at 1. unfold Repository_csv at 1.
  erewrite DataTable_init_write by now rewrite empty_normalized.
  unfold bind at 1.
  erewrite apply_to_cached by reflexivity. cbv beta iota.
  unfold bind at 1. unfold _test_csv at 1.
  erewrite DataTable_init_write by now rewrite empty_normalized.
  unfold bind. rewrite update_meta_run. unfold ret.
  do 2 eexists. split; [reflexivity|].
  cbn [_data _test_data repository df _meta _folder computed _is_applicable].
  split; [reflexivity|]. split; [reflexivity|].
  unfold meta_json, _test_csv, Repository_csv, normalization_csv.
  split; [|split; [|split; [|split]]].
  - rewrite !fs_written_other by apply path_eqb_self_app.
    now apply fs_made_self.
  - rewrite !fs_written_other by now apply path_eqb_siblings.
    apply fs_written_same.
  - rewrite !fs_written_other by now apply path_eqb_siblings.
    apply fs_written_same.
  - rewrite !fs_written_other by now apply path_eqb_siblings.
    apply fs_written_same.
  - intros p Hp Hp'.
    rewrite !fs_written_other by now apply not_under_neq.
    rewrite fs_made_aside by exact Hp'. now apply Ho.
Qed.

Lemma from_dfs_normalizes_by_training_table_witness :
  from_dfs_contract (ND:=logistic) small_repo 1 two_rows four_rows true bare.
Proof.
  apply (@from_dfs_normalizes_by_training_table unit logistic small_repo 1
           two_rows four_rows true bare).
  - right. intros p _. reflexivity.
  - reflexivity.
  - reflexivity.
Defined.

(** ** The getter of [X_rotation] after the setter *)



(** ** The rows of the statistics table that are looked up *)

Section StatisticsRows.
Context {G : Type} {ND : NormalDistribution}.

Lemma label_eqb_eq a b : label_eqb a b = true <-> a = b.
Proof.
  destruct a, b; simpl; split; intro E; try discriminate.
  - apply Nat.eqb_eq in E. now subst.
  - injection E as ->. apply Nat.eqb_refl.
  - apply String.eqb_eq in E. now subst.
  - injection E as ->. apply String.eqb_refl.
Qed.

(** [get_loc] finds a label that is there, and raises [KeyError] for one
    that is not. *)
Lemma get_loc_found name labels :
  In name labels -> exists i, get_loc name labels = Ok i.
Proof.
  induction labels as [|l labels IH]; intro Hin; [destruct Hin|].
  simpl. destruct (label_eqb name l) eqn:E; [now exists 0|].
  destruct Hin as [->|Hin].
  - assert (label_eqb name name = true) by now apply label_eqb_eq.
    congruence.
  - destruct (IH Hin) as [i ->]. now exists (S i).
Qed.

Lemma get_loc_missing name labels :
  ~ In name labels -> get_loc name labels = Raise KeyError.
Proof.
  induction labels as [|l labels IH]; intro Hn; [reflexivity|].
  simpl. destruct (label_eqb name l) eqn:E.
  - apply label_eqb_eq in E. subst. exfalso. apply Hn. now left.
  - rewrite IH; [reflexivity|]. intro Hin. apply Hn. now right.
Qed.

Lemma stat_row_run name (t : DataTable) (w : @world G) :
  (In (Stat name) (index (df t)) /\
   exists r, stat_row name t w = (Ok r, w)) \/
  (~ In (Stat name) (index (df t)) /\
   stat_row name t w = (Raise KeyError, w)).
Proof.
  unfold stat_row, bind, lift, ret.
  destruct (in_dec (fun a b => match Bool.bool_dec (label_eqb a b) true with
                               | left E => left (proj1 (label_eqb_eq a b) E)
                               | right E =>
                                   right (fun H => E (proj2 (label_eqb_eq a b) H))
                               end)
                   (Stat name) (index (df t))) as [Hin|Hn].
  - left. split; [exact Hin|]. destruct (get_loc_found _ _ Hin) as [i ->].
    now eexists.
  - right. split; [exact Hn|]. now rewrite get_loc_missing.
Qed.

(** The four rows that [_relevant_stats] looks up. *)
Definition rows_present (t : DataTable) : Prop :=
  In (Stat "min"%string) (index (df t)) /\
  In (Stat "rng"%string) (index (df t)) /\
  In (Stat "mean"%string) (index (df t)) /\
  In (Stat "std"%string) (index (df t)).

Lemma relevant_stats_rows (n : Normalization) (t : DataTable) fold_M
    (w : @world G) :
  _frame n = Some t ->
  (rows_present t /\
   exists s, _relevant_stats n fold_M w = (Ok (s, n), w)) \/
  (~ rows_present t /\ _relevant_stats n fold_M w = (Raise KeyError, w)).
Proof.
  intro Hf. unfold rows_present.
  destruct (stat_row_run "min"%string t w) as [[H1 [r1 E1]]|[H1 E1]];
    [destruct (stat_row_run "rng"%string t w) as [[H2 [r2 E2]]|[H2 E2]];
     [destruct (stat_row_run "mean"%string t w) as [[H3 [r3 E3]]|[H3 E3]];
      [destruct (stat_row_run "std"%string t w) as [[H4 [r4 E4]]|[H4 E4]]|]|]|];
    unfold _relevant_stats, Normalization_DataTable, bind, ret;
    rewrite Hf; cbv beta iota;
    repeat (first [rewrite E1 | rewrite E2 | rewrite E3 | rewrite E4];
            cbv beta iota);
    first [left; split; [tauto | now eexists]
          | right; split; [tauto | reflexivity]].
Qed.

End StatisticsRows.

(** X21. An applicable normalization that holds a table: [apply_to] and
    [undo_from] return a frame exactly when the table has the four rows [min],
    [rng], [mean] and [std], and raise [KeyError] when one of them is missing,
    changing nothing; the row [max] is never looked up. *)
Theorem normalization_needs_four_rows :
  forall (G : Type) (ND : NormalDistribution) (n : Normalization)
         (t : DataTable) (fold_M : nat) (d : DataFrame) (w : @world G),
    _frame n = Some t -> _is_applicable n = true ->
    (rows_present t ->
     exists d' d'', apply_to n fold_M d w = (Ok (d', n), w) /\
                    undo_from n fold_M d w = (Ok (d'', n), w)) /\
    (~ rows_present t ->
     apply_to n fold_M d w = (Raise KeyError, w) /\
     undo_from n fold_M d w = (Raise KeyError, w)).
Proof.
  intros G ND n t fold_M d w Hf Ha.
  unfold apply_to, undo_from. rewrite Ha. unfold bind.
  destruct (@relevant_stats_rows G n t fold_M w Hf) as [[Hp [s E]]|[Hn E]];
    rewrite E; split; intro H; try contradiction.
  - do 2 eexists. split; reflexivity.
  - split; reflexivity.
Qed.

(** A statistics table without the row [max]. *)
Definition without_max : DataTable :=
  {| _csv := [fold_ 0; Named "normalization.csv"%string];
     df := {| index := [Stat "mean"%string; Stat "std"%string;
                        Stat "rng"%string; Stat "min"%string];
              columns := [Input; Output];
              values := [[1; 3]; [1; 2]; [4; 4]; [-1; 1]]%R |} |}.

Lemma normalization_needs_four_rows_witness :
  let n := {| _fold := [fold_ 0]; _is_applicable := true;
              _frame := Some without_max |} in
  (rows_present without_max ->
   exists d' d'',
     apply_to (H0:=logistic) n 1 two_rows bare = (Ok (d', n), bare) /\
     undo_from (H0:=logistic) n 1 two_rows bare = (Ok (d'', n), bare)) /\
  (~ rows_present without_max ->
   apply_to (H0:=logistic) n 1 two_rows bare = (Raise KeyError, bare) /\
   undo_from (H0:=logistic) n 1 two_rows bare = (Raise KeyError, bare)).
Proof.
  intro n.
  apply (@normalization_needs_four_rows unit logistic n without_max 1 two_rows
           bare); reflexivity.
Defined.

(** ** A single fold *)

Section SingleFold.
Context {G : Type} {RS : RandomSource G} {ND : NormalDistribution}.

Lemma test_index_all (index indicator : list nat) :
  length index = length indicator ->
  (forall j, In j indicator -> j < 1) ->
  test_index 0 (combine index indicator) = index.
Proof.
  unfold test_index.
  revert indicator; induction index as [|i index IH];
    intros [|j indicator] Hl Hb; simpl in *; try discriminate; [reflexivity|].
  assert (j = 0) as -> by (specialize (Hb j (or_introl eq_refl)); lia).
  simpl. f_equal. apply IH; [lia|]. intros; apply Hb; now right.
Qed.

(** With one fold, the only proper fold trains and tests on all rows. *)
Lemma single_fold_rows N sbf (g : G) :
  1 <= N ->
  proper_fold 0 (index_of N sbf g) (indicator_of N 1 sbf g)
  = (index_of N sbf g, index_of N sbf g).
Proof.
  intro HN.
  assert (W := @split_well_indicated G RS N 1 sbf g ltac:(lia)).
  unfold proper_fold.
  rewrite (data_empty_single W (k:=0) eq_refl ltac:(lia)).
  rewrite (test_index_all _ _ (wi_lengths W) (wi_bound W)).
  reflexivity.
Qed.

(** Fold [k] holds all the rows, in the order of [index], as its training
    table and as its test table. *)
Definition holds_all_rows (self : Repository) (sbf b : bool) (k : nat)
    (w w' : @world G) : Prop :=
  let data := df (_data self) in
  let all := select data (index_of (n_rows data) sbf (rng w)) in
  let table := Csv (normalized b all all (meta_M (_meta self))) in
  fs w' (Repository_csv (fold_folder (_folder self) k)) = Some (File table) /\
  fs w' (_test_csv (fold_folder (_folder self) k)) = Some (File table).

End SingleFold.

(** X22. [into_K_folds] with |K| = 1: fold 0 is made of all the rows, for
    training and for testing alike (the call [into_K_folds(-1)] of [from_csv]
    relies on it). With K = 1 the improper fold 1 is built as well and holds
    the same two tables; with K = -1 there is no fold 1. *)
Theorem single_fold_holds_all_rows :
  forall (G : Type) (RS : RandomSource G) (ND : NormalDistribution)
         (self : Repository) (K : Z) (sbf : bool)
         (normalization : option path) (b : bool) (w : @world G),
    Z.abs K = 1%Z -> 1 <= n_rows (df (_data self)) ->
    foldable self normalization w ->
    exists w' : @world G,
      into_K_folds self K sbf normalization b w
        = (Ok (folded self K sbf), w') /\
      holds_all_rows self sbf b 0 w w' /\
      (K = 1%Z -> holds_all_rows self sbf b 1 w w') /\
      (K = (-1)%Z -> fs w' (fold_folder (_folder self) 1) = None).
Proof.
  intros G RS ND self K sbf normalization b w HK HN Hf.
  destruct (@into_K_folds_run G RS ND self K sbf normalization b w
              ltac:(lia) Hf)
    as (w' & c & Hrun & Hproper & Himproper & Hnone & _).
  assert (EK : Z.abs_nat K = 1) by lia.
  rewrite EK in *.
  exists w'. split; [exact Hrun|]. split; [|split].
  - specialize (Hproper 0 ltac:(lia)).
    rewrite (single_fold_rows sbf (rng w) HN) in Hproper.
    destruct Hproper as (_ & Hd & Ht & _). now split.
  - intros ->. destruct (Himproper ltac:(lia)) as (_ & Hd & Ht & _).
    now split.
  - intros ->. apply (Hnone ltac:(lia)). apply is_under_refl.
Qed.

Lemma single_fold_holds_all_rows_witness :
  exists w' : @world nat,
    @into_K_folds nat turning logistic small_repo (-1) true None true
      (settled 3)
      = (Ok (folded small_repo (-1) true), w') /\
    holds_all_rows (RS:=turning) (ND:=logistic) small_repo true true 0
      (settled 3) w' /\
    ((-1)%Z = 1%Z ->
     holds_all_rows (RS:=turning) (ND:=logistic) small_repo true true 1
       (settled 3) w') /\
    ((-1)%Z = (-1)%Z -> fs w' (fold_folder (_folder small_repo) 1) = None).
Proof.
  apply (@single_fold_holds_all_rows nat turning logistic small_repo (-1)%Z
           true None true (settled 3)).
  - reflexivity.
  - cbn. lia.
  - apply settled_foldable.
Defined.
